(** * NetteFatura Go client: customer identity resolution

    A shallow embedding of the parts of the package that create a customer,
    recover the id of an already registered one, rank name-sakes by address
    and locality, and look districts up by name.  Go strings are byte
    strings ([string] of Rocq, one [ascii] per byte), [int] is [Z],
    [float64] is the primitive binary64 [float], a [map] is a [gmap], and a
    method of [*Client] is a state transformer over the client and the
    portal it talks to. *)

From Stdlib Require Import ZArith String Ascii List Bool Lia Floats DecimalString.
From Stdlib Require Import DecimalPos DecimalZ.
From stdpp Require Import gmap strings.

Local Open Scope string_scope.
Local Open Scope list_scope.
Local Open Scope Z_scope.

(* 0.3 and 0.2 are read as the nearest binary64 value, as Go's constants are. *)
Set Warnings "-inexact-float".

(** ** Package [strings] *)

Module strings.

(** [strings.Contains(s, substr)]. *)
Fixpoint Contains (s substr : string) : bool :=
  String.prefix substr s ||
  match s with
  | EmptyString => false
  | String _ rest => Contains rest substr
  end.

Definition byte (n : nat) : ascii := ascii_of_nat n.

Definition isByte (n : nat) (c : ascii) : bool := Ascii.eqb c (byte n).

(** The table [asciiSpace] of the package: tab, newline, vertical tab, form
    feed, carriage return and space. *)
Definition asciiSpace (c : ascii) : bool :=
  isByte 9 c || isByte 10 c || isByte 11 c || isByte 12 c || isByte 13 c || isByte 32 c.

(** The code points of [unicode.IsSpace] above U+007F, by their UTF-8
    encoding: U+0085 and U+00A0 take two bytes; U+1680, U+2000 to U+200A,
    U+2028, U+2029, U+202F, U+205F and U+3000 take three. *)
Definition space2 (c1 c2 : ascii) : bool :=
  isByte 194 c1 && (isByte 133 c2 || isByte 160 c2).

Definition space3 (c1 c2 c3 : ascii) : bool :=
  (isByte 225 c1 && isByte 154 c2 && isByte 128 c3)
  || (isByte 226 c1 && isByte 128 c2 &&
      ((128 <=? nat_of_ascii c3)%nat && (nat_of_ascii c3 <=? 138)%nat
       || isByte 168 c3 || isByte 169 c3 || isByte 175 c3))
  || (isByte 226 c1 && isByte 129 c2 && isByte 159 c3)
  || (isByte 227 c1 && isByte 128 c2 && isByte 128 c3).

(** Dropping the white space runes at the front.  [back] tells that the
    bytes come in reverse order (the string is being read from its end), so
    that an encoding is met last byte first. *)
Fixpoint dropSpace (back : bool) (s : string) : string :=
  match s with
  | EmptyString => s
  | String c1 r1 =>
    if asciiSpace c1 then dropSpace back r1 else
    match r1 with
    | EmptyString => s
    | String c2 r2 =>
      if (if back then space2 c2 c1 else space2 c1 c2) then dropSpace back r2 else
      match r2 with
      | EmptyString => s
      | String c3 r3 =>
        if (if back then space3 c3 c2 c1 else space3 c1 c2 c3)
        then dropSpace back r3 else s
      end
    end
  end.

Definition reverse (s : string) : string :=
  string_of_list_ascii (rev (list_ascii_of_string s)).

(** [strings.TrimSpace(s)]: the white space of Unicode is cut from both
    ends. *)
Definition TrimSpace (s : string) : string :=
  reverse (dropSpace true (reverse (dropSpace false s))).

Definition isASCII (s : string) : bool :=
  forallb (fun c => (nat_of_ascii c <? 128)%nat) (list_ascii_of_string s).

Definition lowerByte (c : ascii) : ascii :=
  let n := nat_of_ascii c in
  if (65 <=? n)%nat && (n <=? 90)%nat then ascii_of_nat (n + 32) else c.

Definition mapBytes (f : ascii -> ascii) (s : string) : string :=
  string_of_list_ascii (map f (list_ascii_of_string s)).

(** [strings.ToLower(s)].  A string of ASCII bytes only is lowered byte by
    byte; any other string goes through [strings.Map(unicode.ToLower, s)],
    whose case table is the library's: it is the argument [unicodeLower]. *)
Definition ToLower (unicodeLower : string -> string) (s : string) : string :=
  if isASCII s then mapBytes lowerByte s else unicodeLower s.

(** [strings.NewReplacer(pairs...).Replace(s)] for pairs whose old strings
    are one or two bytes long and none a prefix of another, as those of
    [normalizeString] are: at each position the pair that matches there is
    replaced, else the byte is copied. *)
Definition oldMatches (old : string) (c1 : ascii) (r1 : string) : option string :=
  match old with
  | String o1 EmptyString =>
    if Ascii.eqb o1 c1 then Some r1 else None
  | String o1 (String o2 EmptyString) =>
    match r1 with
    | String c2 r2 => if Ascii.eqb o1 c1 && Ascii.eqb o2 c2 then Some r2 else None
    | EmptyString => None
    end
  | _ => None
  end.

Fixpoint lookupPair (pairs : list (string * string)) (c1 : ascii) (r1 : string)
  : option (string * bool) :=
  match pairs with
  | [] => None
  | (old, new) :: more =>
    match oldMatches old c1 r1 with
    | Some rest => Some (new, (String.length old =? 2)%nat)
    | None => lookupPair more c1 r1
    end
  end.

Fixpoint Replace (pairs : list (string * string)) (s : string) : string :=
  match s with
  | EmptyString => EmptyString
  | String c1 r1 =>
    match lookupPair pairs c1 r1 with
    | Some (new, two) =>
      new +:+
      (if two then match r1 with
                   | String _ r2 => Replace pairs r2
                   | EmptyString => EmptyString
                   end
       else Replace pairs r1)
    | None => String c1 (Replace pairs r1)
    end
  end.

End strings.

(** ** Package [fmt] *)

Module fmt.

(** [fmt.Sprintf("%d", n)]. *)
Definition Sprintf_d (n : Z) : string := NilZero.string_of_int (Z.to_int n).

Definition isDigit (c : ascii) : bool :=
  (48 <=? nat_of_ascii c)%nat && (nat_of_ascii c <=? 57)%nat.

Fixpoint digits (acc : Z) (s : string) : Z :=
  match s with
  | String c rest =>
    if isDigit c then digits (10 * acc + (Z.of_nat (nat_of_ascii c) - 48)) rest else acc
  | EmptyString => acc
  end.

(** White space before a number is skipped by the scanner, but a newline
    there is an error of [Sscanf]. *)
Fixpoint skipBlanks (s : string) : option string :=
  match s with
  | EmptyString => Some s
  | String c1 r1 =>
    if strings.isByte 10 c1 then None else
    if strings.asciiSpace c1 then skipBlanks r1 else
    match r1 with
    | EmptyString => Some s
    | String c2 r2 =>
      if strings.space2 c1 c2 then skipBlanks r2 else
      match r2 with
      | EmptyString => Some s
      | String c3 r3 => if strings.space3 c1 c2 c3 then skipBlanks r3 else Some s
      end
    end
  end.

(** [fmt.Sscanf(s, "%d", &result)] for an [int] that holds 0 before the
    call: blanks, one optional sign, then at least one decimal digit; the
    value must fit 64 bits.  On any error the variable keeps its 0.  What
    follows the digits is not looked at. *)
Definition Sscanf_d (s : string) : Z :=
  match skipBlanks s with
  | None => 0
  | Some t =>
    let '(neg, u) :=
      match t with
      | String c rest =>
        if strings.isByte 45 c then (true, rest)
        else if strings.isByte 43 c then (false, rest) else (false, t)
      | EmptyString => (false, t)
      end in
    match u with
    | String c _ =>
      if isDigit c then
        let v := if neg then - digits 0 u else digits 0 u in
        if (- 2 ^ 63 <=? v) && (v <=? 2 ^ 63 - 1) then v else 0
      else 0
    | EmptyString => 0
    end
  end.

End fmt.

(** An [error] is kept by its message, the text of [err.Error()];
    [fmt.Errorf("...: %w", err)] puts its prefix before the message it
    wraps. *)
Abbreviation error := string.

Inductive result (A : Type) : Type :=
| Ok (a : A)
| Err (e : error).
Arguments Ok {A} a.
Arguments Err {A} e.

(** [float64(n)] for an [int] of 64 bits: the nearest binary64 value.  The
    least [int] has no opposite that fits 63 bits and is converted apart;
    it is a power of two, so the conversion is exact. *)
Definition float64 (n : Z) : float :=
  if n =? - 2 ^ 63 then (- 0x1p+63)%float
  else if n <? 0 then PrimFloat.opp (PrimFloat.of_uint63 (Uint63.of_Z (- n)))
  else PrimFloat.of_uint63 (Uint63.of_Z n).

(** [len(s)] counts bytes. *)
Definition len (s : string) : Z := Z.of_nat (String.length s).

(** The double quote, for the patterns that hold one. *)
Definition dq : string := String (ascii_of_nat 34) EmptyString.

(** ** Data *)

Record Config := {
  BaseURL : string;
  CompanyID : string;
  MeasureUnit : Z;
  CurrencyCode : string
}.

Record Customer := {
  Name : string;
  TaxNumber : string;
  Email : string;
  Phone : string;
  Address : string;
  CityID : string;
  CityName : string;
  DistrictID : string;
  PostalCode : string;
  BuildingNo : string;
  TaxOfficeID : string;
  CustomerType : Z;
  SendingType : Z
}.

(** [&Customer{}]: every field at its zero value. *)
Definition emptyCustomer : Customer :=
  {| Name := ""; TaxNumber := ""; Email := ""; Phone := ""; Address := "";
     CityID := ""; CityName := ""; DistrictID := ""; PostalCode := "";
     BuildingNo := ""; TaxOfficeID := ""; CustomerType := 0; SendingType := 0 |}.

(** A row of the customer list.  Of the twenty-six fields of the Go struct
    these are kept; the functions below read [IdAlici], [AliciAdi], [IdIl]
    and [IdIlce] only. *)
Record RecipientListItem := {
  IdAlici : Z;
  AliciAdi : string;
  Vnktckn : string;
  IdIl : Z;
  IdIlce : Z;
  State : Z
}.

Record RecipientListResponse := {
  Draw : Z;
  RecordsTotal : Z;
  RecordsFiltered : Z;
  Data : list RecipientListItem
}.

(** What [json.Unmarshal] stores in an [interface{}]. *)
#[warnings="-register-all"] Inductive JSON : Type :=
| JNull
| JBool (b : bool)
| JNumber (f : float)
| JString (s : string)
| JArray (l : list JSON)
| JObject (m : list (string * JSON)).

(** The type assertion [v.(string)] on a map entry: the value and [ok]. *)
Definition assertString (v : option JSON) : string * bool :=
  match v with
  | Some (JString s) => (s, true)
  | _ => ("", false)
  end.

(** The type assertion [v.(float64)]. *)
Definition assertFloat64 (v : option JSON) : float * bool :=
  match v with
  | Some (JNumber f) => (f, true)
  | _ => (0%float, false)
  end.

(** ** The transport *)

(** A request as the client builds it; the body is kept as the form values
    it encodes, in the order the source lists them. *)
Record Request := {
  Method : string;
  URL : string;
  Header : list (string * string);
  Form : list (string * string)
}.

(** A response: its status and what [io.ReadAll(resp.Body)] gives. *)
Record Response := {
  StatusCode : Z;
  ReadAll : result string
}.

(** The functions of Go's library whose tables and grammars are not part
    of the package. *)
Class Library := {
  (** [strings.Map(unicode.ToLower, s)] *)
  unicodeLower : string -> string;
  (** [regexp.MustCompile(pattern).FindStringSubmatch(s)] *)
  FindStringSubmatch : string -> string -> list string;
  (** the error of [http.NewRequest(method, url, body)], if any *)
  NewRequestError : string -> string -> option error;
  (** [json.Unmarshal(body, &result)] for a [map[string]interface{}] *)
  UnmarshalObject : string -> result (gmap string JSON);
  (** [json.Unmarshal(body, &result)] for a [RecipientListResponse] *)
  UnmarshalRecipientList : string -> result RecipientListResponse;
  (** [fmt.Sprintf("%.0f", f)] *)
  Sprintf_f0 : float -> string
}.

(** The portal behind [c.httpClient]: it answers a request from its own
    state (sessions, cookies, stored customers), or the exchange fails.
    [RoundTrip] is one call on [c.httpClient] ([Get], [Do] or [PostForm])
    as the client sees it: the request is the one the call is given, the
    response is the one the call returns.  [NewClient] sets no
    [CheckRedirect], so a redirect is followed inside the call, and the
    response is then the one of the page redirected to. *)
Class Portal (W : Type) := {
  RoundTrip : W -> Request -> result Response * W
}.

(** [*Client].  [httpClient] stands for the portal the client is connected
    to, and [sent] records every request handed to it, newest first: one
    entry for each call on [c.httpClient], not for each exchange on the
    wire. *)
Record Client (W : Type) := {
  httpClient : W;
  sent : list Request;
  config : Config;
  token : string
}.
Arguments httpClient {W} c.
Arguments sent {W} c.
Arguments config {W} c.
Arguments token {W} c.

(** A method of [*Client]: it returns a value and leaves the client in a new
    state. *)
Definition M (W A : Type) : Type := Client W -> A * Client W.

Definition ret {W A} (a : A) : M W A := fun c => (a, c).

Definition bind {W A B} (m : M W A) (k : A -> M W B) : M W B :=
  fun c => let (a, c1) := m c in k a c1.

Notation "'let*' x ':=' m 'in' k" := (bind m (fun x => k))
  (at level 10, x pattern, m at level 100, k at level 200).

Definition getConfig {W} : M W Config := fun c => (config c, c).

Definition getToken {W} : M W string := fun c => (token c, c).

(** [c.token = t] *)
Definition setToken {W} (t : string) : M W unit := fun c =>
  (tt, {| httpClient := httpClient c; sent := sent c; config := config c; token := t |}).

(** [c.httpClient.Do(req)] *)
Definition Do {W} `{Portal W} (req : Request) : M W (result Response) := fun c =>
  let (r, w) := RoundTrip (httpClient c) req in
  (r, {| httpClient := w; sent := req :: sent c; config := config c; token := token c |}).

(** The request of [c.httpClient.Get(url)]. *)
Definition getRequest (url : string) : Request :=
  {| Method := "GET"; URL := url; Header := []; Form := [] |}.

(** [c.httpClient.Get(url)] *)
Definition Get {W} `{Portal W} (url : string) : M W (result Response) :=
  Do (getRequest url).

(** ** The client *)

Section ClientMethods.

Context {W : Type} `{Portal W} `{Library}.

Definition ToLower (s : string) : string := strings.ToLower unicodeLower s.

Definition tokenPattern : string :=
  "name=" +:+ dq +:+ "__RequestVerificationToken" +:+ dq +:+ ".*?value="
  +:+ dq +:+ "([^" +:+ dq +:+ "]+)" +:+ dq.

(** [updateToken] fetches a page and keeps the CSRF token it renders. *)
Definition updateToken (path : string) : M W (option error) :=
  let* cfg := getConfig in
  let* r := Get (BaseURL cfg +:+ path) in
  match r with
  | Err err => ret (Some err)
  | Ok resp =>
    match ReadAll resp with
    | Err err => ret (Some err)
    | Ok body =>
      let matches := FindStringSubmatch tokenPattern body in
      if (length matches <? 2)%nat then ret (Some "token bulunamadı")
      else
        let* _ := setToken (nth 1 matches "") in
        ret None
    end
  end.

(** The defaults [CreateCustomer] gives to the fields left at zero. *)
Definition withDefaults (customer : Customer) : Customer :=
  {| Name := Name customer;
     TaxNumber := TaxNumber customer;
     Email := Email customer;
     Phone := Phone customer;
     Address := Address customer;
     CityID := CityID customer;
     CityName := CityName customer;
     DistrictID := DistrictID customer;
     PostalCode := PostalCode customer;
     BuildingNo := if String.eqb (BuildingNo customer) "" then "1" else BuildingNo customer;
     TaxOfficeID := if String.eqb (TaxOfficeID customer) "" then "-1" else TaxOfficeID customer;
     CustomerType := if CustomerType customer =? 0 then 1 else CustomerType customer;
     SendingType := if SendingType customer =? 0 then 1 else SendingType customer |}.

Definition xhrHeaders : list (string * string) :=
  [("Content-Type", "application/x-www-form-urlencoded; charset=UTF-8");
   ("X-Requested-With", "XMLHttpRequest")].

Definition createForm (cfg : Config) (tok : string) (customer : Customer)
  : list (string * string) :=
  [("AliciAdi", Name customer);
   ("Vnktckn", TaxNumber customer);
   ("Email", Email customer);
   ("Telefon", Phone customer);
   ("FaturaGonderimSekli", fmt.Sprintf_d (SendingType customer));
   ("IdIl", CityID customer);
   ("IdIlce", DistrictID customer);
   ("IlAdi", CityName customer);
   ("IdVergiDairesi", TaxOfficeID customer);
   ("SokakAdi", Address customer);
   ("BinaNo", BuildingNo customer);
   ("PostaKodu", PostalCode customer);
   ("AliciTipi", fmt.Sprintf_d (CustomerType customer));
   ("IdAliciTipi", "1");
   ("IdFirma", CompanyID cfg);
   ("WebSite", "");
   ("Fax", "");
   ("Musterino", "");
   ("IrsaliyeAlicisi", "false");
   ("__RequestVerificationToken", tok)].

Definition createRequest (cfg : Config) (tok : string) (customer : Customer) : Request :=
  {| Method := "POST"; URL := BaseURL cfg +:+ "/Recipient/Create";
     Header := xhrHeaders; Form := createForm cfg tok customer |}.

(** [CreateCustomer] creates a new customer and returns its id. *)
Definition CreateCustomer (customer : Customer) : M W (string * option error) :=
  let* err := updateToken "/Invoice/CreateQuick" in
  match err with
  | Some err => ret ("", Some ("token güncellenemedi: " +:+ err))
  | None =>
    if String.eqb (Name customer) "" then
      ret ("", Some "müşteri adı zorunludur")
    else if String.eqb (TaxNumber customer) "" then
      ret ("", Some "TC kimlik no zorunludur")
    else if (SendingType customer =? 1) && String.eqb (Email customer) "" then
      ret ("", Some "elektronik gönderim için e-posta zorunludur")
    else
      let customer := withDefaults customer in
      let* cfg := getConfig in
      let* tok := getToken in
      let url := BaseURL cfg +:+ "/Recipient/Create" in
      match NewRequestError "POST" url with
      | Some err => ret ("", Some ("request oluşturulamadı: " +:+ err))
      | None =>
        let* r := Do (createRequest cfg tok customer) in
        match r with
        | Err err => ret ("", Some ("müşteri oluşturma isteği başarısız: " +:+ err))
        | Ok resp =>
          match ReadAll resp with
          | Err err => ret ("", Some ("response okunamadı: " +:+ err))
          | Ok body =>
            match UnmarshalObject body with
            | Err err => ret ("", Some ("JSON parse hatası: " +:+ err))
            | Ok result =>
              let '(errorMsg, ok) := assertString (result !! "error") in
              if ok && negb (String.eqb errorMsg "") then
                ret ("", Some ("müşteri oluşturma hatası: " +:+ errorMsg))
              else
              let '(errorMsg, ok) := assertString (result !! "ErrorMessage") in
              if ok && negb (String.eqb errorMsg "") then
                ret ("", Some ("müşteri oluşturma hatası: " +:+ errorMsg))
              else
              let '(idAlici, ok) := assertFloat64 (result !! "IdAlici") in
              if ok then ret (Sprintf_f0 idAlici, None)
              else ret ("", Some ("müşteri ID bulunamadı: " +:+ body))
            end
          end
        end
      end
  end.

(** The six columns of the list query. *)
Definition columns : list (string * string * string) :=
  [("IdAlici", "false", "false");
   ("ActionButtons", "true", "false");
   ("AliciAdi", "true", "false");
   ("Vnktckn", "true", "false");
   ("StateName", "true", "false");
   ("idAliciKaynak", "true", "false")].

Definition columnFields (i : Z) (col : string * string * string)
  : list (string * string) :=
  let '(data, searchable, orderable) := col in
  let key (f : string) := "columns[" +:+ fmt.Sprintf_d i +:+ "]" +:+ f in
  [(key "[data]", data);
   (key "[name]", "");
   (key "[searchable]", searchable);
   (key "[orderable]", orderable);
   (key "[search][value]", "");
   (key "[search][regex]", "false")].

(** [for i, col := range columns { form.Add(...) }] *)
Fixpoint addColumns (i : Z) (cols : list (string * string * string))
  (form : list (string * string)) : list (string * string) :=
  match cols with
  | [] => form
  | col :: more => addColumns (i + 1) more (form ++ columnFields i col)
  end.

Definition listRequest (cfg : Config) (limit : Z) : Request :=
  let form :=
    [("draw", "1");
     ("start", "0");
     ("length", fmt.Sprintf_d limit);
     ("search[value]", "");
     ("search[regex]", "false");
     ("AliciTipi", "0");
     ("CompanyIdFilter", CompanyID cfg);
     ("RecipientState", "1")] in
  let form := addColumns 0 columns form in
  {| Method := "POST"; URL := BaseURL cfg +:+ "/Recipient/GetRecipientList";
     Header := xhrHeaders; Form := form |}.

(** [GetRecipientList] fetches the customer list. *)
Definition GetRecipientList (limit : Z) : M W (result RecipientListResponse) :=
  let limit := if limit <=? 0 then 200 else limit in
  let* cfg := getConfig in
  let url := BaseURL cfg +:+ "/Recipient/GetRecipientList" in
  match NewRequestError "POST" url with
  | Some err => ret (Err ("request oluşturulamadı: " +:+ err))
  | None =>
    let* r := Do (listRequest cfg limit) in
    match r with
    | Err err => ret (Err ("müşteri listesi isteği başarısız: " +:+ err))
    | Ok resp =>
      match ReadAll resp with
      | Err err => ret (Err ("response okunamadı: " +:+ err))
      | Ok body =>
        match UnmarshalRecipientList body with
        | Err err => ret (Err ("JSON parse hatası: " +:+ err))
        | Ok result => ret (Ok result)
        end
      end
    end
  end.

(** The pattern that finds the value of the input field [id]. *)
Definition valuePattern (id : string) : string :=
  "id=" +:+ dq +:+ id +:+ dq +:+ "\s+value=" +:+ dq +:+ "([^" +:+ dq +:+ "]+)" +:+ dq.

Definition cityPattern : string :=
  "id=" +:+ dq +:+ "CityId" +:+ dq +:+ ".*?<option\s+value=" +:+ dq +:+ "(\d+)" +:+ dq
  +:+ "\s+selected>([^<]+)</option>".

(** [matches[i]] when [len(matches) > n], the guard of each extraction. *)
Definition submatch (n i : nat) (matches : list string) : option string :=
  if (n <? length matches)%nat then Some (nth i matches "") else None.

Definition detailRequest (cfg : Config) (recipientID : Z) : Request :=
  {| Method := "GET";
     URL := BaseURL cfg +:+ "/Recipient/Detail?RecipientId=" +:+ fmt.Sprintf_d recipientID;
     Header := [("X-Requested-With", "XMLHttpRequest")]; Form := [] |}.

(** [GetRecipientDetail] fetches the detail page of a customer and reads
    its fields; a field whose pattern does not match stays empty. *)
Definition GetRecipientDetail (recipientID : Z) : M W (result Customer) :=
  let* cfg := getConfig in
  let url := BaseURL cfg +:+ "/Recipient/Detail?RecipientId=" +:+ fmt.Sprintf_d recipientID in
  match NewRequestError "GET" url with
  | Some err => ret (Err ("request oluşturulamadı: " +:+ err))
  | None =>
    let* r := Do (detailRequest cfg recipientID) in
    match r with
    | Err err => ret (Err ("müşteri detay isteği başarısız: " +:+ err))
    | Ok resp =>
      match ReadAll resp with
      | Err err => ret (Err ("response okunamadı: " +:+ err))
      | Ok htmlStr =>
        let field (id : string) : string :=
          default "" (submatch 1 1 (FindStringSubmatch (valuePattern id) htmlStr)) in
        let city := FindStringSubmatch cityPattern htmlStr in
        ret (Ok {|
          Name := default "" (strings.TrimSpace <$>
                    submatch 1 1 (FindStringSubmatch (valuePattern "AliciAdi") htmlStr));
          TaxNumber := field "VknTckn";
          Email := field "Email";
          Phone := field "Telefon";
          Address := field "SokakAdi";
          CityID := default "" (submatch 2 1 city);
          CityName := default "" (strings.TrimSpace <$> submatch 2 2 city);
          DistrictID := "";
          PostalCode := field "PostaKodu";
          BuildingNo := field "BinaNo";
          TaxOfficeID := "";
          CustomerType := 0;
          SendingType := 0 |})
      end
    end
  end.

(** [min] returns the minimum of three integers. *)
Definition min (a b c : Z) : Z :=
  if a <? b then (if a <? c then a else c)
  else if b <? c then b else c.

Definition matrixGet (matrix : list (list Z)) (i j : nat) : Z :=
  nth j (nth i matrix []) 0.

(** [matrix[i][j] = v] *)
Definition matrixSet (matrix : list (list Z)) (i j : nat) (v : Z) : list (list Z) :=
  <[i := <[j := v]> (nth i matrix [])]> matrix.

(** [s1[i] != s2[j]], on bytes. *)
Definition bytesDiffer (s1 : string) (i : nat) (s2 : string) (j : nat) : bool :=
  match String.get i s1, String.get j s2 with
  | Some a, Some b => negb (Ascii.eqb a b)
  | _, _ => true
  end.

(** [levenshteinDistance] fills the table of edit distances between the
    prefixes of the two strings, row after row. *)
Definition levenshteinDistance (s1 s2 : string) : Z :=
  if len s1 =? 0 then len s2
  else if len s2 =? 0 then len s1
  else
    let n1 := String.length s1 in
    let n2 := String.length s2 in
    let matrix := repeat (repeat 0 (n2 + 1)) (n1 + 1) in
    let matrix := fold_left (fun m i => matrixSet m i 0 (Z.of_nat i)) (seq 0 (n1 + 1)) matrix in
    let matrix := fold_left (fun m j => matrixSet m 0 j (Z.of_nat j)) (seq 0 (n2 + 1)) matrix in
    let matrix :=
      fold_left (fun m i =>
        fold_left (fun m j =>
          let cost := if bytesDiffer s1 (i - 1) s2 (j - 1) then 1 else 0 in
          matrixSet m i j
            (min (matrixGet m (i - 1) j + 1)
                 (matrixGet m i (j - 1) + 1)
                 (matrixGet m (i - 1) (j - 1) + cost)))
          (seq 1 n2) m)
        (seq 1 n1) matrix in
    matrixGet matrix n1 n2.

(** [calculateSimilarityScore] gives the similarity of two strings, between
    0 and 1. *)
Definition calculateSimilarityScore (s1 s2 : string) : float :=
  let s1 := ToLower (strings.TrimSpace s1) in
  let s2 := ToLower (strings.TrimSpace s2) in
  if String.eqb s1 s2 then 1%float
  else if String.eqb s1 "" || String.eqb s2 "" then 0%float
  else
    let '(longer, shorter) := if len s1 <? len s2 then (s2, s1) else (s1, s2) in
    let longerLength := float64 (len longer) in
    if PrimFloat.eqb longerLength 0 then 1%float
    else
      let editDistance := levenshteinDistance longer shorter in
      ((longerLength - float64 editDistance) / longerLength)%float.

(** [parseIntOrZero] parses a string to an int, 0 on error. *)
Definition parseIntOrZero (s : string) : Z := fmt.Sscanf_d s.

Record scoredMatch := {
  recipient : RecipientListItem;
  score : float
}.

(** [if cond { score += w }] *)
Definition addIf (cond : bool) (w : float) (score : float) : float :=
  if cond then (score + w)%float else score.

(** The name filter: [for _, recipient := range recipientList.Data]. *)
Fixpoint matchNames (customerNameLower : string) (data : list RecipientListItem)
  (matches : list RecipientListItem) : list RecipientListItem :=
  match data with
  | [] => matches
  | recipient :: more =>
    let recipientNameLower := ToLower (strings.TrimSpace (AliciAdi recipient)) in
    if String.eqb recipientNameLower customerNameLower
    then matchNames customerNameLower more (matches ++ [recipient])
    else matchNames customerNameLower more matches
  end.

(** One turn of the scoring loop, for the candidate [match_]. *)
Definition scoreMatch (customer : Customer) (match_ : RecipientListItem) : M W scoredMatch :=
  let* r := GetRecipientDetail (IdAlici match_) in
  match r with
  | Err detailErr =>
    let score := 0%float in
    let score := addIf (IdIl match_ =? parseIntOrZero (CityID customer)) 0.3 score in
    let score := addIf (IdIlce match_ =? parseIntOrZero (DistrictID customer)) 0.2 score in
    ret {| recipient := match_; score := score |}
  | Ok detail =>
    let score := 0%float in
    let addressScore := calculateSimilarityScore (Address detail) (Address customer) in
    let score := (score + addressScore * 0.5)%float in
    let score := addIf (String.eqb (CityID detail) (CityID customer)) 0.3 score in
    let score := addIf (String.eqb (DistrictID detail) (DistrictID customer)) 0.2 score in
    ret {| recipient := match_; score := score |}
  end.

(** The scoring loop: [for _, match := range matches]. *)
Fixpoint scoreMatches (customer : Customer) (matches : list RecipientListItem)
  (scoredMatches : list scoredMatch) : M W (list scoredMatch) :=
  match matches with
  | [] => ret scoredMatches
  | match_ :: more =>
    let* sm := scoreMatch customer match_ in
    scoreMatches customer more (scoredMatches ++ [sm])
  end.

(** The selection loop: [for _, sm := range scoredMatches[1:]]. *)
Fixpoint pickBest (bestMatch : scoredMatch) (rest : list scoredMatch) : scoredMatch :=
  match rest with
  | [] => bestMatch
  | sm :: more =>
    pickBest (if (score bestMatch <? score sm)%float then sm else bestMatch) more
  end.

(** The text by which the portal says that the customer exists already. *)
Definition alreadyRegistered : string := "zaten kayıtlıdır".

(** [CreateCustomerOrGetExisting] creates the customer or returns the id of
    the one that exists. *)
Definition CreateCustomerOrGetExisting (customer : Customer) : M W (string * option error) :=
  let* (customerID, err) := CreateCustomer customer in
  match err with
  | None => ret (customerID, None)
  | Some err =>
    if strings.Contains err alreadyRegistered then
      let* r := GetRecipientList 500 in
      match r with
      | Err listErr => ret ("", Some ("müşteri listesi alınamadı: " +:+ listErr))
      | Ok recipientList =>
        let customerNameLower := ToLower (strings.TrimSpace (Name customer)) in
        let matches := matchNames customerNameLower (Data recipientList) [] in
        match matches with
        | [] =>
          ret ("", Some ("müşteri zaten kayıtlı ancak listede bulunamadı: " +:+ Name customer))
        | [only] => ret (fmt.Sprintf_d (IdAlici only), None)
        | first :: _ =>
          let* scoredMatches := scoreMatches customer matches [] in
          match scoredMatches with
          | bestMatch :: rest =>
            ret (fmt.Sprintf_d (IdAlici (recipient (pickBest bestMatch rest))), None)
          | [] => ret (fmt.Sprintf_d (IdAlici first), None)
          end
        end
      end
    else ret ("", Some err)
  end.

End ClientMethods.

(** ** Provinces and districts *)

Record City := {
  City_ID : string;
  City_Name : string
}.

Record District := {
  District_ID : Z;
  District_Name : string
}.

Record IlIlceData := {
  Cities : list City;
  Districts : gmap string (list District)
}.

Section Location.

Context `{Library}.

(** The data set is read at start-up from [assets/il-ilce-data.json], which
    is no part of the code: any table can stand for it. *)
Variable locationData : IlIlceData.

Definition turkishLetters : list (string * string) :=
  [("ğ", "g"); ("ü", "u"); ("ş", "s"); ("ı", "i"); ("ö", "o"); ("ç", "c");
   ("İ", "i"); ("I", "i"); ("Ğ", "g"); ("Ü", "u"); ("Ş", "s"); ("Ö", "o");
   ("Ç", "c")].

(** [normalizeString] lowers the case and folds the Turkish letters. *)
Definition normalizeString (s : string) : string :=
  let s := strings.ToLower unicodeLower s in
  let s := strings.TrimSpace s in
  strings.Replace turkishLetters s.

(** The first loop of [GetDistrictID]. *)
Fixpoint directMatch (normalized : string) (isLookingForMerkez : bool)
  (districts : list District) : option Z :=
  match districts with
  | [] => None
  | district :: more =>
    if strings.Contains (normalizeString (District_Name district)) "merkez"
       && isLookingForMerkez
    then Some (District_ID district)
    else if String.eqb (normalizeString (District_Name district)) normalized
    then Some (District_ID district)
    else directMatch normalized isLookingForMerkez more
  end.

(** [for _, city := range locationData.Cities]: the name of the province,
    empty when the id is not listed. *)
Fixpoint cityNameOf (cityID : string) (cities : list City) : string :=
  match cities with
  | [] => ""
  | city :: more =>
    if String.eqb (City_ID city) cityID then City_Name city else cityNameOf cityID more
  end.

(** The central districts that carry the name of the province. *)
Fixpoint merkezOfCity (cityNameNormalized : string) (districts : list District) : option Z :=
  match districts with
  | [] => None
  | district :: more =>
    let districtNormalized := normalizeString (District_Name district) in
    if strings.Contains districtNormalized "merkez"
       && strings.Contains districtNormalized cityNameNormalized
    then Some (District_ID district)
    else merkezOfCity cityNameNormalized more
  end.

(** Any central district. *)
Fixpoint anyMerkez (districts : list District) : option Z :=
  match districts with
  | [] => None
  | district :: more =>
    if strings.Contains (normalizeString (District_Name district)) "merkez"
    then Some (District_ID district)
    else anyMerkez more
  end.

(** [GetDistrictID] finds the id of a district from the id of its province
    and its name. *)
Definition GetDistrictID (cityID districtName : string) : Z :=
  match Districts locationData !! cityID with
  | None => -1
  | Some districts =>
    let normalized := normalizeString districtName in
    let isLookingForMerkez := strings.Contains districtName (normalizeString "Merkez") in
    match directMatch normalized isLookingForMerkez districts with
    | Some id => id
    | None =>
      let cityName := cityNameOf cityID (Cities locationData) in
      if negb (String.eqb cityName "") then
        let cityNameNormalized := normalizeString cityName in
        if String.eqb normalized cityNameNormalized then
          match merkezOfCity cityNameNormalized districts with
          | Some id => id
          | None =>
            match anyMerkez districts with
            | Some id => id
            | None => -1
            end
          end
        else -1
      else -1
    end
  end.

(** *** The search order as the specification words it

    A second reading of [GetDistrictID], after the description and not
    after the code: an input that means the centre (it holds "merkez") or
    that is the name of the province looks for a central district with the
    name of the province, then for any central district, and otherwise for
    the district of that very name. *)
Definition firstDistrict (p : District -> bool) (districts : list District) : option Z :=
  District_ID <$> find p districts.

Definition isMerkez (d : District) : bool :=
  strings.Contains (normalizeString (District_Name d)) "merkez".

Definition hasName (normalized : string) (d : District) : bool :=
  String.eqb (normalizeString (District_Name d)) normalized.

Definition holdsName (cityNameNormalized : string) (d : District) : bool :=
  strings.Contains (normalizeString (District_Name d)) cityNameNormalized.

Definition GetDistrictID_described (cityID districtName : string) : Z :=
  match Districts locationData !! cityID with
  | None => -1
  | Some districts =>
    let normalized := normalizeString districtName in
    let cityName := cityNameOf cityID (Cities locationData) in
    let cityNameNormalized := normalizeString cityName in
    let exact := default (-1) (firstDistrict (hasName normalized) districts) in
    if strings.Contains normalized "merkez"
       || (negb (String.eqb cityName "") && String.eqb normalized cityNameNormalized)
    then
      match firstDistrict (fun d => isMerkez d && holdsName cityNameNormalized d) districts with
      | Some id => id
      | None =>
        match firstDistrict isMerkez districts with
        | Some id => id
        | None => exact
        end
      end
    else exact
  end.

(** *** The search order, amended

    A third reading, the one of the amended claim.  It follows the order of
    the code: the exact or central match first, the central districts
    ranked by the name of the province only for an input that is that
    name.  It is not the code: it reads the central intent off the folded
    input, as the folded matching of the claim has it, where the code tests
    the input as written against the folded constant
    ([strings.Contains(districtName, normalizeString("Merkez"))]).  The two
    differ on inputs that spell "merkez" with a capital. *)
Definition GetDistrictID_amended (cityID districtName : string) : Z :=
  match Districts locationData !! cityID with
  | None => -1
  | Some districts =>
    let normalized := normalizeString districtName in
    let cityName := cityNameOf cityID (Cities locationData) in
    let cityNameNormalized := normalizeString cityName in
    let central := strings.Contains normalized "merkez" in
    match firstDistrict (fun d => hasName normalized d || (central && isMerkez d)) districts with
    | Some id => id
    | None =>
      if negb (String.eqb cityName "") && String.eqb normalized cityNameNormalized then
        match firstDistrict (fun d => isMerkez d && holdsName cityNameNormalized d) districts with
        | Some id => id
        | None => default (-1) (firstDistrict isMerkez districts)
        end
      else -1
    end
  end.

End Location.

(** ** The rest of the locality look-up *)

Section LocationRest.

Context `{Library}.

Variable locationData : IlIlceData.

(** The loop of [GetCityID]. *)
Fixpoint cityIDOf (normalized : string) (cities : list City) : string :=
  match cities with
  | [] => "-1"
  | city :: more =>
    if String.eqb (normalizeString (City_Name city)) normalized
    then City_ID city
    else cityIDOf normalized more
  end.

(** [GetCityID] finds the id of a province from its name. *)
Definition GetCityID (cityName : string) : string :=
  let normalized := normalizeString cityName in
  cityIDOf normalized (Cities locationData).

(** [GetDistrictIDByNames] finds the id of a district from the names of the
    province and of the district. *)
Definition GetDistrictIDByNames (cityName districtName : string) : Z :=
  let cityID := GetCityID cityName in
  if String.eqb cityID "-1" then -1
  else GetDistrictID locationData cityID districtName.

(** The loop of [GetCityName]. *)
Fixpoint cityNameByID (cityID : string) (cities : list City) : string :=
  match cities with
  | [] => "-1"
  | city :: more =>
    if String.eqb (City_ID city) cityID then City_Name city
    else cityNameByID cityID more
  end.

(** [GetCityName] finds the name of a province from its id. *)
Definition GetCityName (cityID : string) : string :=
  cityNameByID cityID (Cities locationData).

(** The loop of [GetDistrictName]. *)
Fixpoint districtNameByID (districtID : Z) (districts : list District) : string :=
  match districts with
  | [] => "-1"
  | district :: more =>
    if District_ID district =? districtID then District_Name district
    else districtNameByID districtID more
  end.

(** [GetDistrictName] finds the name of a district from its id. *)
Definition GetDistrictName (cityID : string) (districtID : Z) : string :=
  match Districts locationData !! cityID with
  | None => "-1"
  | Some districts => districtNameByID districtID districts
  end.

End LocationRest.

(** ** Prices *)

(** [CalculatePriceWithoutVAT] *)
Definition CalculatePriceWithoutVAT (priceWithVAT : float) (vatRate : Z) : float :=
  (priceWithVAT / (1 + float64 vatRate / 100))%float.

(** [CalculatePriceWithVAT] *)
Definition CalculatePriceWithVAT (priceWithoutVAT : float) (vatRate : Z) : float :=
  (priceWithoutVAT * (1 + float64 vatRate / 100))%float.

(** [CalculateVATAmount] *)
Definition CalculateVATAmount (priceWithoutVAT : float) (vatRate : Z) : float :=
  (priceWithoutVAT * float64 vatRate / 100)%float.

(** ** Logging in and invoicing *)

(** [strings.Trim(s, cutset)] for a cutset of one ASCII byte: the byte is
    cut from the end, then from the front. *)
Fixpoint trimLeftByte (c : ascii) (s : string) : string :=
  match s with
  | EmptyString => s
  | String a rest => if Ascii.eqb a c then trimLeftByte c rest else s
  end.

Definition trimRightByte (c : ascii) (s : string) : string :=
  strings.reverse (trimLeftByte c (strings.reverse s)).

Definition Trim (s : string) (c : ascii) : string :=
  trimLeftByte c (trimRightByte c s).

(** The values handed to [json.Marshal]; [VNilSlice] is a slice that was
    declared and never appended to. *)
#[warnings="-register-all"] Inductive GoValue : Type :=
| VNil
| VBool (b : bool)
| VInt (n : Z)
| VFloat (f : float)
| VString (s : string)
| VNilSlice
| VSlice (l : list GoValue)
| VMap (m : list (string * GoValue)).

(** Time and JSON encoding, of Go's library: [t.IsZero()],
    [t.Format(layout)] and [json.Marshal(v)]. *)
Class Encoding := {
  Time : Type;
  IsZero : Time -> bool;
  Format : Time -> string -> string;
  Marshal : GoValue -> result string
}.

(** [time.Now()], read when the client is in a given state. *)
Class Clock (W : Type) `{Encoding} := {
  Now : Client W -> Time
}.

Record Product := {
  Product_Name : string;
  Quantity : float;
  Price : float;
  VATRate : Z
}.

Record Invoice `{Encoding} := {
  CustomerID : string;
  Products : list Product;
  Date : Time;
  Notes : list string
}.

Section Invoicing.

Context {W : Type} `{Portal W} `{Library} `{Clock W}.

Definition loginForm (vknTckn password tok : string) : list (string * string) :=
  [("VknTckn", vknTckn);
   ("Password", password);
   ("RememberMe", "on");
   ("__RequestVerificationToken", tok)].

(** The request of [c.httpClient.PostForm(url, form)]. *)
Definition postFormRequest (url : string) (form : list (string * string)) : Request :=
  {| Method := "POST"; URL := url;
     Header := [("Content-Type", "application/x-www-form-urlencoded")];
     Form := form |}.

(** [Login] signs in.  A body that cannot be read counts as empty in the
    message of a refused login. *)
Definition Login (vknTckn password : string) : M W (option error) :=
  let* err := updateToken "/account/login" in
  match err with
  | Some err => ret (Some ("token alınamadı: " +:+ err))
  | None =>
    let* cfg := getConfig in
    let* tok := getToken in
    let* r := Do (postFormRequest (BaseURL cfg +:+ "/Account/Login")
                    (loginForm vknTckn password tok)) in
    match r with
    | Err err => ret (Some ("login isteği başarısız: " +:+ err))
    | Ok resp =>
      if negb (StatusCode resp =? 302) && negb (StatusCode resp =? 200) then
        let body := match ReadAll resp with Ok body => body | Err _ => "" end in
        ret (Some ("login başarısız, status: " +:+ fmt.Sprintf_d (StatusCode resp)
                   +:+ ", body: " +:+ body))
      else ret None
    end
  end.

(** The map of one product line. *)
Definition productMap (cfg : Config) (product : Product) (lineTotal vatAmount : float)
  : GoValue :=
  VMap
    [("ProductInvoiceModelId", VInt 0);
     ("DiscountAmount", VInt 0);
     ("DiscountRate", VInt 0);
     ("LineExtensionAmount", VFloat lineTotal);
     ("MeasureUnitId", VInt (MeasureUnit cfg));
     ("ProductId", VNil);
     ("ProductName", VString (Product_Name product));
     ("Quantity", VFloat (Quantity product));
     ("UnitPrice", VFloat (Price product));
     ("VatAmount", VFloat vatAmount);
     ("VatRate", VInt (VATRate product));
     ("AdditionalTaxes", VSlice []);
     ("WitholdingTaxes", VSlice []);
     ("Deleted", VBool false);
     ("DeliveryList", VSlice []);
     ("CustomsTrackingList", VSlice []);
     ("TaxExemptionReason", VString "");
     ("TaxExemptionReasonCode", VString "");
     ("IdMensei", VInt 0);
     ("Mensei", VNil);
     ("SiniflandirmaKodu", VNil);
     ("IdSiniflandirmaKodu", VInt 0);
     ("GTipNoArcvh", VString "")].

(** [for _, product := range invoice.Products]: the lines and the two
    running totals. *)
Fixpoint productLines (cfg : Config) (todo : list Product) (products : list GoValue)
  (totalLineExtension totalVAT : float) : list GoValue * float * float :=
  match todo with
  | [] => (products, totalLineExtension, totalVAT)
  | product :: more =>
    let lineTotal := (Price product * Quantity product)%float in
    let vatAmount := (lineTotal * float64 (VATRate product) / 100)%float in
    productLines cfg more (products ++ [productMap cfg product lineTotal vatAmount])
      (totalLineExtension + lineTotal)%float (totalVAT + vatAmount)%float
  end.

(** The map that is encoded, from the product lines and the totals. *)
Definition invoiceFields (cfg : Config) (invoice : Invoice) (products : GoValue)
  (totalLineExtension totalVAT : float) : GoValue :=
  let totalAmount := (totalLineExtension + totalVAT)%float in
  let notes := if (length (Notes invoice) =? 0)%nat then [""] else Notes invoice in
  VMap
    [("ETTN", VString "");
     ("InvoiceId", VString "0");
     ("RecipientType", VString "2");
     ("InvoiceNumber", VString "");
     ("CompanyId", VString (CompanyID cfg));
     ("ScenarioType", VString "0");
     ("ReceiverInboxTag", VNil);
     ("InvoiceDate", VString (Format (Date invoice) "02-01-2006"));
     ("InvoiceTime", VString (Format (Date invoice) "15:04:05"));
     ("InvoiceType", VString "1");
     ("LastPaymentDate", VString "");
     ("DispatchList", VSlice []);
     ("IdAlici", VString (CustomerID invoice));
     ("Products", products);
     ("CurrencyCode", VString (CurrencyCode cfg));
     ("CrossRate", VInt 0);
     ("TaxExemptionReason", VString "");
     ("Notes", VSlice (map VString notes));
     ("Receiver", VMap [("SendingType", VString "1")]);
     ("IsFreeOfCharge", VBool false);
     ("KismiIadeMi", VBool false);
     ("CompanyBankAccountList", VSlice []);
     ("TotalLineExtensionAmount", VFloat totalLineExtension);
     ("TotalVATAmount", VFloat totalVAT);
     ("TotalTaxInclusiveAmount", VFloat totalAmount);
     ("TotalDiscountAmount", VInt 0);
     ("TotalPayableAmount", VFloat totalAmount);
     ("RoundCounter", VInt 0)].

(** The invoice as [CreateInvoice] encodes it: the lines are appended to a
    slice made empty. *)
Definition invoiceData (cfg : Config) (invoice : Invoice) : GoValue :=
  let '(products, totalLineExtension, totalVAT) :=
    productLines cfg (Products invoice) [] 0%float 0%float in
  invoiceFields cfg invoice (VSlice products) totalLineExtension totalVAT.

(** The invoice as [CreateInvoiceRaw] encodes it: the lines are appended to
    a slice that is nil until the first one. *)
Definition invoiceDataRaw (cfg : Config) (invoice : Invoice) : GoValue :=
  let '(products, totalLineExtension, totalVAT) :=
    productLines cfg (Products invoice) [] 0%float 0%float in
  invoiceFields cfg invoice
    (match Products invoice with [] => VNilSlice | _ => VSlice products end)
    totalLineExtension totalVAT.

Definition invoiceRequest (cfg : Config) (tok jsonData : string) : Request :=
  {| Method := "POST"; URL := BaseURL cfg +:+ "/Invoice/Create";
     Header := xhrHeaders;
     Form := [("jsonData", jsonData); ("__RequestVerificationToken", tok)] |}.

Definition withDate (invoice : Invoice) (date : Time) : Invoice :=
  {| CustomerID := CustomerID invoice; Products := Products invoice;
     Date := date; Notes := Notes invoice |}.

(** What [CreateInvoice] and [CreateInvoiceRaw] share: the invoice is
    encoded and posted, and the body of the answer is read. *)
Definition postInvoice (data : Config -> GoValue) : M W (result string) :=
  let* cfg := getConfig in
  match Marshal (data cfg) with
  | Err err => ret (Err ("JSON marshal hatası: " +:+ err))
  | Ok jsonData =>
    let* tok := getToken in
    match NewRequestError "POST" (BaseURL cfg +:+ "/Invoice/Create") with
    | Some err => ret (Err ("request oluşturulamadı: " +:+ err))
    | None =>
      let* r := Do (invoiceRequest cfg tok jsonData) in
      match r with
      | Err err => ret (Err ("fatura oluşturma isteği başarısız: " +:+ err))
      | Ok resp =>
        match ReadAll resp with
        | Err err => ret (Err ("response okunamadı: " +:+ err))
        | Ok body => ret (Ok body)
        end
      end
    end
  end.

(** [CreateInvoice] issues an invoice and returns its number. *)
Definition CreateInvoice (invoice : Invoice) : M W (string * option error) :=
  let* err := updateToken "/Invoice/CreateQuick" in
  match err with
  | Some err => ret ("", Some ("token güncellenemedi: " +:+ err))
  | None =>
    let* invoice :=
      (fun c => (if IsZero (Date invoice) then withDate invoice (Now c) else invoice, c)) in
    let* r := postInvoice (fun cfg => invoiceData cfg invoice) in
    match r with
    | Err err => ret ("", Some err)
    | Ok body =>
      let invoiceNo := Trim body (ascii_of_nat 34) in
      if String.eqb invoiceNo "" || strings.Contains invoiceNo "error" then
        ret ("", Some ("fatura oluşturulamadı: " +:+ body))
      else ret (invoiceNo, None)
    end
  end.

(** [CreateInvoiceRaw] issues an invoice and returns the raw body of the
    answer. *)
Definition CreateInvoiceRaw (invoice : Invoice) : M W (result string) :=
  if String.eqb (CustomerID invoice) "" then ret (Err "müşteri ID gerekli")
  else
    let* err := updateToken "/Invoice/CreateQuick" in
    match err with
    | Some err => ret (Err ("token güncellenemedi: " +:+ err))
    | None => postInvoice (fun cfg => invoiceDataRaw cfg invoice)
    end.

(** [CreateInvoiceWithCustomer] creates the customer when there is none and
    issues the invoice. *)
Definition CreateInvoiceWithCustomer (customer : option Customer) (products : list Product)
  : M W (string * option error) :=
  match customer with
  | None => ret ("", Some "müşteri bilgisi gerekli")
  | Some customer =>
    let* (id, err) := CreateCustomerOrGetExisting customer in
    match err with
    | Some err => ret ("", Some ("müşteri işlemi başarısız: " +:+ err))
    | None =>
      let customerID := id in
      let* now := (fun c => (Now c, c)) in
      let invoice := {| CustomerID := customerID; Products := products;
                        Date := now; Notes := [] |} in
      let* (invoiceNo, err) := CreateInvoice invoice in
      match err with
      | Some err => ret ("", Some ("fatura oluşturulamadı: " +:+ err))
      | None => ret (invoiceNo, None)
      end
    end
  end.

End Invoicing.

(** ** What is observed of a call *)

Section Observations.

Context {W : Type} `{Portal W} `{Library}.

(** [reaches c l c']: the client [c'] is [c] after the requests [l] were
    sent, newest first; the configuration is the same. *)
Definition reaches (c : Client W) (l : list Request) (c' : Client W) : Prop :=
  sent c' = l ++ sent c /\ config c' = config c.

(** The requests sent between two states of a client. *)
Definition sentSince (c c' : Client W) : list Request :=
  take (length (sent c') - length (sent c)) (sent c').

(** The name of a listed customer is the name of [customer], case and
    outer white space apart. *)
Definition sameName (customer : Customer) (r : RecipientListItem) : bool :=
  String.eqb (ToLower (strings.TrimSpace (AliciAdi r)))
             (ToLower (strings.TrimSpace (Name customer))).

Definition notFound (customer : Customer) : error :=
  "müşteri zaten kayıtlı ancak listede bulunamadı: " +:+ Name customer.

(** The candidates of the list that bear the name of the customer. *)
Definition candidates (customer : Customer) (rl : RecipientListResponse)
  : list RecipientListItem :=
  List.filter (sameName customer) (Data rl).

(** The outcome of the path that lists and ranks, entered in state [c1]:
    the list may fail; else the detail pages of candidates are fetched, and
    the answer is the not-found error or the id of a candidate. *)
Definition listedAndRanked (customer : Customer) (c1 : Client W)
  (final : (string * option error) * Client W) : Prop :=
  match GetRecipientList 500 c1 with
  | (Err listErr, c2) =>
    final = (("", Some ("müşteri listesi alınamadı: " +:+ listErr)), c2)
  | (Ok rl, c2) =>
    exists l, reaches c2 l (snd final)
      /\ Forall (fun req => exists m, In m (candidates customer rl)
                   /\ req = detailRequest (config c1) (IdAlici m)) l
      /\ ((candidates customer rl = [] /\ fst final = ("", Some (notFound customer)))
          \/ exists m, In m (candidates customer rl)
               /\ fst final = (fmt.Sprintf_d (IdAlici m), None))
  end.

(** The score of a candidate whose detail page was read: half the
    similarity of the addresses, 0.3 for the same province, 0.2 for the
    same district, summed in this order from 0. *)
Definition detailScore (customer detail : Customer) : float :=
  let sim := calculateSimilarityScore (Address detail) (Address customer) in
  addIf (String.eqb (DistrictID detail) (DistrictID customer)) 0.2
    (addIf (String.eqb (CityID detail) (CityID customer)) 0.3
       (0 + sim * 0.5)%float).

(** The score of a candidate whose detail page could not be read, from the
    ids of its row in the list. *)
Definition listScore (customer : Customer) (m : RecipientListItem) : float :=
  addIf (IdIlce m =? parseIntOrZero (DistrictID customer)) 0.2
    (addIf (IdIl m =? parseIntOrZero (CityID customer)) 0.3 0%float).

Definition compositeScore (customer : Customer) (m : RecipientListItem)
  (detail : result Customer) : float :=
  match detail with
  | Ok detail => detailScore customer detail
  | Err _ => listScore customer m
  end.

(** The scores of the candidates, each from the answer the portal gives
    when its turn comes. *)
Fixpoint scoresOf (customer : Customer) (matches : list RecipientListItem)
  (c : Client W) : list scoredMatch :=
  match matches with
  | [] => []
  | m :: more =>
    let (detail, c') := GetRecipientDetail (IdAlici m) c in
    {| recipient := m; score := compositeScore customer m detail |}
    :: scoresOf customer more c'
  end.

(** A required field is missing: the name, the tax number, or the e-mail
    of a customer whose sending type is electronic (1). *)
Definition missingField (customer : Customer) : Prop :=
  Name customer = "" \/ TaxNumber customer = ""
  \/ (Email customer = "" /\ SendingType customer = 1).

(** The messages of the three local checks. *)
Definition validationMessages : list error :=
  ["müşteri adı zorunludur"; "TC kimlik no zorunludur";
   "elektronik gönderim için e-posta zorunludur"].

(** The request that refreshes the token before a customer is created. *)
Definition tokenRefresh (c : Client W) : Request :=
  getRequest (BaseURL (config c) +:+ "/Invoice/CreateQuick").

End Observations.

(** ** What the helpers compute

    The definitions below say what a helper of the client computes, or what
    a run leaves behind; the theorems on the helpers are stated with them. *)

(** The edit distance of two byte sequences, by recursion on both: the
    least number of bytes to insert, delete or replace. *)
Fixpoint editDistance (l1 : list ascii) : list ascii -> Z :=
  fix inner (l2 : list ascii) : Z :=
    match l1, l2 with
    | [], _ => Z.of_nat (length l2)
    | _, [] => Z.of_nat (length l1)
    | a :: s, b :: t =>
      min (editDistance s l2 + 1) (inner t + 1)
          (editDistance s t + (if Ascii.eqb a b then 0 else 1))
    end.

Definition bytes (s : string) : list ascii := list_ascii_of_string s.

(** A matrix of [r] rows of [c] cells each. *)
Definition table (r c : nat) (m : list (list Z)) : Prop :=
  length m = r /\ Forall (fun row => length row = c) m.

(** The distance of the first [i] bytes of [s1] to the first [j] bytes of
    [s2]. *)
Definition prefixDistance (s1 s2 : string) (i j : nat) : Z :=
  editDistance (rev (take i (bytes s1))) (rev (take j (bytes s2))).

(** The body of the inner loop of [levenshteinDistance]. *)
Definition fillCell (s1 s2 : string) (m : list (list Z)) (i j : nat) : list (list Z) :=
  let cost := if bytesDiffer s1 (i - 1) s2 (j - 1) then 1 else 0 in
  matrixSet m i j
    (min (matrixGet m (i - 1) j + 1)
         (matrixGet m i (j - 1) + 1)
         (matrixGet m (i - 1) (j - 1) + cost)).

Definition startsWithDigit (s : string) : bool :=
  match s with
  | String c _ => fmt.isDigit c
  | EmptyString => false
  end.

(** A value that fits an [int], or 0. *)
Definition inRange (v : Z) : Z :=
  if (- 2 ^ 63 <=? v) && (v <=? 2 ^ 63 - 1) then v else 0.

Section Readings.

Context {W : Type} `{Portal W} `{Library} `{Encoding}.

(** Two names are the same province or district name when they fold to
    the same text. *)
Definition sameFolded (a b : string) : Prop := normalizeString a = normalizeString b.

(** A district answers a name when it bears it or is a central one. *)
Definition answers (districtName : string) (d : District) : Prop :=
  sameFolded (District_Name d) districtName
  \/ strings.Contains (normalizeString (District_Name d)) "merkez" = true.

(** [steps c l c']: [l] was sent between [c] and [c'], which differ in
    nothing else but the state of the portal. *)
Definition steps (c : Client W) (l : list Request) (c' : Client W) : Prop :=
  sent c' = l ++ sent c /\ config c' = config c /\ token c' = token c.

(** The eight patterns that [GetRecipientDetail] looks for on a page. *)
Definition detailPatterns : list string :=
  map valuePattern
    ["AliciAdi"; "VknTckn"; "Email"; "Telefon"; "SokakAdi"; "PostaKodu"; "BinaNo"]
  ++ [cityPattern].

(** The invoice that [CreateInvoice] encodes: a zero date is replaced by
    the time of the call. *)
Definition dated (invoice : Invoice) (now : Time) : Invoice :=
  if IsZero (Date invoice) then withDate invoice now else invoice.

(** The line of a product on an invoice. *)
Definition lineOf (cfg : Config) (product : Product) : GoValue :=
  let lineTotal := (Price product * Quantity product)%float in
  productMap cfg product lineTotal (lineTotal * float64 (VATRate product) / 100)%float.

(** The sum of the line totals, and of the taxes, taken from the left. *)
Definition lineTotals (products : list Product) : float * float :=
  fold_left
    (fun '(total, vat) product =>
       let lineTotal := (Price product * Quantity product)%float in
       ((total + lineTotal)%float,
        (vat + lineTotal * float64 (VATRate product) / 100)%float))
    products (0%float, 0%float).

(** The number that [CreateInvoice] reads in the body of an answer. *)
Definition invoiceNumber (body : string) : string * option error :=
  let invoiceNo := Trim body (ascii_of_nat 34) in
  if String.eqb invoiceNo "" || strings.Contains invoiceNo "error"
  then ("", Some ("fatura oluşturulamadı: " +:+ body))
  else (invoiceNo, None).

End Readings.

(** ** A scripted portal

    Closed runs of the client need a portal and a library.  The portal
    below answers from a script, one entry per request, and refuses the
    connection when the script is over.  The library reads bodies of a few
    fixed shapes, which is all the runs below send it. *)

Module Scripted.

#[export] Instance portal : Portal (list (result Response)) := {
  RoundTrip script req :=
    match script with
    | [] => (Err "connection refused", [])
    | answer :: later => (answer, later)
    end
}.

Definition page (body : string) : result Response :=
  Ok {| StatusCode := 200; ReadAll := Ok body |}.

(** ["%.0f"] of a float: the nearest integer, ties to even. *)
Definition roundEven (m e : Z) : Z :=
  if 0 <=? e then m * 2 ^ e
  else
    let d := 2 ^ (- e) in
    let q := m / d in
    let r := m mod d in
    if 2 * r <? d then q
    else if d <? 2 * r then q + 1
    else if Z.even q then q else q + 1.

Definition format_f0 (f : float) : string :=
  match Prim2SF f with
  | S754_zero s => if s then "-0" else "0"
  | S754_infinity s => if s then "-Inf" else "+Inf"
  | S754_nan => "NaN"
  | S754_finite s m e =>
    (if s then "-" else "") +:+ fmt.Sprintf_d (roundEven (Z.pos m) e)
  end.

Definition ayse (id il ilce : Z) : RecipientListItem :=
  {| IdAlici := id; AliciAdi := "Ayse Kaya"; Vnktckn := "11111111111";
     IdIl := il; IdIlce := ilce; State := 1 |}.

Definition listOf (data : list RecipientListItem) : RecipientListResponse :=
  {| Draw := 1; RecordsTotal := Z.of_nat (length data);
     RecordsFiltered := Z.of_nat (length data); Data := data |}.

(** A body ["token=T"] renders the token [T]; any other page has none. *)
Definition findToken (body : string) : list string :=
  match body with
  | String "t" (String "o" (String "k" (String "e" (String "n" (String "=" t))))) =>
    if String.eqb t "" then [] else [body; t]
  | _ => []
  end.

#[export] Instance library : Library := {
  unicodeLower s := s;
  FindStringSubmatch pattern body :=
    if String.eqb pattern tokenPattern then findToken body else [];
  NewRequestError method url := None;
  UnmarshalObject body :=
    if String.eqb body "created" then Ok {[ "IdAlici" := JNumber 1042%float ]}
    else if String.eqb body "duplicate" then
      Ok {[ "error" := JString "Bu alici zaten kayıtlıdır." ]}
    else if String.eqb body "rejected" then
      Ok {[ "ErrorMessage" := JString "Vergi numarasi gecersiz" ]}
    else Err "invalid character";
  UnmarshalRecipientList body :=
    if String.eqb body "none" then Ok (listOf [])
    else if String.eqb body "one" then Ok (listOf [ayse 7 28 413])
    else if String.eqb body "two" then Ok (listOf [ayse 1 28 413; ayse 2 6 100])
    else Err "invalid character";
  Sprintf_f0 := format_f0
}.

Definition cfg : Config :=
  {| BaseURL := "https://portal.test"; CompanyID := "99"; MeasureUnit := 67;
     CurrencyCode := "TRY" |}.

(** A client that holds the token ["stale"] and has sent nothing yet. *)
Definition client (script : list (result Response)) : Client (list (result Response)) :=
  {| httpClient := script; sent := []; config := cfg; token := "stale" |}.

Definition ayseKaya : Customer :=
  {| Name := "Ayse Kaya"; TaxNumber := "11111111111"; Email := "ayse@example.com";
     Phone := ""; Address := "Test Mahallesi No:1"; CityID := "28"; CityName := "";
     DistrictID := "413"; PostalCode := ""; BuildingNo := ""; TaxOfficeID := "";
     CustomerType := 0; SendingType := 0 |}.

(** The portal says that the customer exists, then lists two customers of
    the name and refuses the connection when their detail is asked for. *)
Definition twoNamesakes : Client (list (result Response)) :=
  client [page "token=abc"; page "duplicate"; page "two"].

(** The state of [twoNamesakes] once the creation has failed, and once the
    list has come back. *)
Definition afterCreation : Client (list (result Response)) :=
  snd (CreateCustomer ayseKaya twoNamesakes).

Definition afterListing : Client (list (result Response)) :=
  snd (GetRecipientList 500 afterCreation).

(** The portal rejects the customer for another reason. *)
Definition rejection : Client (list (result Response)) :=
  client [page "token=abc"; page "rejected"].

(** A detail page on which no field is found. *)
Definition blankDetail : Client (list (result Response)) :=
  client [page "<html></html>"].

(** The customer of the runs above, without a name. *)
Definition nameless : Customer :=
  {| Name := ""; TaxNumber := "11111111111"; Email := "ayse@example.com";
     Phone := ""; Address := "Test Mahallesi No:1"; CityID := "28"; CityName := "";
     DistrictID := "413"; PostalCode := ""; BuildingNo := ""; TaxOfficeID := "";
     CustomerType := 0; SendingType := 0 |}.

(** The same customer with no e-mail and the sending type left unset. *)
Definition noEmail : Customer :=
  {| Name := "Ayse Kaya"; TaxNumber := "11111111111"; Email := "";
     Phone := ""; Address := "Test Mahallesi No:1"; CityID := "28"; CityName := "";
     DistrictID := "413"; PostalCode := ""; BuildingNo := ""; TaxOfficeID := "";
     CustomerType := 0; SendingType := 0 |}.

(** The portal renders the token ["abc"] on the page of the form. *)
Definition freshPage : Client (list (result Response)) :=
  client [page "token=abc"].

(** The portal renders the token and accepts the customer. *)
Definition acceptance : Client (list (result Response)) :=
  client [page "token=abc"; page "created"].

(** A province with two districts whose names hold "merkez". *)
Definition denizli : IlIlceData :=
  {| Cities := [{| City_ID := "20"; City_Name := "Denizli" |}];
     Districts :=
       {[ "20" := [{| District_ID := 10; District_Name := "Merkezefendi" |};
                   {| District_ID := 20; District_Name := "Denizli Merkez" |}] ]} |}.

End Scripted.

(** ** Samples for the locality table and for invoices

    A table of two provinces, and stand-ins for the clock and for the
    encoder of Go's library: the time is a count of seconds, zero for the
    zero time, and the encoder writes the fields in the order given,
    numbers rounded, without escapes. *)

Module Samples.

Import Scripted.

Definition ege : IlIlceData :=
  {| Cities := [{| City_ID := "35"; City_Name := "IZMIR" |};
                {| City_ID := "20"; City_Name := "Denizli" |}];
     Districts :=
       {[ "35" := [{| District_ID := 1; District_Name := "Bornova" |};
                   {| District_ID := 2; District_Name := "Konak" |}];
          "20" := [{| District_ID := 10; District_Name := "Merkezefendi" |};
                   {| District_ID := 20; District_Name := "Pamukkale" |}] ]} |}.

Fixpoint encode (v : GoValue) : string :=
  match v with
  | VNil => "null"
  | VBool b => if b then "true" else "false"
  | VInt n => fmt.Sprintf_d n
  | VFloat f => format_f0 f
  | VString s => dq +:+ s +:+ dq
  | VNilSlice => "null"
  | VSlice l =>
    "[" +:+ (fix items (l : list GoValue) : string :=
               match l with
               | [] => ""
               | [x] => encode x
               | x :: more => encode x +:+ "," +:+ items more
               end) l +:+ "]"
  | VMap m =>
    "{" +:+ (fix fields (m : list (string * GoValue)) : string :=
               match m with
               | [] => ""
               | [(k, x)] => dq +:+ k +:+ dq +:+ ":" +:+ encode x
               | (k, x) :: more =>
                 dq +:+ k +:+ dq +:+ ":" +:+ encode x +:+ "," +:+ fields more
               end) m +:+ "}"
  end.

#[export] Instance encoding : Encoding := {
  Time := Z;
  IsZero t := t =? 0;
  Format t layout := layout +:+ "@" +:+ fmt.Sprintf_d t;
  Marshal v := Ok (encode v)
}.

(** The clock shows one second more for every request sent. *)
#[export] Instance clock : Clock (list (result Response)) := {
  Now c := 1 + Z.of_nat (length (sent c))
}.

Definition kalem : Product :=
  {| Product_Name := "Kalem"; Quantity := 2; Price := 10; VATRate := 20 |}.

Definition invoiceOfAyse : Invoice :=
  {| CustomerID := "1042"; Products := [kalem]; Date := 5; Notes := [] |}.

(** The same invoice with the zero date. *)
Definition undated : Invoice :=
  {| CustomerID := "1042"; Products := [kalem]; Date := 0; Notes := [] |}.

(** The same invoice without the id of the customer. *)
Definition invoiceOfNobody : Invoice :=
  {| CustomerID := ""; Products := [kalem]; Date := 5; Notes := [] |}.

(** The body of an answer that holds an invoice number. *)
Definition numbered : string := dq +:+ "NET2025000000042" +:+ dq.

(** The portal renders the token and gives the invoice a number. *)
Definition invoicing : Client (list (result Response)) :=
  client [page "token=abc"; page numbered].

(** The portal renders the token and redirects the login. *)
Definition signingIn : Client (list (result Response)) :=
  client [page "token=abc"; Ok {| StatusCode := 302; ReadAll := Ok "" |}].

(** The portal accepts the customer, then gives the invoice a number. *)
Definition sale : Client (list (result Response)) :=
  client [page "token=abc"; page "created"; page "token=def"; page numbered].

End Samples.


(** ** The order on [float64] *)

Section FloatOrder.

Lemma SFltb_irrefl (x : spec_float) : SFltb x x = false.
Proof.
  unfold SFltb, SFcompare.
  destruct x as [s | s | | s m e]; try destruct s; try reflexivity;
    rewrite Z.compare_refl, Pos.compare_cont_refl; reflexivity.
Qed.

Lemma Pcompare_gt (m n : positive) : Pos.compare_cont Eq m n = Gt <-> (n < m)%positive.
Proof. fold (Pos.compare m n). rewrite Pos.compare_gt_iff. reflexivity. Qed.

Lemma SFltb_trans (x y z : spec_float) :
  SFltb x y = true -> SFltb y z = true -> SFltb x z = true.
Proof.
  unfold SFltb, SFcompare.
  destruct x as [sx | sx | | sx mx ex], y as [sy | sy | | sy my ey],
    z as [sz | sz | | sz mz ez];
    try destruct sx; try destruct sy; try destruct sz;
    try reflexivity; try discriminate.
  all: intros Hxy Hyz;
    destruct (Z.compare_spec ex ey), (Z.compare_spec ey ez), (Z.compare_spec ex ez);
    try reflexivity; try discriminate; try lia.
  all: destruct (Pos.compare_cont Eq mx my) eqn:Exy; try discriminate;
    destruct (Pos.compare_cont Eq my mz) eqn:Eyz; try discriminate;
    destruct (Pos.compare_cont Eq mx mz) eqn:Exz; try reflexivity;
    exfalso;
    repeat match goal with
    | H : Pos.compare_cont Eq ?a ?b = Lt |- _ => change (a < b)%positive in H
    | H : Pos.compare_cont Eq _ _ = Gt |- _ => apply Pcompare_gt in H
    | H : Pos.compare_cont Eq _ _ = Eq |- _ => apply Pos.compare_eq in H
    end; lia.
Qed.

(** [<] of [float64] is irreflexive and transitive, not-a-number included. *)
Lemma float_ltb_irrefl (x : float) : (x <? x)%float = false.
Proof. rewrite ltb_spec. apply SFltb_irrefl. Qed.

Lemma float_ltb_trans (x y z : float) :
  (x <? y)%float = true -> (y <? z)%float = true -> (x <? z)%float = true.
Proof. rewrite !ltb_spec. apply SFltb_trans. Qed.

End FloatOrder.

(** ** What a call sends *)

Ltac run :=
  unfold bind, ret, getConfig, getToken, setToken, Get, Do in *; simpl in *.

Ltac split_run :=
  run; repeat (case_match; run); simplify_eq.

Section Traffic.

Context {W : Type} `{Portal W} `{Library}.

Lemma reaches_refl (c : Client W) : reaches c [] c.
Proof. split; reflexivity. Qed.

Lemma reaches_trans (c : Client W) l1 c1 l2 c2 :
  reaches c l1 c1 -> reaches c1 l2 c2 -> reaches c (l2 ++ l1) c2.
Proof.
  intros [S1 C1] [S2 C2]. split.
  - rewrite S2, S1. apply List.app_assoc.
  - congruence.
Qed.

Lemma reaches_sentSince (c : Client W) l c' : reaches c l c' -> sentSince c c' = l.
Proof.
  intros [S _]. unfold sentSince. rewrite S, length_app.
  replace (length l + length (sent c) - length (sent c))%nat with (length l) by lia.
  apply take_app_length.
Qed.

Lemma Do_reaches req (c : Client W) r c' : Do req c = (r, c') -> reaches c [req] c'.
Proof. split_run. intros; simplify_eq. split; reflexivity. Qed.

Lemma updateToken_reaches path (c : Client W) r c' :
  updateToken path c = (r, c') ->
  reaches c [getRequest (BaseURL (config c) +:+ path)] c'.
Proof.
  unfold updateToken. split_run; intros; simplify_eq; split; reflexivity.
Qed.

Lemma CreateCustomer_reaches customer (c : Client W) r c' :
  CreateCustomer customer c = (r, c') ->
  let tokenGet := getRequest (BaseURL (config c) +:+ "/Invoice/CreateQuick") in
  reaches c [tokenGet] c' \/
  exists tok, reaches c [createRequest (config c) tok (withDefaults customer); tokenGet] c'.
Proof.
  unfold CreateCustomer, updateToken.
  split_run; intros; simplify_eq;
    first [ left; split; reflexivity | right; eexists; split; reflexivity ].
Qed.

Lemma GetRecipientList_reaches limit (c : Client W) r c' :
  GetRecipientList limit c = (r, c') ->
  reaches c [] c' \/
  reaches c [listRequest (config c) (if limit <=? 0 then 200 else limit)] c'.
Proof.
  unfold GetRecipientList.
  split_run; intros; simplify_eq;
    first [ left; split; reflexivity | right; split; reflexivity ].
Qed.

Lemma GetRecipientDetail_reaches recipientID (c : Client W) r c' :
  GetRecipientDetail recipientID c = (r, c') ->
  reaches c [] c' \/ reaches c [detailRequest (config c) recipientID] c'.
Proof.
  unfold GetRecipientDetail.
  split_run; intros; simplify_eq;
    first [ left; split; reflexivity | right; split; reflexivity ].
Qed.

End Traffic.

(** ** Finding the customer that exists *)

Section Resolution.

Context {W : Type} `{Portal W} `{Library}.

Lemma matchNames_filter customer data matches :
  matchNames (ToLower (strings.TrimSpace (Name customer))) data matches
  = matches ++ List.filter (sameName customer) data.
Proof.
  revert matches. induction data as [| r data IH]; intros matches; simpl.
  - symmetry. apply app_nil_r.
  - unfold sameName at 1.
    destruct (String.eqb _ _); rewrite IH; [rewrite <- List.app_assoc |]; reflexivity.
Qed.

Lemma CreateCustomer_error_no_id customer (c : Client W) id e c1 :
  CreateCustomer customer c = ((id, Some e), c1) -> id = "".
Proof.
  unfold CreateCustomer, updateToken.
  split_run; intros; simplify_eq; reflexivity.
Qed.

Lemma scoreMatch_recipient customer m (c : Client W) :
  recipient (fst (scoreMatch customer m c)) = m.
Proof.
  unfold scoreMatch, bind. destruct (GetRecipientDetail (IdAlici m) c) as [[d | e] c'];
    reflexivity.
Qed.

Lemma scoreMatch_reaches customer m (c : Client W) sm c' :
  scoreMatch customer m c = (sm, c') ->
  reaches c [] c' \/ reaches c [detailRequest (config c) (IdAlici m)] c'.
Proof.
  unfold scoreMatch, bind.
  destruct (GetRecipientDetail (IdAlici m) c) as [[d | e] c1] eqn:E;
    intros [= <- <-]; apply (GetRecipientDetail_reaches _ _ _ _ E).
Qed.

(** The scoring loop scores every candidate, in order, and sends nothing
    but the detail requests of the candidates. *)
Lemma scoreMatches_spec customer matches : forall scoredMatches (c : Client W) out c',
  scoreMatches customer matches scoredMatches c = (out, c') ->
  map recipient out = map recipient scoredMatches ++ matches
  /\ exists l, reaches c l c'
     /\ Forall (fun req => exists m, In m matches
                  /\ req = detailRequest (config c) (IdAlici m)) l.
Proof.
  induction matches as [| m more IH]; intros acc c out c'; simpl.
  - intros [= <- <-]. split; [symmetry; apply app_nil_r |].
    exists []. split; [apply reaches_refl | constructor].
  - unfold bind. destruct (scoreMatch customer m c) as [sm c1] eqn:E.
    intros Hrest. destruct (IH _ _ _ _ Hrest) as [Hmap [l [Hl Hall]]].
    pose proof (scoreMatch_recipient customer m c) as Hrec. rewrite E in Hrec. simpl in Hrec.
    split.
    + rewrite Hmap, map_app. simpl. rewrite Hrec, <- List.app_assoc. reflexivity.
    + assert (Hcfg : config c1 = config c)
        by (destruct (scoreMatch_reaches _ _ _ _ _ E) as [[_ ?] | [_ ?]]; assumption).
      assert (Hall' : Forall (fun req => exists m0, In m0 (m :: more)
                         /\ req = detailRequest (config c) (IdAlici m0)) l).
      { eapply List.Forall_impl; [| exact Hall]. intros req [m0 [Hin ->]].
        exists m0. split; [right; exact Hin | rewrite Hcfg; reflexivity]. }
      destruct (scoreMatch_reaches _ _ _ _ _ E) as [R | R].
      * exists (l ++ []). split; [eapply reaches_trans; eassumption |].
        rewrite app_nil_r. exact Hall'.
      * exists (l ++ [detailRequest (config c) (IdAlici m)]).
        split; [eapply reaches_trans; eassumption |].
        apply Forall_app. split; [exact Hall' |].
        constructor; [| constructor]. exists m. split; [left |]; reflexivity.
Qed.

Lemma scoreMatch_composite customer m (c : Client W) :
  scoreMatch customer m c
  = ({| recipient := m;
        score := compositeScore customer m (fst (GetRecipientDetail (IdAlici m) c)) |},
     snd (GetRecipientDetail (IdAlici m) c)).
Proof.
  unfold scoreMatch, bind.
  destruct (GetRecipientDetail (IdAlici m) c) as [[detail | e] c']; reflexivity.
Qed.

Lemma scoreMatches_scoresOf customer matches : forall scoredMatches (c : Client W),
  fst (scoreMatches customer matches scoredMatches c)
  = scoredMatches ++ scoresOf customer matches c.
Proof.
  induction matches as [| m more IH]; intros acc c; simpl.
  - symmetry. apply app_nil_r.
  - unfold bind. rewrite scoreMatch_composite, IH.
    destruct (GetRecipientDetail (IdAlici m) c) as [detail c']. simpl.
    rewrite <- List.app_assoc. reflexivity.
Qed.

(** The selection loop keeps a candidate of the list that no candidate of
    the list beats. *)
Lemma pickBest_spec rest : forall bestMatch,
  let best := pickBest bestMatch rest in
  (best = bestMatch \/ (score bestMatch <? score best)%float = true)
  /\ In best (bestMatch :: rest)
  /\ forall sm, In sm (bestMatch :: rest) -> (score best <? score sm)%float = false.
Proof.
  induction rest as [| sm more IH]; intros b; simpl.
  - split; [left; reflexivity |]. split; [left; reflexivity |].
    intros sm [<- | []]. apply float_ltb_irrefl.
  - specialize (IH (if (score b <? score sm)%float then sm else b)).
    simpl in IH. destruct IH as [Hfrom [Hin Hmax]].
    set (best := pickBest (if (score b <? score sm)%float then sm else b) more) in *.
    destruct (score b <? score sm)%float eqn:Hlt.
    + assert (Hb : (score b <? score best)%float = true).
      { destruct Hfrom as [-> | Hfrom]; [exact Hlt |].
        eapply float_ltb_trans; eassumption. }
      split; [right; exact Hb |]. split; [right; exact Hin |].
      intros x [<- | Hx]; [| apply Hmax; exact Hx].
      destruct (score best <? score b)%float eqn:Hcontra; [| reflexivity].
      pose proof (float_ltb_trans _ _ _ Hb Hcontra) as Habs.
      rewrite float_ltb_irrefl in Habs. discriminate.
    + split; [exact Hfrom |]. split.
      { destruct Hin as [<- | Hin]; [left; reflexivity | right; right; exact Hin]. }
      intros x [<- | [<- | Hx]].
      * apply Hmax. left. reflexivity.
      * destruct Hfrom as [-> | Hfrom]; [exact Hlt |].
        destruct (score best <? score sm)%float eqn:Hcontra; [| reflexivity].
        rewrite (float_ltb_trans _ _ _ Hfrom Hcontra) in Hlt. discriminate.
      * apply Hmax. right. exact Hx.
Qed.


(** What the call returns once the portal has said that the customer
    exists and the list has come back. *)
Lemma after_listing customer (c : Client W) id e c1 rl c2 :
  CreateCustomer customer c = ((id, Some e), c1) ->
  strings.Contains e alreadyRegistered = true ->
  GetRecipientList 500 c1 = (Ok rl, c2) ->
  CreateCustomerOrGetExisting customer c =
    match List.filter (sameName customer) (Data rl) with
    | [] => (("", Some (notFound customer)), c2)
    | [only] => ((fmt.Sprintf_d (IdAlici only), None), c2)
    | first :: _ =>
      let (scoredMatches, c3) :=
        scoreMatches customer (List.filter (sameName customer) (Data rl)) [] c2 in
      match scoredMatches with
      | bestMatch :: rest =>
        ((fmt.Sprintf_d (IdAlici (recipient (pickBest bestMatch rest))), None), c3)
      | [] => ((fmt.Sprintf_d (IdAlici first), None), c3)
      end
    end.
Proof.
  intros Hcreate Hdup Hlist.
  unfold CreateCustomerOrGetExisting, bind at 1. rewrite Hcreate, Hdup.
  unfold bind at 1. rewrite Hlist.
  rewrite matchNames_filter. simpl.
  destruct (List.filter (sameName customer) (Data rl)) as [| m1 [| m2 ms]] eqn:Ef;
    try reflexivity.
  unfold bind. destruct (scoreMatches customer (m1 :: m2 :: ms) [] c2) as [[| b r] c3];
    reflexivity.
Qed.

(** With two candidates or more, the answer is the candidate the selection
    loop keeps among the scores of all of them. *)
Lemma after_ranking customer (c : Client W) id e c1 rl c2 :
  CreateCustomer customer c = ((id, Some e), c1) ->
  strings.Contains e alreadyRegistered = true ->
  GetRecipientList 500 c1 = (Ok rl, c2) ->
  (2 <= length (List.filter (sameName customer) (Data rl)))%nat ->
  let matches := List.filter (sameName customer) (Data rl) in
  let run := scoreMatches customer matches [] c2 in
  map recipient (fst run) = matches
  /\ exists bestMatch rest,
       fst run = bestMatch :: rest
       /\ CreateCustomerOrGetExisting customer c
          = ((fmt.Sprintf_d (IdAlici (recipient (pickBest bestMatch rest))), None), snd run).
Proof.
  intros Hcreate Hdup Hlist Hlen matches run.
  pose proof (after_listing _ _ _ _ _ _ _ Hcreate Hdup Hlist) as Hrun.
  fold matches in Hrun. fold run in Hrun.
  destruct run as [scored c3] eqn:Erun.
  destruct (scoreMatches_spec _ _ _ _ _ _ Erun) as [Hmap _]. simpl in Hmap.
  split; [exact Hmap |]. simpl.
  fold matches in Hlen.
  destruct matches as [| m1 [| m2 ms]]; simpl in Hlen; try lia.
  destruct scored as [| bestMatch rest]; [discriminate Hmap |].
  exists bestMatch, rest. split; [reflexivity | exact Hrun].
Qed.

End Resolution.

(** ** The claims on [CreateCustomerOrGetExisting] *)

Section ResolutionClaims.

Context {W : Type} `{Portal W} `{Library}.

Lemma GetRecipientList_sends limit (c : Client W) r c' :
  NewRequestError "POST" (BaseURL (config c) +:+ "/Recipient/GetRecipientList") = None ->
  GetRecipientList limit c = (r, c') ->
  reaches c [listRequest (config c) (if limit <=? 0 then 200 else limit)] c'.
Proof.
  unfold GetRecipientList. intros Hnew.
  run. rewrite Hnew. split_run; intros; simplify_eq; split; reflexivity.
Qed.

Lemma CreateCustomer_config customer (c : Client W) r c1 :
  CreateCustomer customer c = (r, c1) -> config c1 = config c.
Proof.
  intros E. destruct (CreateCustomer_reaches _ _ _ _ E) as [[_ ?] | [? [_ ?]]]; assumption.
Qed.

Lemma GetRecipientList_config limit (c : Client W) r c' :
  GetRecipientList limit c = (r, c') -> config c' = config c.
Proof.
  intros E. destruct (GetRecipientList_reaches _ _ _ _ E) as [[_ ?] | [_ ?]]; assumption.
Qed.

Lemma enters_listing customer (c : Client W) id e c1 :
  CreateCustomer customer c = ((id, Some e), c1) ->
  strings.Contains e alreadyRegistered = true ->
  listedAndRanked customer c1 (CreateCustomerOrGetExisting customer c).
Proof.
  intros Hcreate Hdup. unfold listedAndRanked.
  destruct (GetRecipientList 500 c1) as [[rl | listErr] c2] eqn:Hlist.
  - rewrite (after_listing _ _ _ _ _ _ _ Hcreate Hdup Hlist).
    pose proof (GetRecipientList_config _ _ _ _ Hlist) as Hcfg.
    unfold candidates.
    destruct (List.filter (sameName customer) (Data rl)) as [| m1 [| m2 ms]] eqn:Ef.
    + exists []. split; [apply reaches_refl |]. split; [constructor |].
      left. split; reflexivity.
    + exists []. split; [apply reaches_refl |]. split; [constructor |].
      right. exists m1. split; [left |]; reflexivity.
    + destruct (scoreMatches customer (m1 :: m2 :: ms) [] c2) as [scored c3] eqn:Escore.
      destruct (scoreMatches_spec _ _ _ _ _ _ Escore) as [Hmap [l [Hl Hall]]].
      simpl in Hmap. exists l. rewrite Hcfg in Hall.
      destruct scored as [| bestMatch rest]; [discriminate Hmap |].
      split; [exact Hl |]. split; [exact Hall |].
      right. exists (recipient (pickBest bestMatch rest)). split; [| reflexivity].
      rewrite <- Hmap. apply in_map.
      apply (pickBest_spec rest bestMatch).
  - unfold CreateCustomerOrGetExisting, bind at 1. rewrite Hcreate, Hdup.
    unfold bind. rewrite Hlist. reflexivity.
Qed.

(** C1. [CreateCustomerOrGetExisting] takes the path that lists and ranks
    if and only if [CreateCustomer] returns an error whose text holds
    "zaten kayıtlıdır": the list request is sent after the failed creation
    exactly then (when the request can be built at all), and the outcome is
    the one of that path; any other error of [CreateCustomer] is returned as
    it is, and nothing is sent after the creation failed. *)
Theorem C1_duplicate_signal customer (c : Client W) id err c1 :
  CreateCustomer customer c = ((id, err), c1) ->
  let final := CreateCustomerOrGetExisting customer c in
  let listing := listRequest (config c) 500 in
  (NewRequestError "POST" (URL listing) = None ->
     (In listing (sentSince c1 (snd final))
      <-> exists e, err = Some e /\ strings.Contains e alreadyRegistered = true))
  /\ (forall e, err = Some e -> strings.Contains e alreadyRegistered = true ->
        listedAndRanked customer c1 final)
  /\ (forall e, err = Some e -> strings.Contains e alreadyRegistered = false ->
        final = (("", Some e), c1) /\ sentSince c1 (snd final) = []).
Proof.
  intros Hcreate final listing.
  assert (Hquiet : forall e, err = Some e -> strings.Contains e alreadyRegistered = false ->
            final = (("", Some e), c1) /\ sentSince c1 (snd final) = []).
  { intros e -> Hdup.
    pose proof (CreateCustomer_error_no_id _ _ _ _ _ Hcreate) as ->.
    assert (Hfinal : final = (("", Some e), c1)).
    { unfold final, CreateCustomerOrGetExisting, bind. rewrite Hcreate, Hdup. reflexivity. }
    split; [exact Hfinal |]. rewrite Hfinal. simpl.
    apply reaches_sentSince, reaches_refl. }
  split; [| split; [| exact Hquiet]].
  - intros Hnew. split.
    + intros Hin. destruct err as [e |].
      * destruct (strings.Contains e alreadyRegistered) eqn:Hdup; [eauto |].
        destruct (Hquiet e eq_refl Hdup) as [_ Hnone].
        rewrite Hnone in Hin. destruct Hin.
      * exfalso. unfold final, CreateCustomerOrGetExisting, bind in Hin.
        rewrite Hcreate in Hin. simpl in Hin.
        rewrite (reaches_sentSince _ _ _ (reaches_refl c1)) in Hin. destruct Hin.
    + intros [e [-> Hdup]].
      pose proof (enters_listing _ _ _ _ _ Hcreate Hdup) as Hpath.
      fold final in Hpath. unfold listedAndRanked in Hpath.
      pose proof (CreateCustomer_config _ _ _ _ Hcreate) as Hcfg.
      destruct (GetRecipientList 500 c1) as [[rl | listErr] c2] eqn:Hlist.
      * destruct Hpath as [l [Hl _]].
        assert (Hsend : reaches c1 [listing] c2).
        { unfold listing. rewrite <- Hcfg.
          apply (GetRecipientList_sends 500 c1 (Ok rl) c2); [| exact Hlist].
          rewrite Hcfg. exact Hnew. }
        rewrite (reaches_sentSince _ _ _ (reaches_trans _ _ _ _ _ Hsend Hl)).
        apply in_or_app. right. left. reflexivity.
      * rewrite Hpath. simpl.
        assert (Hsend : reaches c1 [listing] c2).
        { unfold listing. rewrite <- Hcfg.
          apply (GetRecipientList_sends 500 c1 (Err listErr) c2); [| exact Hlist].
          rewrite Hcfg. exact Hnew. }
        rewrite (reaches_sentSince _ _ _ Hsend). left. reflexivity.
  - intros e -> Hdup. apply (enters_listing _ _ _ _ _ Hcreate Hdup).
Qed.


(** C2. Every call returns an id with no error, or an error with the empty
    id.  An id comes from the creation or is the id of a listed candidate of
    the same name.  With two candidates or more, every candidate gets its
    composite score, in order, whether its detail page came or not, and the
    id returned is the one of a scored candidate that no other scored
    candidate beats. *)
Theorem C2_one_id_or_error customer (c : Client W) id err c' :
  CreateCustomerOrGetExisting customer c = ((id, err), c') ->
  (err <> None -> id = "")
  /\ (err = None ->
        CreateCustomer customer c = ((id, None), c')
        \/ exists e c1 rl c2 m,
             CreateCustomer customer c = (("", Some e), c1)
             /\ GetRecipientList 500 c1 = (Ok rl, c2)
             /\ In m (candidates customer rl)
             /\ id = fmt.Sprintf_d (IdAlici m))
  /\ (forall e c1 rl c2,
        CreateCustomer customer c = (("", Some e), c1) ->
        strings.Contains e alreadyRegistered = true ->
        GetRecipientList 500 c1 = (Ok rl, c2) ->
        (2 <= length (candidates customer rl))%nat ->
        let scored := fst (scoreMatches customer (candidates customer rl) [] c2) in
        scored = scoresOf customer (candidates customer rl) c2
        /\ map recipient scored = candidates customer rl
        /\ exists best,
             In best scored
             /\ (forall sm, In sm scored -> (score best <? score sm)%float = false)
             /\ id = fmt.Sprintf_d (IdAlici (recipient best))
             /\ err = None).
Proof.
  intros Hrun.
  split; [| split].
  - intros Herr.
    destruct (CreateCustomer customer c) as [[id0 [e0 |]] c1] eqn:Hcreate.
    + pose proof (CreateCustomer_error_no_id _ _ _ _ _ Hcreate) as ->.
      destruct (strings.Contains e0 alreadyRegistered) eqn:Hdup.
      * pose proof (enters_listing _ _ _ _ _ Hcreate Hdup) as Hpath.
        rewrite Hrun in Hpath. unfold listedAndRanked in Hpath.
        destruct (GetRecipientList 500 c1) as [[rl | listErr] c2].
        -- destruct Hpath as [l [_ [_ [[_ Hout] | [m [_ Hout]]]]]];
             simpl in Hout; congruence.
        -- congruence.
      * unfold CreateCustomerOrGetExisting, bind in Hrun.
        rewrite Hcreate, Hdup in Hrun. unfold ret in Hrun. congruence.
    + unfold CreateCustomerOrGetExisting, bind in Hrun.
      rewrite Hcreate in Hrun. unfold ret in Hrun. congruence.
  - intros ->.
    destruct (CreateCustomer customer c) as [[id0 [e0 |]] c1] eqn:Hcreate.
    + pose proof (CreateCustomer_error_no_id _ _ _ _ _ Hcreate) as ->.
      destruct (strings.Contains e0 alreadyRegistered) eqn:Hdup.
      * pose proof (enters_listing _ _ _ _ _ Hcreate Hdup) as Hpath.
        rewrite Hrun in Hpath. unfold listedAndRanked in Hpath.
        destruct (GetRecipientList 500 c1) as [[rl | listErr] c2] eqn:Hlist.
        -- destruct Hpath as [l [_ [_ [[_ Hout] | [m [Hin Hout]]]]]];
             simpl in Hout; [discriminate |].
           right. exists e0, c1, rl, c2, m. repeat split; try assumption. congruence.
        -- discriminate.
      * unfold CreateCustomerOrGetExisting, bind in Hrun.
        rewrite Hcreate, Hdup in Hrun. unfold ret in Hrun. discriminate.
    + unfold CreateCustomerOrGetExisting, bind in Hrun.
      rewrite Hcreate in Hrun. unfold ret in Hrun. left. congruence.
  - intros e c1 rl c2 Hcreate Hdup Hlist Hlen scored.
    destruct (after_ranking _ _ _ _ _ _ _ Hcreate Hdup Hlist Hlen)
      as [Hmap [bestMatch [rest [Hscored Hfinal]]]].
    split; [apply (scoreMatches_scoresOf customer _ []) |].
    split; [exact Hmap |].
    rewrite Hrun in Hfinal.
    destruct (pickBest_spec rest bestMatch) as [_ [Hin Hmax]].
    exists (pickBest bestMatch rest). unfold scored, candidates.
    rewrite Hscored. repeat split; try assumption; congruence.
Qed.

(** C4. When the portal says that the customer exists and exactly one
    listed customer bears the name, the id of that one is returned, in the
    state the list request left: no detail page is asked for in the whole
    call. *)
Theorem C4_single_candidate customer (c : Client W) id e c1 rl c2 only :
  CreateCustomer customer c = ((id, Some e), c1) ->
  strings.Contains e alreadyRegistered = true ->
  GetRecipientList 500 c1 = (Ok rl, c2) ->
  candidates customer rl = [only] ->
  CreateCustomerOrGetExisting customer c = ((fmt.Sprintf_d (IdAlici only), None), c2)
  /\ forall recipientID, ~ In (detailRequest (config c) recipientID) (sentSince c c2).
Proof.
  intros Hcreate Hdup Hlist Hone. split.
  - rewrite (after_listing _ _ _ _ _ _ _ Hcreate Hdup Hlist).
    unfold candidates in Hone. rewrite Hone. reflexivity.
  - intros recipientID Hin.
    assert (Hnot : forall l, reaches c l c2 ->
              Forall (fun req => Method req = "POST" \/ Header req = []) l ->
              False).
    { intros l Hl Hall. rewrite (reaches_sentSince _ _ _ Hl) in Hin.
      rewrite List.Forall_forall in Hall. destruct (Hall _ Hin); discriminate. }
    pose proof (CreateCustomer_config _ _ _ _ Hcreate) as Hcfg.
    destruct (CreateCustomer_reaches _ _ _ _ Hcreate) as [R1 | [tok R1]];
      destruct (GetRecipientList_reaches _ _ _ _ Hlist) as [R2 | R2];
      apply (Hnot _ (reaches_trans _ _ _ _ _ R1 R2)); simpl;
      repeat (apply List.Forall_cons; [first [left; reflexivity | right; reflexivity] |]);
      apply List.Forall_nil.
Qed.

(** C5. When the portal says that the customer exists and no listed
    customer bears the name, the call returns the not-found error and the
    empty id. *)
Theorem C5_not_found customer (c : Client W) id e c1 rl c2 :
  CreateCustomer customer c = ((id, Some e), c1) ->
  strings.Contains e alreadyRegistered = true ->
  GetRecipientList 500 c1 = (Ok rl, c2) ->
  (forall r, In r (Data rl) ->
     ToLower (strings.TrimSpace (AliciAdi r))
     <> ToLower (strings.TrimSpace (Name customer))) ->
  CreateCustomerOrGetExisting customer c = (("", Some (notFound customer)), c2).
Proof.
  intros Hcreate Hdup Hlist Hnone.
  rewrite (after_listing _ _ _ _ _ _ _ Hcreate Hdup Hlist).
  replace (List.filter (sameName customer) (Data rl)) with (@nil RecipientListItem);
    [reflexivity |].
  symmetry. induction (Data rl) as [| r data IH]; [reflexivity |]. simpl.
  unfold sameName at 1.
  destruct (String.eqb_spec (ToLower (strings.TrimSpace (AliciAdi r)))
                            (ToLower (strings.TrimSpace (Name customer)))) as [Heq | _].
  - exfalso. apply (Hnone r); [left; reflexivity | exact Heq].
  - apply IH. intros r' Hr'. apply Hnone. right. exact Hr'.
Qed.

End ResolutionClaims.


(** ** The composite score *)

Section Ranking.

Context {W : Type} `{Portal W} `{Library}.

Lemma listScore_values customer m :
  listScore customer m = 0%float \/ listScore customer m = 0.3%float
  \/ listScore customer m = 0.2%float \/ listScore customer m = 0.5%float.
Proof.
  unfold listScore, addIf.
  destruct (IdIlce m =? _), (IdIl m =? _); auto.
Qed.

(** C3. In the branch of several candidates every candidate is scored, in
    order: from its detail page by 0.5 times the similarity of the
    addresses, plus 0.3 when the province ids are equal, plus 0.2 when the
    district ids are equal; and when the page cannot be fetched by 0.3 and
    0.2 for the ids of its list row, which is 0.5 at most.  So with the
    candidates 1 (province 28, district 413) and 2 (province 6, district
    100), a customer of province "28" and district "413", and both detail
    calls failing, the scores are 0.5 and 0 and the id 1 is returned. *)
Theorem C3_composite_score customer :
  (forall matches (c : Client W),
     fst (scoreMatches customer matches [] c) = scoresOf customer matches c)
  /\ (forall m, (listScore customer m <=? 0.5)%float = true)
  /\ (forall (c : Client W) id e c1 rl c2 m1 m2 e1 c3 e2 c4,
        CreateCustomer customer c = ((id, Some e), c1) ->
        strings.Contains e alreadyRegistered = true ->
        GetRecipientList 500 c1 = (Ok rl, c2) ->
        candidates customer rl = [m1; m2] ->
        IdAlici m1 = 1 -> IdIl m1 = 28 -> IdIlce m1 = 413 ->
        IdAlici m2 = 2 -> IdIl m2 = 6 -> IdIlce m2 = 100 ->
        CityID customer = "28" -> DistrictID customer = "413" ->
        GetRecipientDetail 1 c2 = (Err e1, c3) ->
        GetRecipientDetail 2 c3 = (Err e2, c4) ->
        map score (scoresOf customer [m1; m2] c2) = [0.5%float; 0%float]
        /\ CreateCustomerOrGetExisting customer c = (("1", None), c4)).
Proof.
  split; [| split].
  - intros matches c. apply (scoreMatches_scoresOf customer matches []).
  - intros m.
    destruct (listScore_values customer m) as [-> | [-> | [-> | ->]]]; reflexivity.
  - intros c id e c1 rl c2 m1 m2 e1 c3 e2 c4 Hcreate Hdup Hlist Hcand
      Hid1 Hil1 Hilce1 Hid2 Hil2 Hilce2 Hcity Hdistrict Hd1 Hd2.
    assert (Hs1 : listScore customer m1 = 0.5%float).
    { unfold listScore. rewrite Hil1, Hilce1, Hcity, Hdistrict. reflexivity. }
    assert (Hs2 : listScore customer m2 = 0%float).
    { unfold listScore. rewrite Hil2, Hilce2, Hcity, Hdistrict. reflexivity. }
    split.
    + simpl. rewrite Hid1, Hd1, Hid2, Hd2. simpl. rewrite Hs1, Hs2. reflexivity.
    + rewrite (after_listing _ _ _ _ _ _ _ Hcreate Hdup Hlist).
      unfold candidates in Hcand. rewrite Hcand. simpl.
      unfold bind. rewrite !scoreMatch_composite.
      rewrite Hid1, Hd1. simpl. rewrite Hid2, Hd2. simpl.
      rewrite Hs1, Hs2. simpl. rewrite Hid1. reflexivity.
Qed.

(** C10. [GetRecipientDetail] never fills the district: the customer it
    returns has the empty [DistrictID].  So a candidate scored from its
    detail page gets the 0.2 of the district exactly when the [DistrictID]
    of the customer given is empty too. *)
Theorem C10_district_left_empty :
  (forall recipientID (c : Client W) detail c',
     GetRecipientDetail recipientID c = (Ok detail, c') -> DistrictID detail = "")
  /\ (forall customer m (c : Client W) detail c',
        GetRecipientDetail (IdAlici m) c = (Ok detail, c') ->
        let sim := calculateSimilarityScore (Address detail) (Address customer) in
        let base := addIf (String.eqb (CityID detail) (CityID customer)) 0.3
                      (0 + sim * 0.5)%float in
        score (fst (scoreMatch customer m c))
        = addIf (String.eqb (DistrictID customer) "") 0.2 base
        /\ (DistrictID customer <> "" -> score (fst (scoreMatch customer m c)) = base)
        /\ (DistrictID customer = "" ->
              score (fst (scoreMatch customer m c)) = (base + 0.2)%float)).
Proof.
  assert (Hempty : forall recipientID (c : Client W) detail c',
            GetRecipientDetail recipientID c = (Ok detail, c') -> DistrictID detail = "").
  { intros recipientID c detail c'. unfold GetRecipientDetail.
    split_run; intros; simplify_eq; reflexivity. }
  split; [exact Hempty |].
  intros customer m c detail c' Hdetail sim base.
  assert (Hscore : score (fst (scoreMatch customer m c))
                   = addIf (String.eqb (DistrictID customer) "") 0.2 base).
  { rewrite scoreMatch_composite, Hdetail. simpl. unfold detailScore.
    rewrite (Hempty _ _ _ _ Hdetail). rewrite (String.eqb_sym "").
    reflexivity. }
  split; [exact Hscore |]. rewrite Hscore. split.
  - intros Hne. apply String.eqb_neq in Hne. rewrite Hne. reflexivity.
  - intros ->. reflexivity.
Qed.

End Ranking.


(** ** Validation in [CreateCustomer] *)

Section Validation.

Context {W : Type} `{Portal W} `{Library}.

Lemma updateToken_stores path (c : Client W) c1 :
  updateToken path c = (None, c1) ->
  exists resp body,
    RoundTrip (httpClient c) (getRequest (BaseURL (config c) +:+ path))
    = (Ok resp, httpClient c1)
    /\ ReadAll resp = Ok body
    /\ token c1 = nth 1 (FindStringSubmatch tokenPattern body) "".
Proof.
  unfold updateToken. run.
  destruct (RoundTrip (httpClient c) (getRequest (BaseURL (config c) +:+ path)))
    as [[resp | e] w] eqn:Ert; [| discriminate].
  destruct (ReadAll resp) as [body | e] eqn:Eread; [| discriminate].
  destruct (length (FindStringSubmatch tokenPattern body) <? 2)%nat; [discriminate |].
  intros [= <-]. exists resp, body. simpl. auto.
Qed.

(** What [CreateCustomer] does for a customer with a required field
    missing, on every client: it refreshes the token before it looks at the
    customer, and this GET is the one request it sends.  When the refresh
    fails its error is returned; when it succeeds the token of the page is
    stored and the error of the local check is returned, the customer being
    never submitted. *)
Lemma CreateCustomer_refreshes_first customer (c : Client W) :
  missingField customer ->
  match updateToken "/Invoice/CreateQuick" c with
  | (Some e, c1) =>
    CreateCustomer customer c = (("", Some ("token güncellenemedi: " +:+ e)), c1)
    /\ sentSince c c1 = [tokenRefresh c]
  | (None, c1) =>
    (exists msg, In msg validationMessages
       /\ CreateCustomer customer c = (("", Some msg), c1))
    /\ sentSince c c1 = [tokenRefresh c]
    /\ exists resp body,
         RoundTrip (httpClient c) (tokenRefresh c) = (Ok resp, httpClient c1)
         /\ ReadAll resp = Ok body
         /\ token c1 = nth 1 (FindStringSubmatch tokenPattern body) ""
  end.
Proof.
  intros Hmissing.
  destruct (updateToken "/Invoice/CreateQuick" c) as [[e |] c1] eqn:Htoken.
  - split.
    + unfold CreateCustomer, bind. rewrite Htoken. reflexivity.
    + apply reaches_sentSince. apply (updateToken_reaches _ _ _ _ Htoken).
  - split; [| split].
    + unfold CreateCustomer, bind at 1. rewrite Htoken. unfold validationMessages.
      destruct (String.eqb_spec (Name customer) "") as [_ | Hname].
      { eexists. split; [left; reflexivity | reflexivity]. }
      destruct (String.eqb_spec (TaxNumber customer) "") as [_ | Htax].
      { eexists. split; [right; left; reflexivity | reflexivity]. }
      destruct Hmissing as [? | [? | [Hmail Hsend]]]; try contradiction.
      rewrite Hmail, Hsend. simpl.
      eexists. split; [right; right; left; reflexivity | reflexivity].
    + apply reaches_sentSince. apply (updateToken_reaches _ _ _ _ Htoken).
    + apply (updateToken_stores _ _ _ Htoken).
Qed.

End Validation.


(** ** Similarity against the empty string *)

Section Similarity.

Context `{Library}.

Lemma normal_empty : ToLower (strings.TrimSpace "") = "".
Proof. reflexivity. Qed.

(** C9, as the code has it.  For every string whose trimmed, lower-cased
    form is not empty the similarity with the empty string is 0.0, on
    either side. *)
Theorem C9_similarity_with_empty (a : string) :
  ToLower (strings.TrimSpace a) <> "" ->
  calculateSimilarityScore a "" = 0%float
  /\ calculateSimilarityScore "" a = 0%float.
Proof.
  intros Hne. unfold calculateSimilarityScore. rewrite normal_empty.
  pose proof Hne as Hne'. apply String.eqb_neq in Hne'.
  split.
  - rewrite Hne'. simpl. reflexivity.
  - rewrite String.eqb_sym, Hne'. simpl. reflexivity.
Qed.

(** A string of white space only is as similar to the empty string as a
    string can be, whatever the case table of the library. *)
Lemma blank_is_empty : calculateSimilarityScore " " "" = 1%float.
Proof. reflexivity. Qed.

End Similarity.

(** C9 as stated fails: [" "] is not empty and its similarity with [""] is
    1.0, with any library. *)
Lemma C9_nonempty_blank_counterexample :
  " " <> ""
  /\ ~ (exists L : Library, forall a : string, a <> "" ->
          @calculateSimilarityScore L a "" = 0%float
          /\ @calculateSimilarityScore L "" a = 0%float).
Proof.
  split; [discriminate |].
  intros [L HL]. destruct (HL " ") as [H0 _]; [discriminate |].
  rewrite blank_is_empty in H0.
  apply (f_equal (fun x => PrimFloat.eqb x 0)) in H0. vm_compute in H0. discriminate H0.
Qed.

(** ** The order in which [GetDistrictID] searches *)

Section DistrictSearch.

Context `{Library}.

Variable locationData : IlIlceData.

Lemma normalize_Merkez : normalizeString "Merkez" = "merkez".
Proof. reflexivity. Qed.

Lemma directMatch_first normalized isLookingForMerkez districts :
  directMatch normalized isLookingForMerkez districts
  = firstDistrict (fun d => hasName normalized d || (isLookingForMerkez && isMerkez d))
      districts.
Proof.
  unfold firstDistrict.
  induction districts as [| d more IH]; [reflexivity |]. simpl.
  unfold hasName at 1, isMerkez at 1.
  destruct (strings.Contains (normalizeString (District_Name d)) "merkez"),
    isLookingForMerkez, (String.eqb (normalizeString (District_Name d)) normalized);
    simpl; try reflexivity; exact IH.
Qed.

Lemma merkezOfCity_first cityNameNormalized districts :
  merkezOfCity cityNameNormalized districts
  = firstDistrict (fun d => isMerkez d && holdsName cityNameNormalized d) districts.
Proof.
  unfold firstDistrict.
  induction districts as [| d more IH]; [reflexivity |]. simpl.
  unfold holdsName at 1, isMerkez at 1.
  destruct (_ && _); [reflexivity | exact IH].
Qed.

Lemma anyMerkez_first districts :
  anyMerkez districts = firstDistrict isMerkez districts.
Proof.
  unfold firstDistrict.
  induction districts as [| d more IH]; [reflexivity |]. simpl.
  unfold isMerkez at 1.
  destruct (strings.Contains _ _); [reflexivity | exact IH].
Qed.

(** C8, amended.  [GetDistrictID] answers -1 for a province it does not
    know.  For an input that holds "merkez" as written exactly when it
    holds it once folded, it follows [GetDistrictID_amended]: on names
    folded for case and Turkish letters, it returns the first district of
    the list that bears the name given or, when the name given holds
    "merkez", that is a central one; only when there is none and the name
    given is the name of the province it returns the first central district
    that holds the name of the province, else the first central district;
    in any other case -1.  Nothing is stated for the other inputs, those
    that spell "merkez" with a capital: there the code does not read the
    central intent, see [GetDistrictID_capital_Merkez]. *)
Theorem C8_district_search_order cityID districtName :
  (Districts locationData !! cityID = None ->
     GetDistrictID locationData cityID districtName = -1)
  /\ (strings.Contains districtName "merkez"
      = strings.Contains (normalizeString districtName) "merkez" ->
      GetDistrictID locationData cityID districtName
      = GetDistrictID_amended locationData cityID districtName).
Proof.
  unfold GetDistrictID, GetDistrictID_amended. split.
  - intros ->. reflexivity.
  - intros Hcentral.
    destruct (Districts locationData !! cityID) as [districts |]; [| reflexivity].
    rewrite normalize_Merkez, Hcentral, directMatch_first.
    destruct (firstDistrict _ districts) as [id |]; [reflexivity |].
    rewrite merkezOfCity_first, anyMerkez_first.
    destruct (String.eqb (cityNameOf cityID (Cities locationData)) ""); simpl;
      [reflexivity |].
    destruct (String.eqb _ _); [| reflexivity].
    destruct (firstDistrict _ districts) as [id |]; [reflexivity |].
    destruct (firstDistrict isMerkez districts); reflexivity.
Qed.

End DistrictSearch.

(** *** Runs against the scripted portal *)

Section ScriptedRuns.

Import Scripted.

Example levenshtein_kitten : levenshteinDistance "kitten" "sitting" = 3.
Proof. reflexivity. Qed.

Example similarity_case_and_space :
  calculateSimilarityScore "  Test Mahallesi " "test mahallesi" = 1%float.
Proof. reflexivity. Qed.

Example similarity_kitten :
  calculateSimilarityScore "kitten" "sitting" = ((7 - 3) / 7)%float.
Proof. reflexivity. Qed.

Example parseIntOrZero_values :
  map parseIntOrZero ["28"; "06"; " -413x"; ""; "x1"] = [28; 6; -413; 0; 0].
Proof. reflexivity. Qed.

Example normalizeString_folds : normalizeString "  kadıköy " = "kadikoy".
Proof. reflexivity. Qed.

Example created_customer :
  fst (CreateCustomerOrGetExisting ayseKaya acceptance) = ("1042", None).
Proof. vm_compute. reflexivity. Qed.

Example district_by_province_name : GetDistrictID denizli "20" "DENIZLI" = 20.
Proof. vm_compute. reflexivity. Qed.

Lemma C5_not_found_witness :
  exists c2,
    CreateCustomerOrGetExisting ayseKaya
      (client [page "token=abc"; page "duplicate"; page "none"])
    = (("", Some "müşteri zaten kayıtlı ancak listede bulunamadı: Ayse Kaya"), c2).
Proof.
  eexists.
  eapply (C5_not_found ayseKaya (client [page "token=abc"; page "duplicate"; page "none"])).
  - vm_compute; reflexivity.
  - vm_compute; reflexivity.
  - vm_compute; reflexivity.
  - intros r [].
Defined.

Lemma C4_single_candidate_witness :
  exists c2,
    CreateCustomerOrGetExisting ayseKaya
      (client [page "token=abc"; page "duplicate"; page "one"])
    = (("7", None), c2)
    /\ forall recipientID,
         ~ In (detailRequest cfg recipientID)
              (sentSince (client [page "token=abc"; page "duplicate"; page "one"]) c2).
Proof.
  eexists.
  refine (C4_single_candidate ayseKaya
            (client [page "token=abc"; page "duplicate"; page "one"])
            _ _ _ _ _ (ayse 7 28 413) _ _ _ _);
    vm_compute; reflexivity.
Defined.


Lemma C1_duplicate_signal_witness :
  (In (listRequest cfg 500)
      (sentSince afterCreation (snd (CreateCustomerOrGetExisting ayseKaya twoNamesakes)))
   /\ listedAndRanked ayseKaya afterCreation
        (CreateCustomerOrGetExisting ayseKaya twoNamesakes))
  /\ CreateCustomerOrGetExisting ayseKaya rejection
     = (("", Some "müşteri oluşturma hatası: Vergi numarasi gecersiz"),
        snd (CreateCustomer ayseKaya rejection)).
Proof.
  split.
  - assert (Hcreate : CreateCustomer ayseKaya twoNamesakes
              = (("", Some "müşteri oluşturma hatası: Bu alici zaten kayıtlıdır."),
                 afterCreation))
      by (vm_compute; reflexivity).
    destruct (C1_duplicate_signal _ _ _ _ _ Hcreate) as [Hiff [Hpath _]].
    split.
    + apply Hiff; [reflexivity |]. eexists. split; [reflexivity |].
      vm_compute; reflexivity.
    + eapply Hpath; [reflexivity |]. vm_compute; reflexivity.
  - assert (Hcreate : CreateCustomer ayseKaya rejection
              = (("", Some "müşteri oluşturma hatası: Vergi numarasi gecersiz"),
                 snd (CreateCustomer ayseKaya rejection)))
      by (vm_compute; reflexivity).
    destruct (C1_duplicate_signal _ _ _ _ _ Hcreate) as [_ [_ Hquiet]].
    eapply Hquiet; [reflexivity |]. vm_compute; reflexivity.
Defined.

Lemma C2_one_id_or_error_witness :
  map recipient (fst (scoreMatches ayseKaya [ayse 1 28 413; ayse 2 6 100] [] afterListing))
  = [ayse 1 28 413; ayse 2 6 100]
  /\ exists best,
       In best (fst (scoreMatches ayseKaya [ayse 1 28 413; ayse 2 6 100] [] afterListing))
       /\ (forall sm,
             In sm (fst (scoreMatches ayseKaya [ayse 1 28 413; ayse 2 6 100] []
                           afterListing)) ->
             (score best <? score sm)%float = false)
       /\ "1" = fmt.Sprintf_d (IdAlici (recipient best)).
Proof.
  assert (Hrun : CreateCustomerOrGetExisting ayseKaya twoNamesakes
            = (("1", None), snd (CreateCustomerOrGetExisting ayseKaya twoNamesakes)))
    by (vm_compute; reflexivity).
  destruct (C2_one_id_or_error _ _ _ _ _ Hrun) as [_ [_ Hrank]].
  destruct (Hrank "müşteri oluşturma hatası: Bu alici zaten kayıtlıdır."
              afterCreation (listOf [ayse 1 28 413; ayse 2 6 100]) afterListing)
    as [_ [Hmap [best [Hin [Hmax [Hid _]]]]]].
  - vm_compute; reflexivity.
  - vm_compute; reflexivity.
  - vm_compute; reflexivity.
  - vm_compute. lia.
  - split; [exact Hmap |]. exists best. repeat split; assumption.
Defined.

Lemma C3_composite_score_witness :
  map score (scoresOf ayseKaya [ayse 1 28 413; ayse 2 6 100] afterListing)
  = [0.5%float; 0%float]
  /\ CreateCustomerOrGetExisting ayseKaya twoNamesakes
     = (("1", None), snd (CreateCustomerOrGetExisting ayseKaya twoNamesakes)).
Proof.
  destruct (C3_composite_score (W := list (result Response)) ayseKaya) as [_ [_ Hrun]].
  refine (Hrun twoNamesakes ""
            "müşteri oluşturma hatası: Bu alici zaten kayıtlıdır."
            afterCreation (listOf [ayse 1 28 413; ayse 2 6 100]) afterListing
            (ayse 1 28 413) (ayse 2 6 100)
            "müşteri detay isteği başarısız: connection refused"
            (snd (GetRecipientDetail 1 afterListing))
            "müşteri detay isteği başarısız: connection refused"
            (snd (CreateCustomerOrGetExisting ayseKaya twoNamesakes))
            _ _ _ _ _ _ _ _ _ _ _ _ _ _);
    vm_compute; reflexivity.
Defined.

Lemma C10_district_left_empty_witness :
  DistrictID emptyCustomer = ""
  /\ score (fst (scoreMatch ayseKaya (ayse 7 28 413) blankDetail))
     = addIf (String.eqb "" "28") 0.3
         (0 + calculateSimilarityScore "" "Test Mahallesi No:1" * 0.5)%float.
Proof.
  destruct (C10_district_left_empty (W := list (result Response))) as [Hempty Hscore].
  assert (Hdetail : GetRecipientDetail (IdAlici (ayse 7 28 413)) blankDetail
                    = (Ok emptyCustomer, snd (GetRecipientDetail 7 blankDetail)))
    by (vm_compute; reflexivity).
  split.
  - exact (Hempty _ _ _ _ Hdetail).
  - destruct (Hscore ayseKaya _ _ _ _ Hdetail) as [_ [Hnonempty _]].
    apply Hnonempty. discriminate.
Defined.


(** C6 at the failing input.  A customer with no e-mail and the sending
    type unset passes the local checks; the default then makes the sending
    type electronic, and the customer is submitted with sending type "1"
    and an empty e-mail. *)
Theorem C6_unset_sending_type_unchecked :
  Email noEmail = "" /\ SendingType noEmail = 0
  /\ SendingType (withDefaults noEmail) = 1
  /\ fst (CreateCustomer noEmail acceptance) = ("1042", None)
  /\ sent (snd (CreateCustomer noEmail acceptance))
     = [createRequest cfg "abc" (withDefaults noEmail);
        getRequest "https://portal.test/Invoice/CreateQuick"]
  /\ In ("FaturaGonderimSekli", "1") (Form (createRequest cfg "abc" (withDefaults noEmail)))
  /\ In ("Email", "") (Form (createRequest cfg "abc" (withDefaults noEmail))).
Proof.
  repeat split; try (vm_compute; reflexivity).
  - vm_compute. tauto.
  - vm_compute. tauto.
Qed.


(** C8 as stated fails: asked for "merkez", the code returns the first
    district of the list that holds "merkez", not the one that holds the name
    of the province as well. *)
Lemma C8_described_order_counterexample :
  GetDistrictID denizli "20" "merkez" = 10
  /\ GetDistrictID_described denizli "20" "merkez" = 20
  /\ GetDistrictID denizli "20" "merkez" <> GetDistrictID_described denizli "20" "merkez".
Proof.
  repeat split; try (vm_compute; reflexivity).
  vm_compute. discriminate.
Qed.

(** The slip that the amended claim leaves out.  The code looks for the
    folded constant "merkez" in the input as written, so an input that
    spells it "Merkez" is not read as central: no central district is
    found for it, where the same input in small letters finds one. *)
Example GetDistrictID_capital_Merkez :
  GetDistrictID denizli "20" "Merkez" = -1
  /\ GetDistrictID denizli "20" "merkez" = 10
  /\ GetDistrictID_amended denizli "20" "Merkez" = 10.
Proof. repeat split; vm_compute; reflexivity. Qed.

Lemma C8_district_search_order_witness :
  GetDistrictID denizli "35" "merkez" = -1
  /\ GetDistrictID denizli "20" "merkez" = GetDistrictID_amended denizli "20" "merkez"
  /\ GetDistrictID denizli "20" "Denizli" = GetDistrictID_amended denizli "20" "Denizli".
Proof.
  split; [| split].
  - apply (proj1 (C8_district_search_order denizli "35" "merkez")). vm_compute; reflexivity.
  - apply (proj2 (C8_district_search_order denizli "20" "merkez")). vm_compute; reflexivity.
  - apply (proj2 (C8_district_search_order denizli "20" "Denizli")). vm_compute; reflexivity.
Defined.

Lemma C9_similarity_with_empty_witness :
  calculateSimilarityScore "Kadikoy" "" = 0%float
  /\ calculateSimilarityScore "" "Kadikoy" = 0%float.
Proof.
  apply (C9_similarity_with_empty "Kadikoy"). vm_compute. discriminate.
Defined.

End ScriptedRuns.

(** ** The edit distance

    [levenshteinDistance] fills a table; the lemmas below show that the
    cell of row [i] and column [j] holds the edit distance of the first [i]
    bytes of one string to the first [j] bytes of the other, so that the
    last cell holds the distance of the strings. *)

Lemma min_spec a b c : min a b c = Z.min a (Z.min b c).
Proof. unfold min. destruct (Z.ltb_spec a b), (Z.ltb_spec a c), (Z.ltb_spec b c); lia. Qed.

Lemma editDistance_nil_r l : editDistance l [] = Z.of_nat (length l).
Proof. destruct l; reflexivity. Qed.

Lemma editDistance_nil_l l : editDistance [] l = Z.of_nat (length l).
Proof. destruct l; reflexivity. Qed.

Lemma editDistance_cons a s b t :
  editDistance (a :: s) (b :: t)
  = min (editDistance s (b :: t) + 1) (editDistance (a :: s) t + 1)
        (editDistance s t + (if Ascii.eqb a b then 0 else 1)).
Proof. reflexivity. Qed.

Lemma get_bytes s : forall i, String.get i s = bytes s !! i.
Proof.
  induction s as [| c s IH]; intros [| i]; simpl; try reflexivity. apply IH.
Qed.

Lemma length_bytes s : length (bytes s) = String.length s.
Proof. induction s; simpl; congruence. Qed.

Lemma matrixGet_lookup m i j :
  matrixGet m i j = default 0 (default [] (m !! i) !! j).
Proof. unfold matrixGet. rewrite !nth_lookup. reflexivity. Qed.

Lemma table_row r c m i : table r c m -> (i < r)%nat ->
  exists row, m !! i = Some row /\ length row = c.
Proof.
  intros [Hl Hall] Hi. destruct (lookup_lt_is_Some_2 m i) as [row Hrow]; [lia |].
  exists row. split; [exact Hrow |].
  rewrite Forall_forall in Hall. apply Hall. eapply list_elem_of_lookup_2. exact Hrow.
Qed.

Lemma table_set r c m i j v : table r c m -> table r c (matrixSet m i j v).
Proof.
  intros [Hl Hall]. unfold matrixSet. split.
  - rewrite length_insert. exact Hl.
  - destruct (decide (i < length m)%nat) as [Hi | Hi].
    + apply Forall_insert; [exact Hall |]. rewrite length_insert.
      rewrite nth_lookup. destruct (lookup_lt_is_Some_2 m i Hi) as [row Hrow].
      rewrite Hrow. simpl. rewrite Forall_forall in Hall. apply Hall.
      eapply list_elem_of_lookup_2. exact Hrow.
    + rewrite list_insert_ge by lia. exact Hall.
Qed.

Lemma get_set_eq r c m i j v : table r c m -> (i < r)%nat -> (j < c)%nat ->
  matrixGet (matrixSet m i j v) i j = v.
Proof.
  intros Ht Hi Hj. destruct (table_row _ _ _ _ Ht Hi) as [row [Hrow Hlen]].
  rewrite matrixGet_lookup. unfold matrixSet.
  rewrite list_lookup_insert_eq by (destruct Ht; lia). simpl.
  rewrite nth_lookup, Hrow. simpl.
  rewrite list_lookup_insert_eq by lia. reflexivity.
Qed.

Lemma get_set_ne m i j v i' j' : (i <> i' \/ j <> j') ->
  matrixGet (matrixSet m i j v) i' j' = matrixGet m i' j'.
Proof.
  intros Hne. rewrite !matrixGet_lookup. unfold matrixSet.
  destruct (decide (i = i')) as [<- | Hi].
  - destruct (decide (i < length m)%nat) as [Hlt | Hge].
    + rewrite list_lookup_insert_eq by lia.
      rewrite nth_lookup. destruct (lookup_lt_is_Some_2 m i Hlt) as [row Hrow].
      rewrite Hrow. simpl. rewrite list_lookup_insert_ne by (destruct Hne; congruence).
      reflexivity.
    + rewrite list_insert_ge by lia. reflexivity.
  - rewrite list_lookup_insert_ne by exact Hi. reflexivity.
Qed.

Section Table.


Variables s1 s2 : string.

Let n1 := String.length s1.
Let n2 := String.length s2.

Local Abbreviation D := (prefixDistance s1 s2).
Local Abbreviation cell := (fillCell s1 s2).

Lemma cell_S m i j :
  cell m (S i) (S j)
  = matrixSet m (S i) (S j)
      (min (matrixGet m i (S j) + 1) (matrixGet m (S i) j + 1)
           (matrixGet m i j + (if bytesDiffer s1 i s2 j then 1 else 0))).
Proof.
  unfold fillCell. replace (S i - 1)%nat with i by lia. replace (S j - 1)%nat with j by lia.
  reflexivity.
Qed.

Lemma D_0_l j : (j <= n2)%nat -> D 0 j = Z.of_nat j.
Proof.
  intros Hj. unfold prefixDistance. simpl.
  rewrite editDistance_nil_l, List.length_rev, length_take, length_bytes.
  fold n2. f_equal. lia.
Qed.

Lemma D_0_r i : (i <= n1)%nat -> D i 0 = Z.of_nat i.
Proof.
  intros Hi. unfold prefixDistance. simpl.
  rewrite editDistance_nil_r, List.length_rev, length_take, length_bytes.
  fold n1. f_equal. lia.
Qed.

Lemma D_step i j : (i < n1)%nat -> (j < n2)%nat ->
  D (S i) (S j)
  = min (D i (S j) + 1) (D (S i) j + 1)
        (D i j + (if bytesDiffer s1 i s2 j then 1 else 0)).
Proof.
  intros Hi Hj. unfold prefixDistance, bytesDiffer. rewrite !get_bytes.
  destruct (lookup_lt_is_Some_2 (bytes s1) i) as [a Ha]; [rewrite length_bytes; exact Hi |].
  destruct (lookup_lt_is_Some_2 (bytes s2) j) as [b Hb]; [rewrite length_bytes; exact Hj |].
  rewrite Ha, Hb.
  rewrite (take_S_r _ _ _ Ha), (take_S_r _ _ _ Hb), !rev_unit.
  rewrite editDistance_cons. destruct (Ascii.eqb a b); reflexivity.
Qed.

Lemma fill_row i0 : (i0 < n1)%nat -> forall k, (k <= n2)%nat -> forall m,
  table (n1 + 1) (n2 + 1) m ->
  (forall j, (j <= n2)%nat -> matrixGet m i0 j = D i0 j) ->
  matrixGet m (S i0) 0 = D (S i0) 0 ->
  let m' := fold_left (fun m j => cell m (S i0) j) (seq 1 k) m in
  table (n1 + 1) (n2 + 1) m'
  /\ (forall j, (j <= k)%nat -> matrixGet m' (S i0) j = D (S i0) j)
  /\ (forall i' j', i' <> S i0 -> matrixGet m' i' j' = matrixGet m i' j').
Proof.
  intros Hi0. induction k as [| k IH]; intros Hk m Ht Hprev Hzero; cbv zeta.
  - split; [exact Ht |]. split; [| reflexivity].
    intros j Hj. replace j with 0%nat by lia. exact Hzero.
  - rewrite seq_S, fold_left_app. cbn [fold_left]. change (1 + k)%nat with (S k).
    destruct (IH ltac:(lia) m Ht Hprev Hzero) as [Ht' [Hrow Hother]].
    set (m' := fold_left (fun m j => cell m (S i0) j) (seq 1 k) m) in *.
    rewrite cell_S.
    split; [apply table_set; exact Ht' |]. split.
    + intros j Hj. destruct (decide (j = S k)) as [-> | Hne].
      * rewrite (get_set_eq (n1 + 1) (n2 + 1)) by (try exact Ht'; lia).
        rewrite (Hother i0 (S k)) by lia. rewrite (Hother i0 k) by lia.
        rewrite !Hprev by lia. rewrite Hrow by lia.
        symmetry. apply D_step; lia.
      * rewrite get_set_ne by (right; congruence). apply Hrow. lia.
    + intros i' j' Hne. rewrite get_set_ne by (left; congruence). apply Hother. exact Hne.
Qed.

Lemma fill_rows k : (k <= n1)%nat -> forall m,
  table (n1 + 1) (n2 + 1) m ->
  (forall j, (j <= n2)%nat -> matrixGet m 0 j = D 0 j) ->
  (forall i, (i <= n1)%nat -> matrixGet m i 0 = D i 0) ->
  let m' := fold_left (fun m i => fold_left (fun m j => cell m i j) (seq 1 n2) m)
              (seq 1 k) m in
  table (n1 + 1) (n2 + 1) m'
  /\ (forall i j, (i <= k)%nat -> (j <= n2)%nat -> matrixGet m' i j = D i j)
  /\ (forall i j, (k < i)%nat -> matrixGet m' i j = matrixGet m i j).
Proof.
  induction k as [| k IH]; intros Hk m Ht Htop Hleft; cbv zeta.
  - split; [exact Ht |]. split; [| reflexivity].
    intros i j Hi Hj. replace i with 0%nat by lia. apply Htop. exact Hj.
  - rewrite seq_S, fold_left_app. cbn [fold_left]. change (1 + k)%nat with (S k).
    destruct (IH ltac:(lia) m Ht Htop Hleft) as [Ht' [Hdone Hrest]].
    set (m' := fold_left _ (seq 1 k) m) in *.
    destruct (fill_row k ltac:(lia) n2 ltac:(lia) m' Ht') as [Ht'' [Hrow Hother]].
    + intros j Hj. apply Hdone; lia.
    + rewrite Hrest by lia. apply Hleft. lia.
    + split; [exact Ht'' |]. split.
      * intros i j Hi Hj. destruct (decide (i = S k)) as [-> | Hne].
        -- apply Hrow. exact Hj.
        -- rewrite Hother by exact Hne. apply Hdone; lia.
      * intros i j Hi. rewrite Hother by lia. apply Hrest. lia.
Qed.

Lemma init_column k : forall m r c, table r c m -> (k <= r)%nat -> (0 < c)%nat ->
  let m' := fold_left (fun m i => matrixSet m i 0 (Z.of_nat i)) (seq 0 k) m in
  table r c m'
  /\ (forall i, (i < k)%nat -> matrixGet m' i 0 = Z.of_nat i)
  /\ (forall i j, (k <= i)%nat \/ j <> 0%nat -> matrixGet m' i j = matrixGet m i j).
Proof.
  induction k as [| k IH]; intros m r c Ht Hk Hc; cbv zeta.
  - split; [exact Ht |]. split; [lia | reflexivity].
  - rewrite seq_S, fold_left_app. cbn [fold_left]. change (0 + k)%nat with k.
    destruct (IH m r c Ht ltac:(lia) Hc) as [Ht' [Hset Hkeep]].
    set (m' := fold_left _ (seq 0 k) m) in *.
    split; [apply table_set; exact Ht' |]. split.
    + intros i Hi. destruct (decide (i = k)) as [-> | Hne].
      * apply (get_set_eq r c); [exact Ht' | lia | lia].
      * rewrite get_set_ne by (left; congruence). apply Hset. lia.
    + intros i j Hij. rewrite get_set_ne by lia. apply Hkeep. lia.
Qed.

Lemma init_row k : forall m r c, table r c m -> (0 < r)%nat -> (k <= c)%nat ->
  let m' := fold_left (fun m j => matrixSet m 0 j (Z.of_nat j)) (seq 0 k) m in
  table r c m'
  /\ (forall j, (j < k)%nat -> matrixGet m' 0 j = Z.of_nat j)
  /\ (forall i j, i <> 0%nat \/ (k <= j)%nat -> matrixGet m' i j = matrixGet m i j).
Proof.
  induction k as [| k IH]; intros m r c Ht Hr Hk; cbv zeta.
  - split; [exact Ht |]. split; [lia | reflexivity].
  - rewrite seq_S, fold_left_app. cbn [fold_left]. change (0 + k)%nat with k.
    destruct (IH m r c Ht Hr ltac:(lia)) as [Ht' [Hset Hkeep]].
    set (m' := fold_left _ (seq 0 k) m) in *.
    split; [apply table_set; exact Ht' |]. split.
    + intros j Hj. destruct (decide (j = k)) as [-> | Hne].
      * apply (get_set_eq r c); [exact Ht' | lia | lia].
      * rewrite get_set_ne by (right; congruence). apply Hset. lia.
    + intros i j Hij. rewrite get_set_ne by lia. apply Hkeep. lia.
Qed.

Lemma table_zero r c : table r c (repeat (repeat 0 c) r).
Proof.
  split; [apply repeat_length |].
  apply Forall_forall. intros row Hin. apply list_elem_of_In, repeat_spec in Hin.
  subst. apply repeat_length.
Qed.

Lemma levenshteinDistance_table :
  levenshteinDistance s1 s2 = editDistance (rev (bytes s1)) (rev (bytes s2)).
Proof.
  unfold levenshteinDistance, len. fold n1 n2.
  assert (Hb1 : length (bytes s1) = n1) by apply length_bytes.
  assert (Hb2 : length (bytes s2) = n2) by apply length_bytes.
  destruct (Z.eqb_spec (Z.of_nat n1) 0) as [H1 | H1].
  { destruct (bytes s1) as [| a l] eqn:E; [| simpl in Hb1; lia].
    simpl. rewrite editDistance_nil_l, List.length_rev, Hb2. reflexivity. }
  destruct (Z.eqb_spec (Z.of_nat n2) 0) as [H2 | H2].
  { destruct (bytes s2) as [| a l] eqn:E; [| simpl in Hb2; lia].
    simpl. rewrite editDistance_nil_r, List.length_rev, Hb1. reflexivity. }
  destruct (init_column (n1 + 1) (repeat (repeat 0 (n2 + 1)) (n1 + 1)) (n1 + 1) (n2 + 1))
    as [Ht1 [Hcol Hkeep1]]; [apply table_zero | lia | lia |].
  set (m1 := fold_left _ (seq 0 (n1 + 1)) _) in *.
  destruct (init_row (n2 + 1) m1 (n1 + 1) (n2 + 1)) as [Ht2 [Hrow Hkeep2]];
    [exact Ht1 | lia | lia |].
  set (m2 := fold_left _ (seq 0 (n2 + 1)) m1) in *.
  destruct (fill_rows n1 ltac:(lia) m2 Ht2) as [_ [Hfinal _]].
  - intros j Hj. rewrite D_0_l by exact Hj. apply Hrow. lia.
  - intros i Hi. rewrite D_0_r by exact Hi.
    destruct (decide (i = 0%nat)) as [-> | Hne]; [apply Hrow; lia |].
    rewrite Hkeep2 by (left; exact Hne). apply Hcol. lia.
  - unfold fillCell in Hfinal. rewrite (Hfinal n1 n2) by lia.
    unfold prefixDistance. rewrite <- Hb1 at 1. rewrite <- Hb2 at 1. rewrite !firstn_all. reflexivity.
Qed.

End Table.

Lemma editDistance_nonneg l1 : forall l2, 0 <= editDistance l1 l2.
Proof.
  induction l1 as [| a s IH]; intros l2.
  - rewrite editDistance_nil_l. lia.
  - induction l2 as [| b t IHt]; [rewrite editDistance_nil_r; lia |].
    rewrite editDistance_cons, min_spec.
    pose proof (IH (b :: t)). pose proof (IH t). destruct (Ascii.eqb a b); lia.
Qed.

Lemma editDistance_sym l1 : forall l2, editDistance l1 l2 = editDistance l2 l1.
Proof.
  induction l1 as [| a s IH]; intros l2.
  - rewrite editDistance_nil_l, editDistance_nil_r. reflexivity.
  - induction l2 as [| b t IHt]; [rewrite editDistance_nil_l, editDistance_nil_r; reflexivity |].
    rewrite !editDistance_cons, !min_spec, (IH (b :: t)), (IH t), IHt, (Ascii.eqb_sym a b).
    lia.
Qed.

Lemma editDistance_same l : editDistance l l = 0.
Proof.
  induction l as [| a s IH]; [reflexivity |].
  rewrite editDistance_cons, min_spec, IH, Ascii.eqb_refl.
  pose proof (editDistance_nonneg s (a :: s)). pose proof (editDistance_nonneg (a :: s) s). lia.
Qed.

Lemma editDistance_zero l1 : forall l2, editDistance l1 l2 = 0 -> l1 = l2.
Proof.
  induction l1 as [| a s IH]; intros l2.
  - rewrite editDistance_nil_l. destruct l2; [reflexivity | simpl; lia].
  - destruct l2 as [| b t]; [rewrite editDistance_nil_r; simpl; lia |].
    rewrite editDistance_cons, min_spec. intros Hz.
    pose proof (editDistance_nonneg s (b :: t)). pose proof (editDistance_nonneg (a :: s) t).
    pose proof (editDistance_nonneg s t).
    destruct (Ascii.eqb_spec a b) as [-> | Hne]; [| lia].
    f_equal. apply IH. lia.
Qed.

Lemma editDistance_upper l1 : forall l2,
  editDistance l1 l2 <= Z.max (Z.of_nat (length l1)) (Z.of_nat (length l2)).
Proof.
  induction l1 as [| a s IH]; intros l2.
  - rewrite editDistance_nil_l. simpl. lia.
  - destruct l2 as [| b t]; [rewrite editDistance_nil_r; lia |].
    rewrite editDistance_cons, min_spec. pose proof (IH t). simpl length.
    destruct (Ascii.eqb a b); lia.
Qed.

Lemma editDistance_lower l1 : forall l2,
  Z.abs (Z.of_nat (length l1) - Z.of_nat (length l2)) <= editDistance l1 l2.
Proof.
  induction l1 as [| a s IH]; intros l2.
  - rewrite editDistance_nil_l. simpl. lia.
  - induction l2 as [| b t IHt]; [rewrite editDistance_nil_r; simpl length; lia |].
    rewrite editDistance_cons, min_spec.
    pose proof (IH (b :: t)). pose proof (IH t). simpl length in *.
    destruct (Ascii.eqb a b); lia.
Qed.

Lemma bytes_inj s t : bytes s = bytes t -> s = t.
Proof.
  intros E. rewrite <- (string_of_list_ascii_of_string s), <- (string_of_list_ascii_of_string t).
  unfold bytes in E. rewrite E. reflexivity.
Qed.

Lemma bytes_app s t : bytes (s +:+ t) = bytes s ++ bytes t.
Proof. induction s as [| c s IH]; simpl; [reflexivity | rewrite IH; reflexivity]. Qed.

(** X1. [levenshteinDistance] is the edit distance on bytes: to or from the
    empty string it is the length of the other string, and for two strings
    that end in the bytes [a] and [b] it is the least of a deletion, an
    insertion and a replacement, the last one free when [a] is [b]. *)
Theorem levenshteinDistance_recurrence :
  (forall s, levenshteinDistance "" s = len s /\ levenshteinDistance s "" = len s)
  /\ (forall s1 a s2 b,
        levenshteinDistance (s1 +:+ String a "") (s2 +:+ String b "")
        = min (levenshteinDistance s1 (s2 +:+ String b "") + 1)
              (levenshteinDistance (s1 +:+ String a "") s2 + 1)
              (levenshteinDistance s1 s2 + (if Ascii.eqb a b then 0 else 1))).
Proof.
  split.
  - intros s. rewrite !levenshteinDistance_table. simpl.
    rewrite editDistance_nil_l, editDistance_nil_r, List.length_rev, length_bytes.
    split; reflexivity.
  - intros s1 a s2 b. rewrite !levenshteinDistance_table, !bytes_app. simpl.
    rewrite !rev_unit. apply editDistance_cons.
Qed.

(** X2. The distance of two strings is 0 exactly when they are the same
    string. *)
Theorem levenshteinDistance_zero s1 s2 :
  levenshteinDistance s1 s2 = 0 <-> s1 = s2.
Proof.
  rewrite levenshteinDistance_table. split.
  - intros Hz. apply editDistance_zero in Hz. apply bytes_inj.
    rewrite <- (rev_involutive (bytes s1)), Hz. apply rev_involutive.
  - intros ->. apply editDistance_same.
Qed.

(** X3. The distance is at least the difference of the lengths and at most
    the greater length, in bytes. *)
Theorem levenshteinDistance_bounds s1 s2 :
  Z.abs (len s1 - len s2) <= levenshteinDistance s1 s2
  /\ levenshteinDistance s1 s2 <= Z.max (len s1) (len s2).
Proof.
  rewrite levenshteinDistance_table. unfold len.
  rewrite <- !length_bytes, <- (List.length_rev (bytes s1)), <- (List.length_rev (bytes s2)).
  split; [apply editDistance_lower | apply editDistance_upper].
Qed.

Section SimilarityOrder.

Context `{Library}.

(** X4. Neither the distance nor the similarity depends on the order of the
    two strings. *)
Theorem similarity_symmetric s1 s2 :
  levenshteinDistance s1 s2 = levenshteinDistance s2 s1
  /\ calculateSimilarityScore s1 s2 = calculateSimilarityScore s2 s1.
Proof.
  assert (Hsym : forall a b, levenshteinDistance a b = levenshteinDistance b a).
  { intros a b. rewrite !levenshteinDistance_table. apply editDistance_sym. }
  split; [apply Hsym |].
  unfold calculateSimilarityScore.
  set (a := ToLower (strings.TrimSpace s1)). set (b := ToLower (strings.TrimSpace s2)).
  rewrite (String.eqb_sym b a), (orb_comm (String.eqb b "")).
  destruct (String.eqb a b); [reflexivity |].
  destruct (String.eqb a "" || String.eqb b ""); [reflexivity |].
  destruct (Z.ltb_spec (len a) (len b)) as [Hlt | Hge];
    destruct (Z.ltb_spec (len b) (len a)) as [Hlt' | Hge']; try lia; try reflexivity.
  assert (Hlen : len a = len b) by lia.
  rewrite Hlen, (Hsym a b). reflexivity.
Qed.

End SimilarityOrder.

(** ** Reading back a printed id *)

Ltac digit_value :=
  match goal with
  | |- context [nat_of_ascii ?c] =>
    let n := eval vm_compute in (nat_of_ascii c) in
    change (nat_of_ascii c) with n
  end; lia.

Lemma digits_stop acc rest : startsWithDigit rest = false -> fmt.digits acc rest = acc.
Proof. destruct rest as [| c r]; [reflexivity |]. simpl. intros ->. reflexivity. Qed.

Lemma digits_uint u : forall acc rest,
  startsWithDigit rest = false ->
  fmt.digits (Z.pos acc) (NilEmpty.string_of_uint u +:+ rest)
  = Z.pos (Pos.of_uint_acc u acc).
Proof.
  induction u; intros acc rest Hrest; simpl.
  1: change ("" +:+ rest) with rest; apply digits_stop; exact Hrest.
  all: match goal with
       | |- fmt.digits ?v _ = Z.pos (Pos.of_uint_acc _ ?p) =>
         replace v with (Z.pos p) by digit_value
       end; apply IHu; exact Hrest.
Qed.

Lemma digits_uint_0 u : forall rest,
  startsWithDigit rest = false ->
  fmt.digits 0 (NilEmpty.string_of_uint u +:+ rest) = Z.of_N (Pos.of_uint u).
Proof.
  induction u; intros rest Hrest; simpl.
  1: change ("" +:+ rest) with rest; apply digits_stop; exact Hrest.
  1: apply IHu; exact Hrest.
  all: match goal with
       | |- fmt.digits ?v _ = Z.pos (Pos.of_uint_acc _ ?p) =>
         replace v with (Z.pos p) by digit_value
       end; apply digits_uint; exact Hrest.
Qed.

Lemma skipBlanks_digit c r :
  fmt.isDigit c = true \/ c = ascii_of_nat 45 ->
  fmt.skipBlanks (String c r) = Some (String c r).
Proof.
  intros Hc.
  assert (H : strings.isByte 10 c = false /\ strings.asciiSpace c = false
              /\ (forall c2, strings.space2 c c2 = false)
              /\ (forall c2 c3, strings.space3 c c2 c3 = false)).
  { destruct Hc as [Hc | ->]; [| repeat split; reflexivity].
    destruct c as [[] [] [] [] [] [] [] []]; try discriminate Hc; repeat split. }
  destruct H as [H10 [Hsp [H2 H3]]].
  simpl. rewrite H10, Hsp.
  destruct r as [| c2 [| c3 r]]; try reflexivity; rewrite H2; try reflexivity.
  rewrite H3. reflexivity.
Qed.

Lemma string_of_uint_digit u : u <> Decimal.Nil ->
  startsWithDigit (NilEmpty.string_of_uint u) = true.
Proof. destruct u; [congruence | reflexivity ..]. Qed.

Lemma Sscanf_digit c r : fmt.isDigit c = true ->
  fmt.Sscanf_d (String c r) = inRange (fmt.digits 0 (String c r)).
Proof.
  intros Hd. unfold fmt.Sscanf_d. rewrite skipBlanks_digit by (left; exact Hd).
  assert (H45 : strings.isByte 45 c = false /\ strings.isByte 43 c = false)
    by (destruct c as [[] [] [] [] [] [] [] []]; try discriminate Hd; split; reflexivity).
  destruct H45 as [H45 H43]. rewrite H45, H43, Hd. reflexivity.
Qed.

Lemma Sscanf_minus c r : fmt.isDigit c = true ->
  fmt.Sscanf_d (String "-" (String c r)) = inRange (- fmt.digits 0 (String c r)).
Proof.
  intros Hd. unfold fmt.Sscanf_d. rewrite skipBlanks_digit by (right; reflexivity).
  change (strings.isByte 45 "-") with true. cbv iota. rewrite Hd. reflexivity.
Qed.

Lemma uint_string_digit u rest : u <> Decimal.Nil ->
  exists c r, NilEmpty.string_of_uint u +:+ rest = String c r /\ fmt.isDigit c = true.
Proof. destruct u; [congruence | intros _; eexists _, _; split; reflexivity ..]. Qed.

(** X5. [parseIntOrZero] reads back what ["%d"] prints: the decimal text of
    an [int], followed by anything that does not start with a digit, parses
    to that [int]. *)
Theorem parseIntOrZero_Sprintf n rest :
  - 2 ^ 63 <= n <= 2 ^ 63 - 1 ->
  startsWithDigit rest = false ->
  parseIntOrZero (fmt.Sprintf_d n +:+ rest) = n.
Proof.
  intros Hn Hrest. unfold parseIntOrZero, fmt.Sprintf_d.
  assert (Hin : inRange n = n).
  { unfold inRange. destruct (Z.leb_spec (- 2 ^ 63) n), (Z.leb_spec n (2 ^ 63 - 1));
      simpl; lia. }
  destruct n as [| p | p]; simpl Z.to_int.
  - change (NilZero.string_of_int (Decimal.Pos Decimal.zero) +:+ rest)
      with (String "0" rest).
    rewrite Sscanf_digit by reflexivity.
    change (fmt.digits 0 (String "0" rest)) with (fmt.digits 0 rest).
    rewrite (digits_stop 0 rest Hrest). exact Hin.
  - pose proof (Unsigned.of_to p) as Hp.
    assert (Hnil : Pos.to_uint p <> Decimal.Nil) by (intros E; rewrite E in Hp; discriminate).
    replace (NilZero.string_of_int (Decimal.Pos (Pos.to_uint p)))
      with (NilEmpty.string_of_uint (Pos.to_uint p))
      by (simpl; destruct (Pos.to_uint p); [congruence | reflexivity ..]).
    destruct (uint_string_digit _ rest Hnil) as [c [r [Es Hd]]].
    rewrite Es, (Sscanf_digit _ _ Hd), <- Es, (digits_uint_0 _ _ Hrest), Hp. exact Hin.
  - pose proof (Unsigned.of_to p) as Hp.
    assert (Hnil : Pos.to_uint p <> Decimal.Nil) by (intros E; rewrite E in Hp; discriminate).
    replace (NilZero.string_of_int (Decimal.Neg (Pos.to_uint p)))
      with (String "-" (NilEmpty.string_of_uint (Pos.to_uint p)))
      by (simpl; destruct (Pos.to_uint p); [congruence | reflexivity ..]).
    change (String "-" (NilEmpty.string_of_uint (Pos.to_uint p)) +:+ rest)
      with (String "-" (NilEmpty.string_of_uint (Pos.to_uint p) +:+ rest)).
    destruct (uint_string_digit _ rest Hnil) as [c [r [Es Hd]]].
    rewrite Es, (Sscanf_minus _ _ Hd), <- Es, (digits_uint_0 _ _ Hrest), Hp. exact Hin.
Qed.


(** ** The locality look-up *)

Section LocationFacts.

Context `{Library}.

Variable locationData : IlIlceData.

Lemma cityIDOf_none normalized cities :
  (forall city, In city cities -> normalizeString (City_Name city) <> normalized) ->
  cityIDOf normalized cities = "-1".
Proof.
  induction cities as [| c more IH]; intros Hnone; [reflexivity |]. simpl.
  destruct (String.eqb_spec (normalizeString (City_Name c)) normalized) as [E | _].
  - exfalso. apply (Hnone c); [left; reflexivity | exact E].
  - apply IH. intros city Hin. apply Hnone. right. exact Hin.
Qed.

Lemma cityIDOf_some normalized cities :
  (exists city, In city cities /\ normalizeString (City_Name city) = normalized) ->
  exists pre city post,
    cities = pre ++ city :: post
    /\ normalizeString (City_Name city) = normalized
    /\ (forall c, In c pre -> normalizeString (City_Name c) <> normalized)
    /\ cityIDOf normalized cities = City_ID city.
Proof.
  induction cities as [| c more IH]; intros [city [Hin Hname]]; [destruct Hin |]. simpl.
  destruct (String.eqb_spec (normalizeString (City_Name c)) normalized) as [E | Hne].
  - exists [], c, more. repeat split; [exact E | intros ? []].
  - destruct Hin as [-> | Hin]; [contradiction |].
    destruct IH as [pre [c0 [post [Hsplit [Hc0 [Hpre Hid]]]]]]; [eauto |].
    exists (c :: pre), c0, post. repeat split.
    + rewrite Hsplit. reflexivity.
    + exact Hc0.
    + intros c' [<- | Hc']; [exact Hne | apply Hpre; exact Hc'].
    + exact Hid.
Qed.

Lemma cityNameByID_unique cities city :
  NoDup (map City_ID cities) -> In city cities ->
  cityNameByID (City_ID city) cities = City_Name city.
Proof.
  induction cities as [| c more IH]; intros Hnd Hin; [destruct Hin |]. simpl.
  apply NoDup_cons in Hnd. destruct Hnd as [Hfresh Hnd].
  destruct (String.eqb_spec (City_ID c) (City_ID city)) as [E | Hne].
  - destruct Hin as [-> | Hin]; [reflexivity |].
    exfalso. apply Hfresh. rewrite E. apply list_elem_of_In, in_map. exact Hin.
  - destruct Hin as [-> | Hin]; [contradiction |]. apply IH; assumption.
Qed.

Lemma cityNameByID_found cityID cities :
  (exists city, In city cities /\ City_ID city = cityID) ->
  exists city, In city cities /\ City_ID city = cityID
    /\ cityNameByID cityID cities = City_Name city.
Proof.
  induction cities as [| c more IH]; intros [city [Hin Hid]]; [destruct Hin |]. simpl.
  destruct (String.eqb_spec (City_ID c) cityID) as [E | Hne].
  - exists c. repeat split; [left; reflexivity | exact E].
  - destruct Hin as [-> | Hin]; [contradiction |].
    destruct IH as [c0 [Hin0 [Hid0 Hname]]]; [eauto |].
    exists c0. repeat split; [right; exact Hin0 | exact Hid0 | exact Hname].
Qed.

Lemma cityIDOf_unique cities city :
  NoDup (map (fun c => normalizeString (City_Name c)) cities) -> In city cities ->
  cityIDOf (normalizeString (City_Name city)) cities = City_ID city.
Proof.
  induction cities as [| c more IH]; intros Hnd Hin; [destruct Hin |]. simpl.
  apply NoDup_cons in Hnd. destruct Hnd as [Hfresh Hnd].
  destruct (String.eqb_spec (normalizeString (City_Name c)) (normalizeString (City_Name city)))
    as [E | Hne].
  - destruct Hin as [-> | Hin]; [reflexivity |].
    exfalso. apply Hfresh. rewrite E.
    apply list_elem_of_In. apply (in_map (fun c => normalizeString (City_Name c))). exact Hin.
  - destruct Hin as [-> | Hin]; [contradiction |]. apply IH; assumption.
Qed.

Lemma cityIDOf_first normalized pre city post :
  normalizeString (City_Name city) = normalized ->
  (forall c, In c pre -> normalizeString (City_Name c) <> normalized) ->
  cityIDOf normalized (pre ++ city :: post) = City_ID city.
Proof.
  intros Hcity. induction pre as [| c pre IH]; intros Hpre; simpl.
  - rewrite Hcity, String.eqb_refl. reflexivity.
  - destruct (String.eqb_spec (normalizeString (City_Name c)) normalized) as [E | _].
    + exfalso. apply (Hpre c); [left; reflexivity | exact E].
    + apply IH. intros c' Hc'. apply Hpre. right. exact Hc'.
Qed.

(** X6. [GetCityID] answers "-1" when no province of the table folds to
    the name asked for, and otherwise the id of the first province of the
    table that does. *)
Theorem GetCityID_first_match cityName :
  ((forall city, In city (Cities locationData) -> ~ sameFolded (City_Name city) cityName) ->
     GetCityID locationData cityName = "-1")
  /\ ((exists city, In city (Cities locationData) /\ sameFolded (City_Name city) cityName) ->
      exists pre city post,
        Cities locationData = pre ++ city :: post
        /\ sameFolded (City_Name city) cityName
        /\ (forall c, In c pre -> ~ sameFolded (City_Name c) cityName)
        /\ GetCityID locationData cityName = City_ID city).
Proof.
  unfold GetCityID, sameFolded. split.
  - apply cityIDOf_none.
  - apply cityIDOf_some.
Qed.

(** X7. When the ids of the provinces are distinct, the name of the
    province that [GetCityID] finds for a name folds to that name. *)
Theorem GetCityName_GetCityID cityName :
  NoDup (map City_ID (Cities locationData)) ->
  (exists city, In city (Cities locationData) /\ sameFolded (City_Name city) cityName) ->
  sameFolded (GetCityName locationData (GetCityID locationData cityName)) cityName.
Proof.
  intros Hnd Hex. unfold GetCityID, GetCityName.
  destruct (cityIDOf_some _ _ Hex) as [pre [city [post [Hsplit [Hname [_ Hid]]]]]].
  rewrite Hid, cityNameByID_unique; [exact Hname | exact Hnd |].
  rewrite Hsplit. apply in_or_app. right. left. reflexivity.
Qed.

(** X8. When no two provinces fold to the same name, [GetCityID] gives back
    the id whose name [GetCityName] returned. *)
Theorem GetCityID_GetCityName cityID :
  NoDup (map (fun c => normalizeString (City_Name c)) (Cities locationData)) ->
  (exists city, In city (Cities locationData) /\ City_ID city = cityID) ->
  GetCityID locationData (GetCityName locationData cityID) = cityID.
Proof.
  intros Hnd Hex. unfold GetCityID, GetCityName.
  destruct (cityNameByID_found _ _ Hex) as [city [Hin [Hid Hname]]].
  rewrite Hname, cityIDOf_unique; assumption.
Qed.

Lemma directMatch_sound normalized b districts id :
  directMatch normalized b districts = Some id ->
  exists d, In d districts /\ District_ID d = id
    /\ (normalizeString (District_Name d) = normalized
        \/ strings.Contains (normalizeString (District_Name d)) "merkez" = true).
Proof.
  induction districts as [| d more IH]; [discriminate |]. simpl.
  destruct (strings.Contains (normalizeString (District_Name d)) "merkez" && b) eqn:E1.
  - intros [= <-]. apply andb_prop in E1. destruct E1 as [E1 _].
    exists d. repeat split; [left; reflexivity | right; exact E1].
  - destruct (String.eqb_spec (normalizeString (District_Name d)) normalized) as [E2 | _].
    + intros [= <-]. exists d. repeat split; [left; reflexivity | left; exact E2].
    + intros Hrest. destruct (IH Hrest) as [d0 [Hin Hd0]]. exists d0. split; [right |]; assumption.
Qed.

Lemma merkezOfCity_sound cityNameNormalized districts id :
  merkezOfCity cityNameNormalized districts = Some id ->
  exists d, In d districts /\ District_ID d = id
    /\ strings.Contains (normalizeString (District_Name d)) "merkez" = true.
Proof.
  induction districts as [| d more IH]; [discriminate |]. simpl.
  destruct (strings.Contains (normalizeString (District_Name d)) "merkez"
            && strings.Contains (normalizeString (District_Name d)) cityNameNormalized) eqn:E1.
  - intros [= <-]. apply andb_prop in E1. destruct E1 as [E1 _].
    exists d. repeat split; [left; reflexivity | exact E1].
  - intros Hrest. destruct (IH Hrest) as [d0 [Hin Hd0]]. exists d0. split; [right |]; assumption.
Qed.

Lemma anyMerkez_sound districts id :
  anyMerkez districts = Some id ->
  exists d, In d districts /\ District_ID d = id
    /\ strings.Contains (normalizeString (District_Name d)) "merkez" = true.
Proof.
  induction districts as [| d more IH]; [discriminate |]. simpl.
  destruct (strings.Contains (normalizeString (District_Name d)) "merkez") eqn:E1.
  - intros [= <-]. exists d. repeat split; [left; reflexivity | exact E1].
  - intros Hrest. destruct (IH Hrest) as [d0 [Hin Hd0]]. exists d0. split; [right |]; assumption.
Qed.

Lemma GetDistrictID_sound cityID districtName districts id :
  Districts locationData !! cityID = Some districts ->
  GetDistrictID locationData cityID districtName = id ->
  id = -1
  \/ exists d, In d districts /\ District_ID d = id /\ answers districtName d.
Proof.
  unfold GetDistrictID, answers, sameFolded. intros ->.
  destruct (directMatch _ _ districts) as [id0 |] eqn:E1.
  { intros <-. right. destruct (directMatch_sound _ _ _ _ E1) as [d [Hin [Hid Hd]]].
    exists d. repeat split; assumption. }
  destruct (negb _); [| intros <-; left; reflexivity].
  destruct (String.eqb _ _); [| intros <-; left; reflexivity].
  destruct (merkezOfCity _ districts) as [id0 |] eqn:E2.
  { intros <-. right. destruct (merkezOfCity_sound _ _ _ E2) as [d [Hin [Hid Hd]]].
    exists d. repeat split; try assumption. right. exact Hd. }
  destruct (anyMerkez districts) as [id0 |] eqn:E3; [| intros <-; left; reflexivity].
  intros <-. right. destruct (anyMerkez_sound _ _ E3) as [d [Hin [Hid Hd]]].
  exists d. repeat split; try assumption. right. exact Hd.
Qed.

(** X9. [GetDistrictID] never answers with a district of another province:
    the answer is -1, or the id of a district listed under the province
    asked for, one that bears the name asked for or is a central district. *)
Theorem GetDistrictID_of_the_province cityID districtName :
  GetDistrictID locationData cityID districtName = -1
  \/ exists districts d,
       Districts locationData !! cityID = Some districts
       /\ In d districts
       /\ District_ID d = GetDistrictID locationData cityID districtName
       /\ answers districtName d.
Proof.
  destruct (Districts locationData !! cityID) as [districts |] eqn:Hd.
  - destruct (GetDistrictID_sound cityID districtName districts _ Hd eq_refl)
      as [Hnone | [d Hfound]]; [left; exact Hnone |].
    right. exists districts, d. split; [reflexivity | exact Hfound].
  - left. unfold GetDistrictID. rewrite Hd. reflexivity.
Qed.

Lemma districtNameByID_unique districts d :
  NoDup (map District_ID districts) -> In d districts ->
  districtNameByID (District_ID d) districts = District_Name d.
Proof.
  induction districts as [| x more IH]; intros Hnd Hin; [destruct Hin |]. simpl.
  apply NoDup_cons in Hnd. destruct Hnd as [Hfresh Hnd].
  destruct (Z.eqb_spec (District_ID x) (District_ID d)) as [E | Hne].
  - destruct Hin as [-> | Hin]; [reflexivity |].
    exfalso. apply Hfresh. rewrite E. apply list_elem_of_In, in_map. exact Hin.
  - destruct Hin as [-> | Hin]; [contradiction |]. apply IH; assumption.
Qed.

(** X10. When the ids of the districts of a province are distinct, the
    name that [GetDistrictName] gives for the id that [GetDistrictID] found
    is the name of a district of the province that answers the name asked
    for. *)
Theorem GetDistrictName_GetDistrictID cityID districtName districts :
  Districts locationData !! cityID = Some districts ->
  NoDup (map District_ID districts) ->
  GetDistrictID locationData cityID districtName <> -1 ->
  exists d, In d districts
    /\ answers districtName d
    /\ GetDistrictName locationData cityID
         (GetDistrictID locationData cityID districtName) = District_Name d.
Proof.
  intros Hd Hnd Hfound.
  destruct (GetDistrictID_sound cityID districtName districts _ Hd eq_refl)
    as [Hnone | [d [Hin [Hid Hans]]]]; [contradiction |].
  exists d. repeat split; [exact Hin | exact Hans |].
  unfold GetDistrictName. rewrite Hd, <- Hid. apply districtNameByID_unique; assumption.
Qed.

(** X11. [GetDistrictIDByNames] answers -1 for a province that is not in
    the table, whatever the district; for a province that is, it is
    [GetDistrictID] at the id of the first province of that folded name,
    unless that id is the text "-1". *)
Theorem GetDistrictIDByNames_composes cityName districtName :
  ((forall city, In city (Cities locationData) -> ~ sameFolded (City_Name city) cityName) ->
     GetDistrictIDByNames locationData cityName districtName = -1)
  /\ (forall pre city post,
        Cities locationData = pre ++ city :: post ->
        sameFolded (City_Name city) cityName ->
        (forall c, In c pre -> ~ sameFolded (City_Name c) cityName) ->
        GetDistrictIDByNames locationData cityName districtName
        = if String.eqb (City_ID city) "-1" then -1
          else GetDistrictID locationData (City_ID city) districtName).
Proof.
  unfold GetDistrictIDByNames, GetCityID, sameFolded. split.
  - intros Hnone. rewrite (cityIDOf_none _ _ Hnone). reflexivity.
  - intros pre city post Hsplit Hcity Hpre.
    rewrite Hsplit, (cityIDOf_first _ pre city post Hcity Hpre). reflexivity.
Qed.

Lemma directMatch_plain normalized pre d post :
  normalizeString (District_Name d) = normalized ->
  (forall x, In x pre -> normalizeString (District_Name x) <> normalized) ->
  directMatch normalized false (pre ++ d :: post) = Some (District_ID d).
Proof.
  intros Hd. induction pre as [| x pre IH]; intros Hpre; simpl; rewrite andb_false_r.
  - rewrite Hd, String.eqb_refl. reflexivity.
  - destruct (String.eqb_spec (normalizeString (District_Name x)) normalized) as [E | _].
    + exfalso. apply (Hpre x); [left; reflexivity | exact E].
    + apply IH. intros y Hy. apply Hpre. right. exact Hy.
Qed.

(** X24. Asked for a name that does not hold "merkez", [GetDistrictID]
    returns the id of the first district of the province that folds to the
    name, whenever there is one. *)
Theorem GetDistrictID_plain_name cityID districtName pre d post :
  Districts locationData !! cityID = Some (pre ++ d :: post) ->
  strings.Contains districtName "merkez" = false ->
  sameFolded (District_Name d) districtName ->
  (forall x, In x pre -> ~ sameFolded (District_Name x) districtName) ->
  GetDistrictID locationData cityID districtName = District_ID d.
Proof.
  unfold GetDistrictID, sameFolded. intros -> Hplain Hd Hpre.
  rewrite normalize_Merkez, Hplain, (directMatch_plain _ pre d post Hd Hpre).
  reflexivity.
Qed.

End LocationFacts.


(** ** What a call sends, and what it keeps *)

Section ClientFacts.

Context {W : Type} `{Portal W} `{Library}.

Lemma steps_refl (c : Client W) : steps c [] c.
Proof. repeat split. Qed.

Lemma steps_trans (c : Client W) l1 c1 l2 c2 :
  steps c l1 c1 -> steps c1 l2 c2 -> steps c (l2 ++ l1) c2.
Proof.
  intros [S1 [C1 T1]] [S2 [C2 T2]]. repeat split; try congruence.
  rewrite S2, S1. apply List.app_assoc.
Qed.

Lemma updateToken_keeps_token path (c : Client W) e c' :
  updateToken path c = (Some e, c') -> token c' = token c.
Proof. unfold updateToken. split_run; intros; simplify_eq; reflexivity. Qed.

(** X12. [updateToken] sends one GET of the page, whatever comes back.  On
    an error the token is the one held before; on success the page was
    read, the pattern was found in it with its group, and the token is now
    the text of the group. *)
Theorem updateToken_outcome path (c : Client W) r c' :
  updateToken path c = (r, c') ->
  sentSince c c' = [getRequest (BaseURL (config c) +:+ path)]
  /\ config c' = config c
  /\ match r with
     | Some _ => token c' = token c
     | None =>
       exists resp body,
         RoundTrip (httpClient c) (getRequest (BaseURL (config c) +:+ path))
         = (Ok resp, httpClient c')
         /\ ReadAll resp = Ok body
         /\ (2 <= length (FindStringSubmatch tokenPattern body))%nat
         /\ token c' = nth 1 (FindStringSubmatch tokenPattern body) ""
     end.
Proof.
  intros Hrun.
  pose proof (updateToken_reaches _ _ _ _ Hrun) as Hreach.
  split; [apply reaches_sentSince; exact Hreach |]. split; [apply Hreach |].
  revert Hrun. unfold updateToken. run.
  destruct (RoundTrip (httpClient c) (getRequest (BaseURL (config c) +:+ path)))
    as [[resp | e] w] eqn:Ert; [| intros [= <- <-]; reflexivity].
  destruct (ReadAll resp) as [body | e] eqn:Eread; [| intros [= <- <-]; reflexivity].
  destruct (Nat.ltb_spec (length (FindStringSubmatch tokenPattern body)) 2);
    intros [= <- <-]; [reflexivity |].
  exists resp, body. simpl. repeat split; assumption.
Qed.

(** X13. [CreateCustomer] sends the token GET and then at most one POST.
    The POST goes out only for a customer that has a name and a tax number,
    and an e-mail when the sending type is 1, and only after the token was
    refreshed; it carries the fresh token and the customer with the
    defaults filled in.  When no POST goes out the call ends in an error. *)
Theorem CreateCustomer_submits customer (c : Client W) r c' :
  CreateCustomer customer c = (r, c') ->
  (sentSince c c' = [tokenRefresh c] /\ snd r <> None)
  \/ (sentSince c c'
      = [createRequest (config c) (token c') (withDefaults customer); tokenRefresh c]
      /\ Name customer <> "" /\ TaxNumber customer <> ""
      /\ (Email customer <> "" \/ SendingType customer <> 1)
      /\ fst (updateToken "/Invoice/CreateQuick" c) = None
      /\ token c' = token (snd (updateToken "/Invoice/CreateQuick" c))).
Proof.
  unfold CreateCustomer, bind at 1.
  destruct (updateToken "/Invoice/CreateQuick" c) as [[e |] c0] eqn:Htoken.
  { intros [= <- <-]. left. split; [| discriminate].
    apply reaches_sentSince, (updateToken_reaches _ _ _ _ Htoken). }
  pose proof (updateToken_reaches _ _ _ _ Htoken) as [Hs0 Hc0].
  destruct (String.eqb_spec (Name customer) "") as [_ | Hname].
  { intros [= <- <-]. left. split; [| discriminate].
    apply reaches_sentSince. split; assumption. }
  destruct (String.eqb_spec (TaxNumber customer) "") as [_ | Htax].
  { intros [= <- <-]. left. split; [| discriminate].
    apply reaches_sentSince. split; assumption. }
  destruct ((SendingType customer =? 1) && String.eqb (Email customer) "") eqn:Hmail.
  { intros [= <- <-]. left. split; [| discriminate].
    apply reaches_sentSince. split; assumption. }
  run. destruct (NewRequestError _ _).
  { intros [= <- <-]. left. split; [| discriminate].
    apply reaches_sentSince. split; assumption. }
  destruct (RoundTrip _ _) as [r0 w] eqn:Ert.
  intros Hrest. right.
  assert (Hstate : sent c' = createRequest (config c0) (token c0) (withDefaults customer)
                             :: sent c0
                   /\ config c' = config c0 /\ token c' = token c0).
  { revert Hrest. split_run; intros; simplify_eq; repeat split. }
  destruct Hstate as [Hs [Hc Ht]].
  split; [| split; [exact Hname | split; [exact Htax | split; [| split; [reflexivity | exact Ht]]]]].
  - apply reaches_sentSince. split; [| congruence].
    rewrite Hs, Hs0, Ht, Hc0. reflexivity.
  - apply andb_false_iff in Hmail. destruct Hmail as [Hm | Hm].
    + right. apply Z.eqb_neq. exact Hm.
    + left. apply String.eqb_neq. exact Hm.
Qed.

Lemma GetRecipientList_steps limit (c : Client W) r c' :
  GetRecipientList limit c = (r, c') ->
  steps c [] c' \/ steps c [listRequest (config c) (if limit <=? 0 then 200 else limit)] c'.
Proof.
  unfold GetRecipientList.
  split_run; intros; simplify_eq;
    first [ left; repeat split; reflexivity | right; repeat split; reflexivity ].
Qed.

Lemma GetRecipientDetail_steps recipientID (c : Client W) r c' :
  GetRecipientDetail recipientID c = (r, c') ->
  steps c [] c' \/ steps c [detailRequest (config c) recipientID] c'.
Proof.
  unfold GetRecipientDetail.
  split_run; intros; simplify_eq;
    first [ left; repeat split; reflexivity | right; repeat split; reflexivity ].
Qed.

Lemma scoreMatches_steps customer matches : forall acc (c : Client W) out c',
  scoreMatches customer matches acc c = (out, c') ->
  exists l, steps c l c' /\ (length l <= length matches)%nat.
Proof.
  induction matches as [| m more IH]; intros acc c out c'; simpl.
  - intros [= <- <-]. exists []. split; [apply steps_refl | simpl; lia].
  - unfold bind. rewrite scoreMatch_composite.
    destruct (GetRecipientDetail (IdAlici m) c) as [detail c1] eqn:Ed. simpl.
    intros Hrest. destruct (IH _ _ _ _ Hrest) as [l [Hl Hlen]].
    destruct (GetRecipientDetail_steps _ _ _ _ Ed) as [S1 | S1].
    + exists (l ++ []). split; [eapply steps_trans; eassumption |].
      rewrite length_app. simpl. lia.
    + exists (l ++ [detailRequest (config c) (IdAlici m)]).
      split; [eapply steps_trans; eassumption |]. rewrite length_app. simpl. lia.
Qed.

(** What the listing path sends after the creation has failed. *)
Lemma listing_steps customer (c : Client W) id e c1 :
  CreateCustomer customer c = ((id, Some e), c1) ->
  strings.Contains e alreadyRegistered = true ->
  exists l, steps c1 l (snd (CreateCustomerOrGetExisting customer c))
    /\ (length l <= 1 + match fst (GetRecipientList 500 c1) with
                        | Ok rl => length (candidates customer rl)
                        | Err _ => 0
                        end)%nat.
Proof.
  intros Hcreate Hdup.
  destruct (GetRecipientList 500 c1) as [[rl | listErr] c2] eqn:Hlist.
  - rewrite (after_listing _ _ _ _ _ _ _ Hcreate Hdup Hlist). simpl.
    assert (Hs : exists l0, steps c1 l0 c2 /\ (length l0 <= 1)%nat).
    { destruct (GetRecipientList_steps _ _ _ _ Hlist) as [S | S];
        eexists; (split; [exact S | simpl; lia]). }
    destruct Hs as [l0 [Hl0 Hlen0]]. unfold candidates.
    destruct (List.filter (sameName customer) (Data rl)) as [| m1 [| m2 ms]] eqn:Ef.
    + exists l0. split; [exact Hl0 | simpl; lia].
    + exists l0. split; [exact Hl0 | simpl; lia].
    + destruct (scoreMatches customer (m1 :: m2 :: ms) [] c2) as [scored c3] eqn:Es.
      destruct (scoreMatches_steps _ _ _ _ _ _ Es) as [l [Hl Hlen]].
      exists (l ++ l0). split.
      * destruct scored; simpl; eapply steps_trans; eassumption.
      * rewrite length_app. simpl in *. lia.
  - unfold CreateCustomerOrGetExisting, bind at 1. rewrite Hcreate, Hdup.
    unfold bind. rewrite Hlist. simpl.
    destruct (GetRecipientList_steps _ _ _ _ Hlist) as [S | S];
      eexists; (split; [exact S | simpl; lia]).
Qed.

Lemma after_creation customer (c : Client W) id err c1 :
  CreateCustomer customer c = ((id, err), c1) ->
  exists l, steps c1 l (snd (CreateCustomerOrGetExisting customer c))
    /\ (length l <= 1 + match fst (GetRecipientList 500 c1) with
                        | Ok rl => length (candidates customer rl)
                        | Err _ => 0
                        end)%nat.
Proof.
  intros Hcreate.
  destruct err as [e |];
    [destruct (strings.Contains e alreadyRegistered) eqn:Hdup |].
  - apply (listing_steps _ _ _ _ _ Hcreate Hdup).
  - unfold CreateCustomerOrGetExisting, bind. rewrite Hcreate, Hdup. simpl.
    exists []. split; [apply steps_refl | simpl; lia].
  - unfold CreateCustomerOrGetExisting, bind. rewrite Hcreate. simpl.
    exists []. split; [apply steps_refl | simpl; lia].
Qed.

Lemma resolution_config customer (c : Client W) :
  config (snd (CreateCustomerOrGetExisting customer c)) = config c.
Proof.
  destruct (CreateCustomer customer c) as [[id err] c1] eqn:Hcreate.
  destruct (after_creation _ _ _ _ _ Hcreate) as [l [[_ [Hc _]] _]].
  rewrite Hc.
  destruct (CreateCustomer_reaches _ _ _ _ Hcreate) as [[_ ?] | [? [_ ?]]]; assumption.
Qed.

(** X14. The token is refreshed once in [CreateCustomerOrGetExisting], by
    [CreateCustomer]: the list and the detail pages are asked for with the
    token that the creation left, and the configuration is never written. *)
Theorem resolution_keeps_token customer (c : Client W) :
  token (snd (CreateCustomerOrGetExisting customer c))
  = token (snd (CreateCustomer customer c))
  /\ config (snd (CreateCustomerOrGetExisting customer c)) = config c.
Proof.
  split; [| apply resolution_config].
  destruct (CreateCustomer customer c) as [[id err] c1] eqn:Hcreate.
  destruct (after_creation _ _ _ _ _ Hcreate) as [l [[_ [_ Ht]] _]]. exact Ht.
Qed.

(** X15. [CreateCustomerOrGetExisting] sends at most three requests (the
    token GET, the creation, the list) and one detail request for each
    listed customer of the same name. *)
Theorem resolution_request_bound customer (c : Client W) :
  (length (sentSince c (snd (CreateCustomerOrGetExisting customer c)))
   <= 3 + match fst (GetRecipientList 500 (snd (CreateCustomer customer c))) with
          | Ok rl => length (candidates customer rl)
          | Err _ => 0
          end)%nat.
Proof.
  destruct (CreateCustomer customer c) as [[id err] c1] eqn:Hcreate. simpl.
  destruct (after_creation _ _ _ _ _ Hcreate) as [l [[Hs [Hc _]] Hlen]].
  assert (Hreach : exists l1, reaches c l1 c1 /\ (length l1 <= 2)%nat).
  { destruct (CreateCustomer_reaches _ _ _ _ Hcreate) as [R | [tok R]];
      eexists; (split; [exact R | simpl; lia]). }
  destruct Hreach as [l1 [Hl1 Hlen1]].
  rewrite (reaches_sentSince c (l ++ l1)).
  - rewrite length_app. lia.
  - eapply reaches_trans; [exact Hl1 | split; assumption].
Qed.

Lemma pickBest_unbeaten bestMatch rest :
  (forall sm, In sm rest -> (score bestMatch <? score sm)%float = false) ->
  pickBest bestMatch rest = bestMatch.
Proof.
  revert bestMatch. induction rest as [| sm more IH]; intros b Hnone; [reflexivity |].
  simpl. rewrite (Hnone sm) by (left; reflexivity).
  apply IH. intros x Hx. apply Hnone. right. exact Hx.
Qed.

(** X16. Among several candidates a tie goes to the one listed first: when
    no candidate scores strictly more than the first one of the list, the
    id of the first one is returned. *)
Theorem ties_go_to_the_first customer (c : Client W) id e c1 rl c2 first others :
  CreateCustomer customer c = ((id, Some e), c1) ->
  strings.Contains e alreadyRegistered = true ->
  GetRecipientList 500 c1 = (Ok rl, c2) ->
  candidates customer rl = first :: others ->
  others <> [] ->
  (forall sm, In sm (scoresOf customer (first :: others) c2) ->
     (compositeScore customer first (fst (GetRecipientDetail (IdAlici first) c2))
      <? score sm)%float = false) ->
  fst (CreateCustomerOrGetExisting customer c) = (fmt.Sprintf_d (IdAlici first), None).
Proof.
  intros Hcreate Hdup Hlist Hcand Hothers Hnone.
  assert (Hlen : (2 <= length (List.filter (sameName customer) (Data rl)))%nat).
  { unfold candidates in Hcand. rewrite Hcand. destruct others; [congruence | simpl; lia]. }
  destruct (after_ranking _ _ _ _ _ _ _ Hcreate Hdup Hlist Hlen)
    as [Hmap [bestMatch [rest [Hscored Hfinal]]]].
  rewrite Hfinal. simpl. unfold candidates in Hcand. rewrite Hcand in Hscored, Hmap.
  pose proof (scoreMatches_scoresOf customer (first :: others) [] c2) as Hso.
  rewrite app_nil_l in Hso. rewrite Hso in Hscored, Hmap.
  rewrite Hscored in Hnone, Hmap.
  assert (Hbest : bestMatch
                  = {| recipient := first;
                       score := compositeScore customer first
                                  (fst (GetRecipientDetail (IdAlici first) c2)) |}).
  { revert Hscored. simpl. destruct (GetRecipientDetail (IdAlici first) c2).
    intros [= <- _]. reflexivity. }
  rewrite pickBest_unbeaten.
  - rewrite Hbest. reflexivity.
  - intros sm Hsm. rewrite Hbest. apply (Hnone sm). right. exact Hsm.
Qed.

(** X17. [GetRecipientDetail] does not look at the status of the answer:
    any page that can be read gives a customer and no error, with the tax
    office, the customer type and the sending type left unset.  A page on
    which none of the eight patterns of the code is found gives the empty
    customer.  The token is not touched. *)
Theorem GetRecipientDetail_reads_any_page recipientID (c : Client W) resp body w :
  NewRequestError "GET" (URL (detailRequest (config c) recipientID)) = None ->
  RoundTrip (httpClient c) (detailRequest (config c) recipientID) = (Ok resp, w) ->
  ReadAll resp = Ok body ->
  exists detail c',
    GetRecipientDetail recipientID c = (Ok detail, c')
    /\ token c' = token c /\ httpClient c' = w
    /\ TaxOfficeID detail = "" /\ CustomerType detail = 0 /\ SendingType detail = 0
    /\ ((forall pattern, In pattern detailPatterns ->
           FindStringSubmatch pattern body = []) ->
        detail = emptyCustomer).
Proof.
  intros Hnew Hrt Hread. unfold GetRecipientDetail. run.
  simpl in Hnew. rewrite Hnew, Hrt, Hread.
  eexists _, _. split; [reflexivity |]. simpl. repeat split.
  intros Hnone. unfold submatch.
  assert (Hvalue : forall id,
            In id ["AliciAdi"; "VknTckn"; "Email"; "Telefon"; "SokakAdi"; "PostaKodu";
                   "BinaNo"] ->
            FindStringSubmatch (valuePattern id) body = []).
  { intros id Hid. apply Hnone. simpl in Hid.
    repeat (destruct Hid as [<- | Hid]; [repeat (first [left; reflexivity | right]) |]).
    destruct Hid. }
  assert (Hcity : FindStringSubmatch cityPattern body = []).
  { apply Hnone. repeat (first [left; reflexivity | right]). }
  rewrite Hcity.
  rewrite !Hvalue by (repeat (first [left; reflexivity | right])).
  reflexivity.
Qed.

End ClientFacts.

(** ** Signing in and invoicing *)

Lemma trimLeftByte_head c s a r : trimLeftByte c s = String a r -> a <> c.
Proof.
  induction s as [| x s IH]; simpl; [discriminate |].
  destruct (Ascii.eqb_spec x c) as [_ | Hne]; [exact IH |].
  intros [= <- _]. exact Hne.
Qed.

Lemma append_cons x (s t : string) : String x s +:+ t = String x (s +:+ t).
Proof. reflexivity. Qed.

Lemma trimLeftByte_suffix c s : exists pre, s = pre +:+ trimLeftByte c s.
Proof.
  induction s as [| x s [pre IH]]; simpl; [exists ""; reflexivity |].
  destruct (Ascii.eqb x c).
  - exists (String x pre). rewrite append_cons, <- IH. reflexivity.
  - exists "". reflexivity.
Qed.

Lemma reverse_involutive s : strings.reverse (strings.reverse s) = s.
Proof.
  unfold strings.reverse.
  rewrite list_ascii_of_string_of_list_ascii, rev_involutive.
  apply string_of_list_ascii_of_string.
Qed.

Lemma reverse_snoc s a :
  strings.reverse (s +:+ String a "") = String a (strings.reverse s).
Proof.
  unfold strings.reverse. fold (bytes (s +:+ String a "")). rewrite bytes_app.
  simpl. rewrite rev_unit. reflexivity.
Qed.

Lemma append_assoc (s t u : string) : (s +:+ t) +:+ u = s +:+ (t +:+ u).
Proof.
  induction s as [| c s IH]; [reflexivity |].
  rewrite !append_cons, IH. reflexivity.
Qed.

(** What [strings.Trim] leaves starts and ends with another byte. *)
Lemma Trim_ends c s :
  (forall a r, Trim s c = String a r -> a <> c)
  /\ (forall pre a, Trim s c = pre +:+ String a "" -> a <> c).
Proof.
  unfold Trim. split.
  - intros a r. apply trimLeftByte_head.
  - intros pre a Hlast.
    destruct (trimLeftByte_suffix c (trimRightByte c s)) as [p0 Hp0].
    rewrite Hlast in Hp0.
    assert (Hrev : strings.reverse (trimRightByte c s)
                   = String a (strings.reverse (p0 +:+ pre))).
    { rewrite Hp0, <- append_assoc. apply reverse_snoc. }
    unfold trimRightByte in Hrev. rewrite reverse_involutive in Hrev.
    apply (trimLeftByte_head _ _ _ _ Hrev).
Qed.

Section InvoiceFacts.

Context {W : Type} `{Portal W} `{Library} `{Clock W}.

(** X18. [Login] calls [c.httpClient] twice at most: [Get] for the login
    page and, only when the token was found on it, [PostForm] with the
    credentials and that token, to the one address of the portal.  It
    succeeds exactly when the response that [PostForm] returns has the
    status 200 or 302.  The client follows a redirect inside the call, so
    when the portal redirects the login this is the status of the page
    redirected to, not the one of the first answer. *)
Theorem Login_sends vknTckn password (c : Client W) r c' :
  Login vknTckn password c = (r, c') ->
  let tokenGet := getRequest (BaseURL (config c) +:+ "/account/login") in
  let post := postFormRequest (BaseURL (config c) +:+ "/Account/Login")
                (loginForm vknTckn password (token c')) in
  (sentSince c c' = [tokenGet] /\ token c' = token c /\ r <> None)
  \/ (sentSince c c' = [post; tokenGet]
      /\ fst (updateToken "/account/login" c) = None
      /\ (r = None <->
          exists resp w,
            RoundTrip (httpClient (snd (updateToken "/account/login" c))) post = (Ok resp, w)
            /\ (StatusCode resp = 200 \/ StatusCode resp = 302))).
Proof.
  unfold Login, bind at 1.
  destruct (updateToken "/account/login" c) as [[e |] c0] eqn:Htoken.
  { intros [= <- <-]. left.
    pose proof (updateToken_reaches _ _ _ _ Htoken) as Hr.
    repeat split;
      [apply reaches_sentSince; exact Hr | apply (updateToken_keeps_token _ _ _ _ Htoken)
       | discriminate]. }
  pose proof (updateToken_reaches _ _ _ _ Htoken) as [Hs0 Hc0].
  run. rewrite Hc0.
  destruct (RoundTrip (httpClient c0) _) as [[resp | e] w] eqn:Ert.
  - destruct (Z.eqb_spec (StatusCode resp) 302) as [H302 | H302];
      destruct (Z.eqb_spec (StatusCode resp) 200) as [H200 | H200]; simpl;
      intros [= <- <-]; right; simpl;
      (split; [apply reaches_sentSince; split;
                 [simpl; rewrite Hs0; reflexivity | simpl; first [exact Hc0 | reflexivity]] |]);
      (split; [reflexivity |]); split;
      try (intros _; exists resp, w; split; [exact Ert | lia]);
      try discriminate; try reflexivity.
    intros [resp' [w' [Ert' Hst]]]. rewrite Ert in Ert'. injection Ert' as <- <-. lia.
  - intros [= <- <-]. right. simpl.
    split; [apply reaches_sentSince; split;
              [simpl; rewrite Hs0; reflexivity | simpl; first [exact Hc0 | reflexivity]] |].
    split; [reflexivity |]. split; [discriminate |].
    intros [resp' [w' [Ert' _]]]. rewrite Ert in Ert'. discriminate.
Qed.

Lemma productLines_spec cfg todo : forall products totalLineExtension totalVAT,
  productLines cfg todo products totalLineExtension totalVAT
  = (products ++ map (lineOf cfg) todo,
     fst (fold_left
            (fun '(total, vat) product =>
               let lineTotal := (Price product * Quantity product)%float in
               ((total + lineTotal)%float,
                (vat + lineTotal * float64 (VATRate product) / 100)%float))
            todo (totalLineExtension, totalVAT)),
     snd (fold_left
            (fun '(total, vat) product =>
               let lineTotal := (Price product * Quantity product)%float in
               ((total + lineTotal)%float,
                (vat + lineTotal * float64 (VATRate product) / 100)%float))
            todo (totalLineExtension, totalVAT))).
Proof.
  induction todo as [| product more IH]; intros products t v; simpl.
  - rewrite app_nil_r. reflexivity.
  - rewrite IH, <- List.app_assoc. reflexivity.
Qed.

Lemma invoice_lines_same cfg (invoice : Invoice) :
  Products invoice <> [] -> invoiceDataRaw cfg invoice = invoiceData cfg invoice.
Proof.
  unfold invoiceData, invoiceDataRaw. destruct (Products invoice); [congruence | reflexivity].
Qed.

Lemma invoiceData_fields cfg (invoice : Invoice) :
  invoiceData cfg invoice
  = invoiceFields cfg invoice (VSlice (map (lineOf cfg) (Products invoice)))
      (fst (lineTotals (Products invoice))) (snd (lineTotals (Products invoice))).
Proof.
  unfold invoiceData, lineTotals. rewrite productLines_spec. reflexivity.
Qed.

Lemma invoiceDataRaw_fields cfg (invoice : Invoice) :
  invoiceDataRaw cfg invoice
  = invoiceFields cfg invoice
      (if (length (Products invoice) =? 0)%nat then VNilSlice
       else VSlice (map (lineOf cfg) (Products invoice)))
      (fst (lineTotals (Products invoice))) (snd (lineTotals (Products invoice))).
Proof.
  unfold invoiceDataRaw, lineTotals. rewrite productLines_spec. simpl "++".
  destruct (Products invoice); reflexivity.
Qed.

(** What [postInvoice] sends. *)
Lemma postInvoice_reaches data (c : Client W) r c' :
  postInvoice data c = (r, c') ->
  token c' = token c
  /\ ((reaches c [] c' /\ exists e, r = Err e)
      \/ exists jsonData,
           Marshal (data (config c)) = Ok jsonData
           /\ reaches c [invoiceRequest (config c) (token c) jsonData] c').
Proof.
  unfold postInvoice. run.
  destruct (Marshal (data (config c))) as [jsonData | e] eqn:Em.
  2: { intros [= <- <-]. split; [reflexivity |]. left. split; [apply reaches_refl | eauto]. }
  destruct (NewRequestError _ _).
  { intros [= <- <-]. split; [reflexivity |]. left. split; [apply reaches_refl | eauto]. }
  destruct (RoundTrip _ _) as [[resp | e] w].
  - destruct (ReadAll resp); intros [= <- <-]; (split; [reflexivity |]);
      right; exists jsonData; (split; [reflexivity |]); split; reflexivity.
  - intros [= <- <-]. split; [reflexivity |].
    right. exists jsonData. split; [reflexivity |]. split; reflexivity.
Qed.

Lemma postInvoice_ext data1 data2 (c : Client W) :
  data1 (config c) = data2 (config c) -> postInvoice data1 c = postInvoice data2 c.
Proof. intros Hd. unfold postInvoice. run. rewrite Hd. reflexivity. Qed.

(** What goes out when the token was refreshed and the invoice is posted. *)
Lemma posted_after_refresh data (c : Client W) c0 r c1 :
  updateToken "/Invoice/CreateQuick" c = (None, c0) ->
  postInvoice data c0 = (r, c1) ->
  sentSince c c1 = [tokenRefresh c]
  \/ exists jsonData,
       Marshal (data (config c)) = Ok jsonData
       /\ sentSince c c1
          = [invoiceRequest (config c) (token c0) jsonData; tokenRefresh c].
Proof.
  intros Htoken Hpost.
  pose proof (updateToken_reaches _ _ _ _ Htoken) as R0.
  assert (Hc0 : config c0 = config c) by apply R0.
  destruct (postInvoice_reaches _ _ _ _ Hpost) as [_ [[R1 _] | [jsonData [Hm R1]]]].
  - left. apply (reaches_sentSince _ _ _ (reaches_trans _ _ _ _ _ R0 R1)).
  - right. exists jsonData. rewrite Hc0 in Hm, R1. split; [exact Hm |].
    apply (reaches_sentSince _ _ _ (reaches_trans _ _ _ _ _ R0 R1)).
Qed.

(** X19. Besides the token GET, [CreateInvoice] and [CreateInvoiceRaw] send
    one request at most, the invoice.  Its payload has one line per
    product, in the order of the products, and the two totals summed from
    zero in that order.  [CreateInvoice] encodes the invoice with a zero
    date replaced by the time of the call, and the lines of an invoice
    without products as an empty list; [CreateInvoiceRaw] encodes the date
    as it is given, and the lines of an invoice without products as a nil
    list. *)
Theorem invoice_payloads invoice (c : Client W) :
  let cfg := config c in
  let c0 := snd (updateToken "/Invoice/CreateQuick" c) in
  let lines := map (lineOf cfg) (Products invoice) in
  let totals := lineTotals (Products invoice) in
  (sentSince c (snd (CreateInvoice invoice c)) = [tokenRefresh c]
   \/ exists jsonData,
        Marshal (invoiceFields cfg (dated invoice (Now c0)) (VSlice lines)
                   (fst totals) (snd totals)) = Ok jsonData
        /\ sentSince c (snd (CreateInvoice invoice c))
           = [invoiceRequest cfg (token c0) jsonData; tokenRefresh c])
  /\ (sentSince c (snd (CreateInvoiceRaw invoice c)) = []
      \/ sentSince c (snd (CreateInvoiceRaw invoice c)) = [tokenRefresh c]
      \/ exists jsonData,
           Marshal (invoiceFields cfg invoice
                      (if (length (Products invoice) =? 0)%nat then VNilSlice
                       else VSlice lines)
                      (fst totals) (snd totals)) = Ok jsonData
           /\ sentSince c (snd (CreateInvoiceRaw invoice c))
              = [invoiceRequest cfg (token c0) jsonData; tokenRefresh c]).
Proof.
  cbv zeta. split.
  - destruct (CreateInvoice invoice c) as [out c'] eqn:Hrun. cbn [snd].
    revert Hrun. unfold CreateInvoice, bind at 1.
    destruct (updateToken "/Invoice/CreateQuick" c) as [[e |] c0] eqn:Htoken.
    { intros [= <- <-]. left.
      apply (reaches_sentSince _ _ _ (updateToken_reaches _ _ _ _ Htoken)). }
    unfold bind at 1. unfold bind at 1. fold (dated invoice (Now c0)).
    destruct (postInvoice (fun cfg => invoiceData cfg (dated invoice (Now c0))) c0)
      as [r c1] eqn:Hpost.
    intros Hout.
    assert (c' = c1) as ->
      by (destruct r; [destruct (_ || _) |]; injection Hout; congruence).
    pose proof (posted_after_refresh _ _ _ _ _ Htoken Hpost) as Hsent.
    cbv beta in Hsent. rewrite invoiceData_fields in Hsent.
    replace (Products (dated invoice (Now c0))) with (Products invoice) in Hsent
      by (unfold dated; destruct (IsZero (Date invoice)); reflexivity).
    exact Hsent.
  - destruct (CreateInvoiceRaw invoice c) as [out c'] eqn:Hrun. cbn [snd].
    revert Hrun. unfold CreateInvoiceRaw.
    destruct (String.eqb (CustomerID invoice) "").
    { intros [= <- <-]. left. apply (reaches_sentSince _ _ _ (reaches_refl c)). }
    right. revert Hrun. unfold bind at 1.
    destruct (updateToken "/Invoice/CreateQuick" c) as [[e |] c0] eqn:Htoken.
    { intros [= <- <-]. left.
      apply (reaches_sentSince _ _ _ (updateToken_reaches _ _ _ _ Htoken)). }
    intros Hpost.
    pose proof (posted_after_refresh _ _ _ _ _ Htoken Hpost) as Hsent.
    cbv beta in Hsent. rewrite invoiceDataRaw_fields in Hsent. exact Hsent.
Qed.

(** X20. [CreateInvoiceRaw] refuses an invoice without a customer id before
    it sends anything.  [CreateInvoice] has no such check: when the token
    page and the encoding succeed it posts the same invoice, with the empty
    id in it. *)
Theorem CreateInvoiceRaw_needs_customer invoice (c : Client W) :
  CustomerID invoice = "" ->
  CreateInvoiceRaw invoice c = (Err "müşteri ID gerekli", c)
  /\ (forall c0 jsonData,
        updateToken "/Invoice/CreateQuick" c = (None, c0) ->
        IsZero (Date invoice) = false ->
        Marshal (invoiceData (config c) invoice) = Ok jsonData ->
        NewRequestError "POST" (BaseURL (config c) +:+ "/Invoice/Create") = None ->
        sentSince c (snd (CreateInvoice invoice c))
        = [invoiceRequest (config c) (token c0) jsonData; tokenRefresh c]).
Proof.
  intros Hid. split.
  - unfold CreateInvoiceRaw. rewrite Hid. reflexivity.
  - intros c0 jsonData Htoken Hdate Hm Hnew.
    pose proof (updateToken_reaches _ _ _ _ Htoken) as [Hs0 Hc0].
    unfold CreateInvoice, bind at 1. rewrite Htoken. unfold bind at 1. rewrite Hdate.
    unfold bind at 1.
    destruct (postInvoice (fun cfg => invoiceData cfg invoice) c0) as [r c1] eqn:Hpost.
    assert (Hsent : sent c1 = invoiceRequest (config c) (token c0) jsonData :: sent c0
                    /\ config c1 = config c0).
    { revert Hpost. unfold postInvoice. run. rewrite Hc0, Hm, Hnew.
      split_run; intros; simplify_eq; split; simpl; congruence. }
    destruct Hsent as [Hs1 Hc1].
    assert (Hfinal : reaches c
              [invoiceRequest (config c) (token c0) jsonData; tokenRefresh c] c1).
    { split; simpl; [rewrite Hs1, Hs0; reflexivity | congruence]. }
    destruct r as [body | e]; [destruct (String.eqb _ _ || strings.Contains _ _) |];
      apply reaches_sentSince; exact Hfinal.
Qed.

(** X21. [CreateInvoice] returns a number or an error, never both: with an
    error the number is empty; without one the number is not empty, does
    not hold "error", and neither starts nor ends with a double quote. *)
Theorem CreateInvoice_number invoice (c : Client W) no err c' :
  CreateInvoice invoice c = ((no, err), c') ->
  (err <> None -> no = "")
  /\ (err = None ->
      no <> "" /\ strings.Contains no "error" = false
      /\ (forall a r, no = String a r -> a <> ascii_of_nat 34)
      /\ (forall pre a, no = pre +:+ String a "" -> a <> ascii_of_nat 34)).
Proof.
  unfold CreateInvoice, bind at 1.
  destruct (updateToken "/Invoice/CreateQuick" c) as [[e |] c0].
  { intros [= <- <- <-]. split; [reflexivity | discriminate]. }
  unfold bind at 1. unfold bind at 1.
  destruct (postInvoice _ _) as [[body | e] c1].
  2: { intros [= <- <- <-]. split; [reflexivity | discriminate]. }
  destruct (String.eqb_spec (Trim body (ascii_of_nat 34)) "") as [E | Hne]; simpl.
  { intros [= <- <- <-]. split; [reflexivity | discriminate]. }
  destruct (strings.Contains (Trim body (ascii_of_nat 34)) "error") eqn:Herr.
  { intros [= <- <- <-]. split; [reflexivity | discriminate]. }
  intros [= <- <- <-]. split; [congruence |]. intros _.
  destruct (Trim_ends (ascii_of_nat 34) body) as [Hhead Hlast].
  repeat split; assumption.
Qed.

(** X22. For an invoice with a customer id, a date and a product,
    [CreateInvoice] is [CreateInvoiceRaw] followed by the reading of the
    number in the body: the same requests are sent, an error of the raw
    call is returned as it is, and a body gives its number or the error
    that no invoice was made. *)
Theorem CreateInvoice_of_raw invoice (c : Client W) :
  CustomerID invoice <> "" ->
  IsZero (Date invoice) = false ->
  Products invoice <> [] ->
  CreateInvoice invoice c
  = (match fst (CreateInvoiceRaw invoice c) with
     | Ok body => invoiceNumber body
     | Err e => ("", Some e)
     end, snd (CreateInvoiceRaw invoice c)).
Proof.
  intros Hid Hdate Hproducts.
  assert (Hraw : CreateInvoiceRaw invoice c
                 = match updateToken "/Invoice/CreateQuick" c with
                   | (Some e, c0) => (Err ("token güncellenemedi: " +:+ e), c0)
                   | (None, c0) => postInvoice (fun cfg => invoiceDataRaw cfg invoice) c0
                   end).
  { unfold CreateInvoiceRaw, bind. apply String.eqb_neq in Hid. rewrite Hid.
    destruct (updateToken "/Invoice/CreateQuick" c) as [[e |] c0]; reflexivity. }
  rewrite Hraw. unfold CreateInvoice, bind at 1.
  destruct (updateToken "/Invoice/CreateQuick" c) as [[e |] c0]; [reflexivity |].
  unfold bind at 1. rewrite Hdate. unfold bind at 1.
  rewrite (postInvoice_ext (fun cfg => invoiceData cfg invoice)
                           (fun cfg => invoiceDataRaw cfg invoice))
    by (symmetry; apply invoice_lines_same; exact Hproducts).
  destruct (postInvoice _ c0) as [[body | e] c1]; [| reflexivity].
  unfold invoiceNumber. simpl.
  destruct (String.eqb _ _ || strings.Contains _ _); reflexivity.
Qed.

(** What [CreateInvoice] sends. *)
Lemma CreateInvoice_reaches invoice (c : Client W) r c' :
  CreateInvoice invoice c = (r, c') ->
  reaches c [tokenRefresh c] c'
  \/ exists date jsonData,
       Marshal (invoiceData (config c) (withDate invoice date)) = Ok jsonData
       /\ reaches c [invoiceRequest (config c) (token c') jsonData; tokenRefresh c] c'.
Proof.
  unfold CreateInvoice, bind at 1.
  destruct (updateToken "/Invoice/CreateQuick" c) as [[e |] c0] eqn:Htoken.
  { intros [= <- <-]. left. apply (updateToken_reaches _ _ _ _ Htoken). }
  pose proof (updateToken_reaches _ _ _ _ Htoken) as R0.
  unfold bind at 1. unfold bind at 1.
  set (inv := if IsZero (Date invoice) then withDate invoice (Now c0) else invoice).
  assert (Hinv : exists date, inv = withDate invoice date).
  { unfold inv. destruct (IsZero (Date invoice)); [eauto |].
    exists (Date invoice). destruct invoice; reflexivity. }
  destruct Hinv as [date Hinv].
  destruct (postInvoice (fun cfg => invoiceData cfg inv) c0) as [r0 c1] eqn:Hpost.
  destruct (postInvoice_reaches _ _ _ _ Hpost) as [Ht [[R1 _] | [jsonData [Hm R1]]]].
  - intros Hout. left.
    assert (c' = c1) as ->
      by (destruct r0; [destruct (_ || _) |]; injection Hout; congruence).
    apply (reaches_trans _ _ _ _ _ R0 R1).
  - intros Hout. right.
    assert (c' = c1) as ->
      by (destruct r0; [destruct (_ || _) |]; injection Hout; congruence).
    exists date, jsonData. destruct R0 as [S0 C0]. rewrite <- Hinv, <- C0. split; [exact Hm |].
    rewrite Ht. apply (reaches_trans c [tokenRefresh c] c0 [_] c1); [split; assumption |].
    rewrite C0 in R1 |- *. exact R1.
Qed.

(** X23. [CreateInvoiceWithCustomer] sends nothing without a customer.
    With one it resolves the customer first; when that fails it stops
    there, with the error wrapped.  Otherwise the only requests that follow
    are the token GET and at most one invoice POST, and the invoice posted
    is the one of the customer id that the resolution gave, with the
    products given and no notes. *)
Theorem CreateInvoiceWithCustomer_order customer products (c : Client W) :
  CreateInvoiceWithCustomer None products c = (("", Some "müşteri bilgisi gerekli"), c)
  /\ forall id err c1,
       CreateCustomerOrGetExisting customer c = ((id, err), c1) ->
       let final := CreateInvoiceWithCustomer (Some customer) products c in
       match err with
       | Some e =>
         final = (("", Some ("müşteri işlemi başarısız: " +:+ e)), c1)
       | None =>
         sentSince c1 (snd final) = [tokenRefresh c]
         \/ exists date jsonData,
              Marshal (invoiceData (config c)
                         {| CustomerID := id; Products := products;
                            Date := date; Notes := [] |}) = Ok jsonData
              /\ sentSince c1 (snd final)
                 = [invoiceRequest (config c) (token (snd final)) jsonData; tokenRefresh c]
       end.
Proof.
  split; [reflexivity |].
  intros id err c1 Hres final. unfold final, CreateInvoiceWithCustomer, bind.
  rewrite Hres. destruct err as [e |]; [reflexivity |]. cbv beta iota.
  assert (Hcfg : config c1 = config c).
  { pose proof (resolution_config customer c) as Hc. rewrite Hres in Hc. exact Hc. }
  assert (Hrefresh : tokenRefresh c1 = tokenRefresh c)
    by (unfold tokenRefresh; rewrite Hcfg; reflexivity).
  destruct (CreateInvoice {| CustomerID := id; Products := products;
                             Date := Now c1; Notes := [] |} c1)
    as [[no err] c2] eqn:Hinvoice.
  assert (Hsnd : forall out : string * option error, snd (out, c2) = c2) by reflexivity.
  destruct (CreateInvoice_reaches _ _ _ _ Hinvoice) as [R | [date [jsonData [Hm R]]]].
  - left. rewrite <- Hrefresh.
    destruct err; simpl; apply reaches_sentSince; exact R.
  - right. exists date, jsonData. rewrite <- Hcfg, <- Hrefresh. split; [exact Hm |].
    destruct err; simpl; apply reaches_sentSince; exact R.
Qed.

End InvoiceFacts.

(** ** Runs on the samples *)

Section SampleRuns.

Import Scripted.
Import Samples.

(** C7 at the failing input.  For a customer without a name the local
    validation error comes after a request was sent, the GET that refreshes
    the token, and the token stored has changed from "stale" to the one of
    the page.  The sibling [CreateInvoiceRaw], given an invoice without a
    customer id on the same client, checks its input first: it sends
    nothing and leaves the client as it was. *)
Theorem C7_refresh_before_validation :
  Name nameless = ""
  /\ fst (CreateCustomer nameless freshPage) = ("", Some "müşteri adı zorunludur")
  /\ sent freshPage = []
  /\ sent (snd (CreateCustomer nameless freshPage))
     = [getRequest "https://portal.test/Invoice/CreateQuick"]
  /\ token freshPage = "stale"
  /\ token (snd (CreateCustomer nameless freshPage)) = "abc"
  /\ CreateInvoiceRaw invoiceOfNobody freshPage = (Err "müşteri ID gerekli", freshPage).
Proof. repeat split; vm_compute; reflexivity. Qed.

Example invoice_number_read :
  CreateInvoice invoiceOfAyse invoicing
  = (("NET2025000000042", None),
     {| httpClient := [];
        sent := [invoiceRequest cfg "abc" (encode (invoiceData cfg invoiceOfAyse));
                 getRequest "https://portal.test/Invoice/CreateQuick"];
        config := cfg; token := "abc" |}).
Proof. vm_compute. reflexivity. Qed.

Example lines_of_no_product :
  let invoice := {| CustomerID := "1042"; Products := []; Date := 5; Notes := [] |} in
  strings.Contains (encode (invoiceDataRaw cfg invoice))
    (dq +:+ "Products" +:+ dq +:+ ":null") = true
  /\ strings.Contains (encode (invoiceData cfg invoice))
       (dq +:+ "Products" +:+ dq +:+ ":[]") = true.
Proof. split; vm_compute; reflexivity. Qed.

Example float64_of_the_least_int :
  float64 (- 2 ^ 63) = (- 0x1p+63)%float
  /\ float64 (- 2 ^ 63 + 1) = (- 0x1p+63)%float
  /\ float64 (2 ^ 63 - 1) = 0x1p+63%float
  /\ float64 (- 20) = (- 20)%float.
Proof. repeat split; vm_compute; reflexivity. Qed.

Example zero_date_encoded :
  strings.Contains (encode (invoiceData cfg (dated undated 2))) "02-01-2006@2" = true
  /\ strings.Contains (encode (invoiceDataRaw cfg undated)) "02-01-2006@0" = true.
Proof. split; vm_compute; reflexivity. Qed.

Lemma invoice_payloads_witness :
  exists jsonData,
    Marshal (invoiceFields (config invoicing)
               (dated undated (Now (snd (updateToken "/Invoice/CreateQuick" invoicing))))
               (VSlice (map (lineOf (config invoicing)) (Products undated)))
               (fst (lineTotals (Products undated)))
               (snd (lineTotals (Products undated)))) = Ok jsonData
    /\ sentSince invoicing (snd (CreateInvoice undated invoicing))
       = [invoiceRequest (config invoicing)
            (token (snd (updateToken "/Invoice/CreateQuick" invoicing))) jsonData;
          tokenRefresh invoicing].
Proof.
  destruct (proj1 (invoice_payloads undated invoicing)) as [Hnone | Hposted].
  - vm_compute in Hnone. discriminate Hnone.
  - exact Hposted.
Defined.

Lemma parseIntOrZero_Sprintf_witness :
  parseIntOrZero (fmt.Sprintf_d 1042 +:+ ".0") = 1042
  /\ parseIntOrZero (fmt.Sprintf_d (-7) +:+ " TL") = -7.
Proof.
  split.
  - apply (parseIntOrZero_Sprintf 1042 ".0"); [lia | reflexivity].
  - apply (parseIntOrZero_Sprintf (-7) " TL"); [lia | reflexivity].
Defined.

Lemma GetCityID_first_match_witness :
  GetCityID ege "Ankara" = "-1"
  /\ exists pre city post,
       Cities ege = pre ++ city :: post
       /\ sameFolded (City_Name city) " denizli"
       /\ (forall c, In c pre -> ~ sameFolded (City_Name c) " denizli")
       /\ GetCityID ege " denizli" = City_ID city.
Proof.
  split.
  - apply (proj1 (GetCityID_first_match ege "Ankara")).
    intros city [<- | [<- | []]]; vm_compute; discriminate.
  - apply (proj2 (GetCityID_first_match ege " denizli")).
    eexists. split; [right; left; reflexivity | vm_compute; reflexivity].
Defined.

Lemma GetCityName_GetCityID_witness :
  sameFolded (GetCityName ege (GetCityID ege "izmir")) "izmir".
Proof.
  apply (GetCityName_GetCityID ege "izmir").
  - apply (bool_decide_unpack _). vm_compute. reflexivity.
  - eexists. split; [left; reflexivity | vm_compute; reflexivity].
Defined.

Lemma GetCityID_GetCityName_witness :
  GetCityID ege (GetCityName ege "20") = "20".
Proof.
  apply (GetCityID_GetCityName ege "20").
  - apply (bool_decide_unpack _). vm_compute. reflexivity.
  - eexists. split; [right; left; reflexivity | reflexivity].
Defined.

Lemma GetDistrictName_GetDistrictID_witness :
  exists d, In d [{| District_ID := 1; District_Name := "Bornova" |};
                  {| District_ID := 2; District_Name := "Konak" |}]
    /\ answers "KONAK" d
    /\ GetDistrictName ege "35" (GetDistrictID ege "35" "KONAK") = District_Name d.
Proof.
  apply (GetDistrictName_GetDistrictID ege "35" "KONAK").
  - vm_compute. reflexivity.
  - apply (bool_decide_unpack _). vm_compute. reflexivity.
  - vm_compute. discriminate.
Defined.

Lemma GetDistrictIDByNames_composes_witness :
  GetDistrictIDByNames ege "Ankara" "Konak" = -1
  /\ GetDistrictIDByNames ege "Denizli" "Pamukkale"
     = if String.eqb "20" "-1" then -1 else GetDistrictID ege "20" "Pamukkale".
Proof.
  split.
  - apply (proj1 (GetDistrictIDByNames_composes ege "Ankara" "Konak")).
    intros city [<- | [<- | []]]; vm_compute; discriminate.
  - apply (proj2 (GetDistrictIDByNames_composes ege "Denizli" "Pamukkale")
             [{| City_ID := "35"; City_Name := "IZMIR" |}]
             {| City_ID := "20"; City_Name := "Denizli" |} []).
    + reflexivity.
    + vm_compute. reflexivity.
    + intros c [<- | []]. vm_compute. discriminate.
Defined.

Lemma GetDistrictID_plain_name_witness :
  GetDistrictID ege "20" " PAMUKKALE " = 20.
Proof.
  apply (GetDistrictID_plain_name ege "20" " PAMUKKALE "
           [{| District_ID := 10; District_Name := "Merkezefendi" |}]
           {| District_ID := 20; District_Name := "Pamukkale" |} []).
  - vm_compute. reflexivity.
  - vm_compute. reflexivity.
  - vm_compute. reflexivity.
  - intros x [<- | []]. vm_compute. discriminate.
Defined.

Lemma updateToken_outcome_witness :
  sentSince freshPage (snd (updateToken "/Invoice/CreateQuick" freshPage))
  = [getRequest (BaseURL (config freshPage) +:+ "/Invoice/CreateQuick")]
  /\ config (snd (updateToken "/Invoice/CreateQuick" freshPage)) = config freshPage
  /\ exists resp body,
       RoundTrip (httpClient freshPage)
         (getRequest (BaseURL (config freshPage) +:+ "/Invoice/CreateQuick"))
       = (Ok resp, httpClient (snd (updateToken "/Invoice/CreateQuick" freshPage)))
       /\ ReadAll resp = Ok body
       /\ (2 <= length (FindStringSubmatch tokenPattern body))%nat
       /\ token (snd (updateToken "/Invoice/CreateQuick" freshPage))
          = nth 1 (FindStringSubmatch tokenPattern body) "".
Proof.
  apply (updateToken_outcome "/Invoice/CreateQuick" freshPage None).
  vm_compute. reflexivity.
Defined.

Lemma CreateCustomer_submits_witness :
  (sentSince acceptance (snd (CreateCustomer ayseKaya acceptance)) = [tokenRefresh acceptance]
   /\ snd (fst (CreateCustomer ayseKaya acceptance)) <> None)
  \/ (sentSince acceptance (snd (CreateCustomer ayseKaya acceptance))
      = [createRequest (config acceptance)
           (token (snd (CreateCustomer ayseKaya acceptance))) (withDefaults ayseKaya);
         tokenRefresh acceptance]
      /\ Name ayseKaya <> "" /\ TaxNumber ayseKaya <> ""
      /\ (Email ayseKaya <> "" \/ SendingType ayseKaya <> 1)
      /\ fst (updateToken "/Invoice/CreateQuick" acceptance) = None
      /\ token (snd (CreateCustomer ayseKaya acceptance))
         = token (snd (updateToken "/Invoice/CreateQuick" acceptance))).
Proof.
  apply (CreateCustomer_submits ayseKaya acceptance).
  vm_compute. reflexivity.
Defined.

Lemma ties_go_to_the_first_witness :
  fst (CreateCustomerOrGetExisting ayseKaya twoNamesakes) = (fmt.Sprintf_d 1, None).
Proof.
  refine (ties_go_to_the_first ayseKaya twoNamesakes _ _ afterCreation
            (listOf [ayse 1 28 413; ayse 2 6 100]) afterListing
            (ayse 1 28 413) [ayse 2 6 100] _ _ _ _ _ _).
  - vm_compute. reflexivity.
  - vm_compute. reflexivity.
  - vm_compute. reflexivity.
  - vm_compute. reflexivity.
  - discriminate.
  - intros sm Hin. vm_compute in Hin.
    destruct Hin as [<- | [<- | []]]; vm_compute; reflexivity.
Defined.

Lemma GetRecipientDetail_reads_any_page_witness :
  fst (GetRecipientDetail 7 blankDetail) = Ok emptyCustomer
  /\ token (snd (GetRecipientDetail 7 blankDetail)) = token blankDetail.
Proof.
  destruct (GetRecipientDetail_reads_any_page 7 blankDetail
              {| StatusCode := 200; ReadAll := Ok "<html></html>" |}
              "<html></html>" [])
    as [detail [c' [Hrun [Htoken [_ [_ [_ [_ Hempty]]]]]]]];
    [reflexivity | reflexivity | reflexivity |].
  rewrite Hrun. simpl. split; [| exact Htoken].
  rewrite Hempty; [reflexivity |].
  intros pattern Hin. unfold detailPatterns in Hin. simpl in Hin.
  repeat (destruct Hin as [<- | Hin]; [vm_compute; reflexivity |]).
  destruct Hin.
Defined.

Lemma Login_sends_witness :
  sentSince signingIn (snd (Login "1234567890" "secret" signingIn))
  = [postFormRequest "https://portal.test/Account/Login"
       (loginForm "1234567890" "secret" "abc");
     getRequest "https://portal.test/account/login"]
  /\ fst (Login "1234567890" "secret" signingIn) = None.
Proof.
  destruct (Login_sends "1234567890" "secret" signingIn None
              (snd (Login "1234567890" "secret" signingIn)))
    as [[_ [_ Hfail]] | [Hsent _]].
  - vm_compute. reflexivity.
  - exfalso. apply Hfail. reflexivity.
  - split; [exact Hsent | vm_compute; reflexivity].
Defined.

Lemma CreateInvoiceRaw_needs_customer_witness :
  CreateInvoiceRaw invoiceOfNobody invoicing = (Err "müşteri ID gerekli", invoicing)
  /\ sentSince invoicing (snd (CreateInvoice invoiceOfNobody invoicing))
     = [invoiceRequest cfg "abc" (encode (invoiceData cfg invoiceOfNobody));
        tokenRefresh invoicing].
Proof.
  destruct (CreateInvoiceRaw_needs_customer invoiceOfNobody invoicing eq_refl)
    as [Hraw Hposted].
  split; [exact Hraw |].
  refine (Hposted (snd (updateToken "/Invoice/CreateQuick" invoicing))
            (encode (invoiceData cfg invoiceOfNobody)) _ _ _ _);
    vm_compute; reflexivity.
Defined.

Lemma CreateInvoice_number_witness :
  "NET2025000000042" <> ""
  /\ strings.Contains "NET2025000000042" "error" = false
  /\ (forall a r, "NET2025000000042" = String a r -> a <> ascii_of_nat 34)
  /\ (forall pre a, "NET2025000000042" = pre +:+ String a "" -> a <> ascii_of_nat 34).
Proof.
  refine (proj2 (CreateInvoice_number invoiceOfAyse invoicing "NET2025000000042" None
                   (snd (CreateInvoice invoiceOfAyse invoicing)) _) eq_refl).
  vm_compute. reflexivity.
Defined.

Lemma CreateInvoice_of_raw_witness :
  CreateInvoice invoiceOfAyse invoicing
  = (match fst (CreateInvoiceRaw invoiceOfAyse invoicing) with
     | Ok body => invoiceNumber body
     | Err e => ("", Some e)
     end, snd (CreateInvoiceRaw invoiceOfAyse invoicing)).
Proof.
  apply (CreateInvoice_of_raw invoiceOfAyse invoicing).
  - discriminate.
  - reflexivity.
  - discriminate.
Defined.

Lemma CreateInvoiceWithCustomer_order_witness :
  let resolved := snd (CreateCustomerOrGetExisting ayseKaya sale) in
  let final := CreateInvoiceWithCustomer (Some ayseKaya) [kalem] sale in
  sentSince resolved (snd final) = [tokenRefresh sale]
  \/ exists date jsonData,
       Marshal (invoiceData (config sale)
                  {| CustomerID := "1042"; Products := [kalem];
                     Date := date; Notes := [] |}) = Ok jsonData
       /\ sentSince resolved (snd final)
          = [invoiceRequest (config sale) (token (snd final)) jsonData; tokenRefresh sale].
Proof.
  refine (proj2 (CreateInvoiceWithCustomer_order ayseKaya [kalem] sale) "1042" None
            (snd (CreateCustomerOrGetExisting ayseKaya sale)) _).
  vm_compute. reflexivity.
Defined.

End SampleRuns.
